(** * service_sync_files: the synchronisation service and its storage client

    A shallow embedding of [sync_service.py] (class [FileSyncService]) and
    [cloud_storage.py] (class [YandexDiskStorage]).

    Python code that raises and catches exceptions, mutates [self] and talks
    to the file system and to the network is written in a state-and-exception
    monad [M].  The file system and the network are part of the state as
    oracles: the file system answers [listdir], [stat] and [open], the network
    answers the n-th HTTP request.  Everything the service does to the outside
    is recorded: the HTTP requests sent, the storage-client methods invoked by
    the service, and the log records written. *)

From Stdlib Require Import String Ascii List ZArith Bool Arith Lia DecimalString.
Import ListNotations.
Open Scope string_scope.

Set Implicit Arguments.

(* ================================================================== *)
(** ** Python exceptions *)

(** The exception classes that occur in the two modules, with the part of
    Python's class hierarchy they live in.  [IOError] is an alias of
    [OSError]; the [Req*] classes are those of [requests.exceptions], all of
    which derive from [RequestException], itself a subclass of [IOError]. *)
Inductive ExnClass : Type :=
| BaseException
| KeyboardInterrupt
| SystemExit
| PyException
| ValueError
| RuntimeError
| KeyError
| OverflowError
| NameError
| OSError
| PermissionError
| FileNotFoundError
| NotADirectoryError
| ConnectionError
| TimeoutError
| RequestException
| ReqHTTPError
| ReqConnectionError
| ReqTimeout.

Definition ExnClass_eq_dec (a b : ExnClass) : {a = b} + {a <> b}.
Proof. decide equality. Defined.

Definition ExnClass_eqb (a b : ExnClass) : bool :=
  if ExnClass_eq_dec a b then true else false.

(** The direct base class. *)
Definition base_class (c : ExnClass) : option ExnClass :=
  match c with
  | BaseException => None
  | KeyboardInterrupt | SystemExit | PyException => Some BaseException
  | ValueError | RuntimeError | KeyError | OverflowError | NameError | OSError =>
      Some PyException
  | PermissionError | FileNotFoundError | NotADirectoryError
  | ConnectionError | TimeoutError | RequestException => Some OSError
  | ReqHTTPError | ReqConnectionError | ReqTimeout => Some RequestException
  end.

(** [issubclass c d]: [d] is [c] or one of its ancestors (the hierarchy is
    four levels deep). *)
Fixpoint issubclass_fuel (n : nat) (c d : ExnClass) : bool :=
  ExnClass_eqb c d ||
  match n with
  | O => false
  | S n' => match base_class c with
            | Some b => issubclass_fuel n' b d
            | None => false
            end
  end.

Definition issubclass : ExnClass -> ExnClass -> bool := issubclass_fuel 4.

(** An exception object: its class and [str(e)]. *)
Record exn : Type := mkExn { cls : ExnClass; str : string }.

Definition isinstance (e : exn) (c : ExnClass) : bool := issubclass (cls e) c.

(* ================================================================== *)
(** ** Dictionaries

    A Python [dict] keeps its keys in insertion order and the service
    iterates over it, so it is an association list; [dict_set] is
    [d[k] = v]: it replaces the value in place when the key exists and
    appends otherwise. *)

Definition Dict (V : Type) : Type := list (string * V).

Fixpoint dict_get {V} (k : string) (d : Dict V) : option V :=
  match d with
  | [] => None
  | (k', v) :: d' => if String.eqb k k' then Some v else dict_get k d'
  end.

Fixpoint dict_set {V} (k : string) (v : V) (d : Dict V) : Dict V :=
  match d with
  | [] => [(k, v)]
  | (k', v') :: d' =>
      if String.eqb k k' then (k', v) :: d' else (k', v') :: dict_set k v d'
  end.

Definition dict_keys {V} (d : Dict V) : list string := map fst d.

Definition dict_items {V} (d : Dict V) : list (string * V) := d.

(** [k in d] *)
Definition dict_contains {V} (k : string) (d : Dict V) : bool :=
  match dict_get k d with Some _ => true | None => false end.

(** [d.copy()]: a new dictionary with the same items. *)
Definition dict_copy {V} (d : Dict V) : Dict V := d.

(** The representation invariant of a dictionary: no key occurs twice. *)
Definition dict_wf {V} (d : Dict V) : Prop := NoDup (dict_keys d).

(* ================================================================== *)
(** ** The file system *)

Inductive Errno : Type := EACCES | ENOENT | ENOTDIR | EIO.

Definition Errno_eq_dec (a b : Errno) : {a = b} + {a <> b}.
Proof. decide equality. Defined.

Inductive OsRes (A : Type) : Type :=
| OsOk (a : A)
| OsErr (n : Errno).
Arguments OsOk {A} a.
Arguments OsErr {A} n.

Record Stat : Type := mkStat {
  st_isreg : bool;   (* S_ISREG(st_mode) *)
  st_size : Z;
  st_mtime : Z       (* the time stamp, never inspected by the service *)
}.

(** What the operating system answers.  Paths are strings.  A file's bytes
    are seen only through their MD5 digest, so [fs_md5 p] is the hex digest
    of the bytes of [p] when it can be opened and read. *)
Record FileSystem : Type := mkFS {
  fs_listdir : string -> OsRes (list string);
  fs_stat : string -> OsRes Stat;
  fs_md5 : string -> OsRes string
}.

(** The [OSError] subclass Python raises for an errno. *)
Definition exn_of_errno (n : Errno) : exn :=
  match n with
  | EACCES => mkExn PermissionError "[Errno 13] Permission denied"
  | ENOENT => mkExn FileNotFoundError "[Errno 2] No such file or directory"
  | ENOTDIR => mkExn NotADirectoryError "[Errno 20] Not a directory"
  | EIO => mkExn OSError "[Errno 5] Input/output error"
  end.

(** [Path / name] and [os.path.basename]. *)
Definition joinpath (folder file_name : string) : string :=
  folder ++ "/" ++ file_name.

Fixpoint basename_from (acc : string) (s : string) : string :=
  match s with
  | EmptyString => acc
  | String c s' =>
      if Ascii.eqb c "/"%char then basename_from s' s' else basename_from acc s'
  end.

Definition basename (p : string) : string := basename_from p p.

(* ================================================================== *)
(** ** The network *)

Record RemoteItem : Type := mkRemoteItem {
  item_type : option string;     (* item['type'], [None]: key missing *)
  item_name : option string;     (* item['name'], [None]: key missing *)
  item_size : option Z;          (* item.get('size', 0) *)
  item_modified : option string  (* item.get('modified', '') *)
}.

(** The decoded JSON body, as far as the client looks at it. *)
Record JsonBody : Type := mkJson {
  href : option string;          (* .get('href') *)
  items : list RemoteItem        (* .get('_embedded', {}).get('items', []) *)
}.

Record Response : Type := mkResponse {
  status_code : nat;
  text : string;
  json : option JsonBody         (* [None]: response.json() raises *)
}.

(** What [requests] does with one request: a response, or one of its own
    exceptions. *)
Inductive Reply : Type :=
| Replied (r : Response)
| RaisedConnectionError (msg : string)
| RaisedTimeout (msg : string)
| RaisedRequestException (msg : string).

Record Request : Type := mkRequest {
  method : string;
  url : string;
  params : list (string * string)
}.

(* ================================================================== *)
(** ** Observations *)

(** A storage-client method invoked by the service. *)
Inductive Call : Type :=
| CGetInfo
| CLoad (file_path : string)
| CReload (file_path : string)
| CDelete (filename : string).

Definition Call_eq_dec (a b : Call) : {a = b} + {a <> b}.
Proof. decide equality; apply string_dec. Defined.

Inductive Level : Type := INFO | ERROR.

(** One constructor per message of the two modules; [render] gives the text
    that is written. *)
Inductive LogEvent : Type :=
| LogStart
| LogFolder (folder : string)
| LogReadError (file_path : string) (e : exn)
| LogFolderAccess (folder : string) (e : exn)
| LogInitialBegin
| LogUploaded (file_name : string)
| LogUploadError (file_name : string) (e : exn)
| LogInitialDone
| LogInitialError (e : exn)
| LogNewUploaded (file_name : string)
| LogNewUploadError (file_name : string) (e : exn)
| LogUpdated (file_name : string)
| LogUpdateError (file_name : string) (e : exn)
| LogDeleted (file_name : string)
| LogDeleteError (file_name : string) (e : exn)
| LogSyncError (e : exn)
| LogStopped
| LogCritical (e : exn).

Definition render (ev : LogEvent) : string :=
  match ev with
  | LogStart => "Запуск программы синхронизации"
  | LogFolder f => "Синхронизируемая папка: " ++ f
  | LogReadError p e => "Ошибка чтения файла " ++ p ++ ": " ++ str e
  | LogFolderAccess f e => "Ошибка доступа к папке " ++ f ++ ": " ++ str e
  | LogInitialBegin => "Начало первоначальной синхронизации"
  | LogUploaded n => "Файл загружен: " ++ n
  | LogUploadError n e => "Ошибка загрузки файла " ++ n ++ ": " ++ str e
  | LogInitialDone => "Первоначальная синхронизация завершена"
  | LogInitialError e => "Ошибка при первоначальной синхронизации: " ++ str e
  | LogNewUploaded n => "Новый файл загружен: " ++ n
  | LogNewUploadError n e => "Ошибка загрузки нового файла " ++ n ++ ": " ++ str e
  | LogUpdated n => "Файл обновлен: " ++ n
  | LogUpdateError n e => "Ошибка обновления файла " ++ n ++ ": " ++ str e
  | LogDeleted n => "Файл удален из облака: " ++ n
  | LogDeleteError n e => "Ошибка удаления файла " ++ n ++ ": " ++ str e
  | LogSyncError e => "Ошибка при синхронизации: " ++ str e
  | LogStopped => "Программа остановлена пользователем"
  | LogCritical e => "Критическая ошибка: " ++ str e
  end.

Abbreviation LogRecord := (Level * LogEvent)%type.

(* ================================================================== *)
(** ** The state *)

(** What the scanner records about one file (the inner dictionary of
    [scan_local_folder]). *)
Record FileInfo : Type := mkFileInfo {
  name : string;
  path : string;
  hash : string;
  size : Z;
  modified : Z
}.

Record Config : Type := mkConfig {
  sync_folder_path : string;
  cloud_folder_name : string;
  yandex_token : string;
  sync_period : Z;
  log_file_path : string
}.

Record State : Type := mkState {
  local_files_cache : Dict FileInfo;   (* self.local_files_cache *)
  fs : FileSystem;                     (* the file system, as it is now *)
  net : nat -> Reply;                  (* the answer to the n-th request *)
  requests : list Request;             (* requests sent, oldest first *)
  calls : list Call;                   (* client methods invoked, oldest first *)
  log : list LogRecord                 (* log records, oldest first *)
}.

Definition set_cache (d : Dict FileInfo) (st : State) : State :=
  mkState d (fs st) (net st) (requests st) (calls st) (log st).

Definition set_fs (f : FileSystem) (st : State) : State :=
  mkState (local_files_cache st) f (net st) (requests st) (calls st) (log st).

Definition set_net (n : nat -> Reply) (st : State) : State :=
  mkState (local_files_cache st) (fs st) n (requests st) (calls st) (log st).

Definition add_request (r : Request) (st : State) : State :=
  mkState (local_files_cache st) (fs st) (net st) (requests st ++ [r])
          (calls st) (log st).

Definition add_call (c : Call) (st : State) : State :=
  mkState (local_files_cache st) (fs st) (net st) (requests st)
          (calls st ++ [c]) (log st).

Definition add_log (r : LogRecord) (st : State) : State :=
  mkState (local_files_cache st) (fs st) (net st) (requests st)
          (calls st) (log st ++ [r]).

(* ================================================================== *)
(** ** The monad *)

Inductive Res (A : Type) : Type :=
| Ret (a : A)
| Raise (e : exn).
Arguments Ret {A} a.
Arguments Raise {A} e.

(** A computation over a state of type [S] that returns or raises. *)
Definition M (S A : Type) : Type := S -> Res A * S.

Definition ret {S A} (a : A) : M S A := fun s => (Ret a, s).

Definition raise {S A} (e : exn) : M S A := fun s => (Raise e, s).

Definition bind {S A B} (m : M S A) (k : A -> M S B) : M S B :=
  fun s => match m s with
           | (Ret a, s') => k a s'
           | (Raise e, s') => (Raise e, s')
           end.

Declare Scope monad_scope.
Delimit Scope monad_scope with monad.
Notation "x <- m ;; k" := (bind m (fun x => k))
  (at level 61, m at next level, right associativity) : monad_scope.
Notation "m ;; k" := (bind m (fun _ => k))
  (at level 61, right associativity) : monad_scope.
Open Scope monad_scope.

Definition gets {S A} (f : S -> A) : M S A := fun s => (Ret (f s), s).

Definition modify {S} (f : S -> S) : M S unit := fun s => (Ret tt, f s).

(** [try: m  except ...: ...]: the handler answers [None] for an exception
    that no clause matches, which then propagates. *)
Definition try_except {S A} (m : M S A) (h : exn -> option (M S A)) : M S A :=
  fun s => match m s with
           | (Ret a, s') => (Ret a, s')
           | (Raise e, s') =>
               match h e with
               | Some k => k s'
               | None => (Raise e, s')
               end
           end.

(** [except c as e: k e] *)
Definition except1 {S A} (c : ExnClass) (k : exn -> M S A)
  : exn -> option (M S A) :=
  fun e => if isinstance e c then Some (k e) else None.

(** A later clause is tried when the earlier ones do not match. *)
Definition orelse {S A} (h1 h2 : exn -> option (M S A))
  : exn -> option (M S A) :=
  fun e => match h1 e with Some k => Some k | None => h2 e end.

(** [for x in xs: body x] *)
Fixpoint for_each {S X} (xs : list X) (body : X -> M S unit) : M S unit :=
  match xs with
  | [] => ret tt
  | x :: xs' => body x ;; for_each xs' body
  end.

(** A local variable of type [L], which keeps its value when the block
    raises. *)
Definition lift {S L A} (m : M S A) : M (L * S) A :=
  fun ls => match m (snd ls) with (r, s') => (r, (fst ls, s')) end.

Definition get_local {S L} : M (L * S) L := fun ls => (Ret (fst ls), ls).

Definition set_local {S L} (l : L) : M (L * S) unit :=
  fun ls => (Ret tt, (l, snd ls)).

Definition with_local {S L A} (init : L) (m : M (L * S) A) : M S A :=
  fun s => match m (init, s) with (r, (_, s')) => (r, s') end.

Definition logger_info (ev : LogEvent) : M State unit :=
  modify (add_log (INFO, ev)).

Definition logger_error (ev : LogEvent) : M State unit :=
  modify (add_log (ERROR, ev)).

(* ================================================================== *)
(** ** [cloud_storage.py]: class [YandexDiskStorage] *)

(** What [get_info] records about one remote file. *)
Record RemoteInfo : Type := mkRemoteInfo {
  remote_name : string;
  remote_size : Z;
  remote_modified : string
}.

Definition dec (n : nat) : string := NilZero.string_of_uint (Nat.to_uint n).

(** [needle in s] *)
Definition str_contains (needle s : string) : bool :=
  match index 0 needle s with Some _ => true | None => false end.

Module YandexDiskStorage.

Definition BASE_URL : string := "https://cloud-api.yandex.net/v1/disk".

(** [requests.request] and [requests.put]: the request goes out and the
    network answers. *)
Definition requests_request (meth url_ : string)
           (params_ : list (string * string)) : M State Response :=
  fun st =>
    let st' := add_request (mkRequest meth url_ params_) st in
    match net st (length (requests st)) with
    | Replied r => (Ret r, st')
    | RaisedConnectionError m => (Raise (mkExn ReqConnectionError m), st')
    | RaisedTimeout m => (Raise (mkExn ReqTimeout m), st')
    | RaisedRequestException m => (Raise (mkExn RequestException m), st')
    end.

(** [response.raise_for_status()]: [HTTPError] for a 4xx or 5xx status. *)
Definition raise_for_status {S} (r : Response) : M S unit :=
  if (400 <=? status_code r)%nat && (status_code r <? 600)%nat
  then raise (mkExn ReqHTTPError (dec (status_code r) ++ " Error"))
  else ret tt.

(** [response.json()]: [requests.exceptions.JSONDecodeError], a
    [RequestException], when the body does not decode. *)
Definition response_json {S} (r : Response) : M S JsonBody :=
  match json r with
  | Some j => ret j
  | None => raise (mkExn RequestException "Expecting value")
  end.

Definition _make_request (meth url_ : string)
           (params_ : list (string * string)) : M State Response :=
  with_local (None : option Response)
    (try_except
       (response <- lift (requests_request meth url_ params_) ;;
        set_local (Some response) ;;
        raise_for_status response ;;
        ret response)
       (orelse (except1 ReqConnectionError (fun _ =>
                  raise (mkExn ConnectionError "Нет подключения к интернету")))
       (orelse (except1 ReqTimeout (fun _ =>
                  raise (mkExn TimeoutError
                           "Превышен таймаут подключения к Яндекс.Диску")))
       (orelse (except1 ReqHTTPError (fun _ =>
                  response <- get_local ;;
                  match response with
                  | Some response =>
                      if (status_code response =? 401)%nat then
                        raise (mkExn ValueError
                                 "Недействительный токен доступа к Яндекс.Диску")
                      else if (status_code response =? 404)%nat then
                        raise (mkExn FileNotFoundError
                                 "Ресурс не найден на Яндекс.Диске")
                      else
                        raise (mkExn RuntimeError
                                 ("Ошибка HTTP " ++ dec (status_code response)
                                  ++ ": " ++ text response))
                  | None =>
                      raise (mkExn NameError
                               "local variable 'response' referenced before assignment")
                  end))
               (except1 RequestException (fun e =>
                  raise (mkExn RuntimeError
                           ("Ошибка при запросе к Яндекс.Диску: " ++ str e)))))))).

Definition _validate_connection : M State unit :=
  try_except
    (_ <- _make_request "GET" BASE_URL [] ;; ret tt)
    (except1 PyException (fun e =>
       raise (mkExn ValueError
                ("Не удалось подключиться к Яндекс.Диску: " ++ str e)))).

Definition _ensure_folder_exists (cfg : Config) : M State unit :=
  try_except
    (_ <- _make_request "PUT" (BASE_URL ++ "/resources")
                        [("path", cloud_folder_name cfg)] ;;
     ret tt)
    (except1 RuntimeError (fun e =>
       if negb (str_contains "409" (str e)) then raise e else ret tt)).

Definition __init__ (cfg : Config) : M State unit :=
  _validate_connection ;;
  _ensure_folder_exists cfg.

(** [open(file_path, 'rb')] *)
Definition open_rb (file_path : string) : M State unit :=
  fun st => match fs_md5 (fs st) file_path with
            | OsOk _ => (Ret tt, st)
            | OsErr n => (Raise (exn_of_errno n), st)
            end.

Definition load (cfg : Config) (file_path : string) : M State bool :=
  try_except
    (let file_name := basename file_path in
     let cloud_path := cloud_folder_name cfg ++ "/" ++ file_name in
     response <- _make_request "GET" (BASE_URL ++ "/resources/upload")
                   [("path", cloud_path); ("overwrite", "true")] ;;
     body <- response_json response ;;
     let upload_url := href body in
     match upload_url with
     | None | Some "" =>
         raise (mkExn RuntimeError "Не удалось получить URL для загрузки")
     | Some upload_url =>
         open_rb file_path ;;
         upload_response <- requests_request "PUT" upload_url [] ;;
         raise_for_status upload_response ;;
         ret true
     end)
    (orelse (except1 OSError (fun e =>
               raise (mkExn OSError
                        ("Ошибка чтения файла " ++ file_path ++ ": " ++ str e))))
            (except1 PyException (fun e =>
               raise (mkExn RuntimeError
                        ("Ошибка загрузки файла " ++ file_path ++ ": " ++ str e))))).

(** For this backend [reload] is [load]: the upload always overwrites. *)
Definition reload (cfg : Config) (file_path : string) : M State bool :=
  load cfg file_path.

Definition delete (cfg : Config) (filename : string) : M State bool :=
  try_except
    (let cloud_path := cloud_folder_name cfg ++ "/" ++ filename in
     _ <- _make_request "DELETE" (BASE_URL ++ "/resources")
            [("path", cloud_path); ("permanently", "true")] ;;
     ret true)
    (orelse (except1 FileNotFoundError (fun _ => ret true))
            (except1 PyException (fun e =>
               raise (mkExn RuntimeError
                        ("Ошибка удаления файла " ++ filename ++ ": " ++ str e))))).

(** The loop of [get_info] over the items of the listing. *)
Fixpoint collect_files {S} (its : list RemoteItem)
         (files_info : Dict RemoteInfo) : M S (Dict RemoteInfo) :=
  match its with
  | [] => ret files_info
  | item :: its' =>
      match item_type item with
      | None => raise (mkExn KeyError "'type'")
      | Some ty =>
          if String.eqb ty "file" then
            match item_name item with
            | None => raise (mkExn KeyError "'name'")
            | Some nm =>
                collect_files its'
                  (dict_set nm
                     (mkRemoteInfo nm
                        (match item_size item with Some z => z | None => 0%Z end)
                        (match item_modified item with Some m => m | None => "" end))
                     files_info)
            end
          else collect_files its' files_info
      end
  end.

Definition get_info (cfg : Config) : M State (Dict RemoteInfo) :=
  try_except
    (response <- _make_request "GET" (BASE_URL ++ "/resources")
                   [("path", cloud_folder_name cfg); ("limit", "1000")] ;;
     body <- response_json response ;;
     collect_files (items body) [])
    (except1 PyException (fun e =>
       raise (mkExn RuntimeError
                ("Ошибка получения информации о файлах: " ++ str e)))).

End YandexDiskStorage.

(* ================================================================== *)
(** ** [sync_service.py]: class [FileSyncService] *)

(** What happens while the run loop sleeps: the file system and the network
    may change, and the sleep returns or raises (an interrupt from the
    keyboard, or an error of [time.sleep] itself).  The process spends its
    time in the sleep, and an interrupt is taken to arrive there; the
    operations of a pass fail with the exceptions of the file system and of
    [requests]. *)
Record Tick : Type := mkTick {
  tick_fs : FileSystem;
  tick_net : nat -> Reply;
  tick_raises : option exn
}.

(** How far the run loop got within the ticks observed. *)
Inductive Outcome : Type :=
| StillLooping
| Finished (r : Res unit).

Module FileSyncService.

(** [self.cloud_storage.m(...)]: the call is recorded, then made. *)
Definition invoke {A} (c : Call) (m : M State A) : M State A :=
  modify (add_call c) ;; m.

Definition __init__ (cfg : Config) : M State unit :=
  YandexDiskStorage.__init__ cfg ;;
  modify (set_cache []) ;;
  logger_info LogStart ;;
  logger_info (LogFolder (sync_folder_path cfg)).

(** [hashlib.md5] over the chunks of the opened file. *)
Definition md5_of_file (file_path : string) : M State string :=
  fun st => match fs_md5 (fs st) file_path with
            | OsOk h => (Ret h, st)
            | OsErr n => (Raise (exn_of_errno n), st)
            end.

Definition get_file_hash (file_path : string) : M State string :=
  try_except
    (md5_of_file file_path)
    (except1 OSError (fun e =>
       logger_error (LogReadError file_path e) ;;
       ret "")).

(** [Path.iterdir], [Path.stat] and [Path.is_file] of [pathlib];
    [is_file] answers [False] for a path that does not exist and lets
    other errors through. *)
Definition Path_iterdir (folder : string) : M State (list string) :=
  fun st => match fs_listdir (fs st) folder with
            | OsOk l => (Ret l, st)
            | OsErr n => (Raise (exn_of_errno n), st)
            end.

Definition Path_stat (p : string) : M State Stat :=
  fun st => match fs_stat (fs st) p with
            | OsOk s => (Ret s, st)
            | OsErr n => (Raise (exn_of_errno n), st)
            end.

Definition Path_is_file (p : string) : M State bool :=
  fun st => match fs_stat (fs st) p with
            | OsOk s => (Ret (st_isreg s), st)
            | OsErr ENOENT | OsErr ENOTDIR => (Ret false, st)
            | OsErr n => (Raise (exn_of_errno n), st)
            end.

(** [if file_hash:] *)
Definition truthy (s : string) : bool :=
  match s with EmptyString => false | _ => true end.

(** The body of the loop of [scan_local_folder]; [local_files] is the
    local variable. *)
Definition scan_item (cfg : Config) (item_name_ : string)
  : M (Dict FileInfo * State) unit :=
  let item := joinpath (sync_folder_path cfg) item_name_ in
  is_f <- lift (Path_is_file item) ;;
  if is_f then
    file_hash <- lift (get_file_hash item) ;;
    if truthy file_hash then
      s1 <- lift (Path_stat item) ;;
      s2 <- lift (Path_stat item) ;;
      local_files <- get_local ;;
      set_local
        (dict_set item_name_
           (mkFileInfo item_name_ item file_hash (st_size s1) (st_mtime s2))
           local_files)
    else ret tt
  else ret tt.

Definition scan_local_folder (cfg : Config) : M State (Dict FileInfo) :=
  with_local ([] : Dict FileInfo)
    (try_except
       (children <- lift (Path_iterdir (sync_folder_path cfg)) ;;
        for_each children (scan_item cfg))
       (except1 PermissionError (fun e =>
          lift (logger_error (LogFolderAccess (sync_folder_path cfg) e)))) ;;
     get_local).

(** The body of the upload loop of [perform_initial_sync]. *)
Definition initial_item (cfg : Config) (it : string * FileInfo)
  : M State unit :=
  let '(file_name, file_info) := it in
  try_except
    (_ <- invoke (CLoad (path file_info))
                 (YandexDiskStorage.load cfg (path file_info)) ;;
     logger_info (LogUploaded file_name))
    (except1 PyException (fun e =>
       logger_error (LogUploadError file_name e))).

Definition perform_initial_sync (cfg : Config) : M State unit :=
  logger_info LogInitialBegin ;;
  try_except
    (cloud_files <- invoke CGetInfo (YandexDiskStorage.get_info cfg) ;;
     local_files <- scan_local_folder cfg ;;
     for_each (dict_items local_files) (initial_item cfg) ;;
     modify (set_cache (dict_copy local_files)) ;;
     logger_info LogInitialDone)
    (except1 PyException (fun e =>
       logger_error (LogInitialError e))).

(** The body of the first loop of [sync_files]: new and changed files. *)
Definition sync_item (cfg : Config) (it : string * FileInfo)
  : M State unit :=
  let '(file_name, local_info) := it in
  cached_info <- gets (fun st => dict_get file_name (local_files_cache st)) ;;
  match cached_info with
  | None =>
      try_except
        (_ <- invoke (CLoad (path local_info))
                     (YandexDiskStorage.load cfg (path local_info)) ;;
         logger_info (LogNewUploaded file_name))
        (except1 PyException (fun e =>
           logger_error (LogNewUploadError file_name e)))
  | Some cached_info =>
      if negb (String.eqb (hash cached_info) (hash local_info)) then
        try_except
          (_ <- invoke (CReload (path local_info))
                       (YandexDiskStorage.reload cfg (path local_info)) ;;
           logger_info (LogUpdated file_name))
          (except1 PyException (fun e =>
             logger_error (LogUpdateError file_name e)))
      else ret tt
  end.

(** The body of the second loop of [sync_files]: deleted files. *)
Definition sync_cached (cfg : Config) (current_local_files : Dict FileInfo)
           (file_name : string) : M State unit :=
  if negb (dict_contains file_name current_local_files) then
    try_except
      (_ <- invoke (CDelete file_name)
                   (YandexDiskStorage.delete cfg file_name) ;;
       logger_info (LogDeleted file_name))
      (except1 PyException (fun e =>
         logger_error (LogDeleteError file_name e)))
  else ret tt.

Definition sync_files (cfg : Config) : M State unit :=
  try_except
    (current_local_files <- scan_local_folder cfg ;;
     cloud_files <- invoke CGetInfo (YandexDiskStorage.get_info cfg) ;;
     for_each (dict_items current_local_files) (sync_item cfg) ;;
     cache_keys <- gets (fun st => dict_keys (local_files_cache st)) ;;
     for_each cache_keys (sync_cached cfg current_local_files) ;;
     modify (set_cache (dict_copy current_local_files)))
    (except1 PyException (fun e =>
       logger_error (LogSyncError e))).

(** [time.sleep(self.config.sync_period)] *)
Definition time_sleep (t : Tick) : M State unit :=
  modify (fun st => set_net (tick_net t) (set_fs (tick_fs t) st)) ;;
  match tick_raises t with
  | Some e => raise e
  | None => ret tt
  end.

(** [while True: time.sleep(...); self.sync_files()], for as many turns
    as there are ticks. *)
Fixpoint main_loop (cfg : Config) (ticks : list Tick)
  : State -> Outcome * State :=
  fun st =>
    match ticks with
    | [] => (StillLooping, st)
    | t :: ticks' =>
        match (time_sleep t ;; sync_files cfg) st with
        | (Ret _, st') => main_loop cfg ticks' st'
        | (Raise e, st') => (Finished (Raise e), st')
        end
    end.

Definition run (cfg : Config) (ticks : list Tick) : State -> Outcome * State :=
  fun st =>
    let body :=
      match perform_initial_sync cfg st with
      | (Ret _, st') => main_loop cfg ticks st'
      | (Raise e, st') => (Finished (Raise e), st')
      end in
    match body with
    | (Finished (Raise e), st') =>
        if isinstance e KeyboardInterrupt then
          match logger_info LogStopped st' with
          | (r, st'') => (Finished r, st'')
          end
        else if isinstance e PyException then
          match (logger_error (LogCritical e) ;; raise e) st' with
          | (r, st'') => (Finished r, st'')
          end
        else (Finished (Raise e), st')
    | other => other
    end.

End FileSyncService.

(* ================================================================== *)
(** ** [config.py]: class [Config] *)

(** What the constructor of [Config] asks of the host: the environment as
    it is after [load_dotenv()]; the integer [int] reads from a string, or
    the text of its [ValueError]; [stat] of a path, which answers whether
    the path is a directory, or fails; the parent of a path; and what
    [mkdir(parents=True, exist_ok=True)] of a directory does: the
    directories it creates, the missing ancestors first, and the exception
    it then raises, if it raises (an [OSError] of any class, raised
    possibly after some directories were created).  The host does not
    change between two questions about one path.  The state of the
    constructor is the list of the directories created. *)
Record Host : Type := mkHost {
  os_getenv : string -> option string;
  py_int : string -> Z + string;
  host_stat : string -> OsRes bool;
  Path_parent : string -> string;
  host_mkdir : string -> list string * option exn
}.

(** [str] of an integer, and the line break of the messages. *)
Definition str_int (z : Z) : string :=
  if (z <? 0)%Z then "-" ++ dec (Z.to_nat (- z)) else dec (Z.to_nat z).

Definition nl : string := String "010"%char "".

Module config.

Definition _get_env_var (h : Host) (var_name : string)
  : M (list string) string :=
  match os_getenv h var_name with
  | None =>
      raise (mkExn ValueError
               ("Отсутствует переменная окружения: " ++ var_name))
  | Some value => ret value
  end.

(** [int(value)] *)
Definition int (h : Host) (value : string) : M (list string) Z :=
  match py_int h value with
  | inl z => ret z
  | inr msg => raise (mkExn ValueError msg)
  end.

(** [Path.exists] and [Path.is_dir] answer [False] for a path that does
    not exist and let other errors through. *)
Definition Path_exists (h : Host) (p : string) : M (list string) bool :=
  match host_stat h p with
  | OsOk _ => ret true
  | OsErr ENOENT | OsErr ENOTDIR => ret false
  | OsErr n => raise (exn_of_errno n)
  end.

Definition Path_is_dir (h : Host) (p : string) : M (list string) bool :=
  match host_stat h p with
  | OsOk d => ret d
  | OsErr ENOENT | OsErr ENOTDIR => ret false
  | OsErr n => raise (exn_of_errno n)
  end.

Definition Path_mkdir (h : Host) (p : string) : M (list string) unit :=
  let '(made, failure) := host_mkdir h p in
  modify (fun created => created ++ made)%list ;;
  match failure with
  | None => ret tt
  | Some e => raise e
  end.

Definition _validate_config (h : Host) (self : Config)
  : M (list string) unit :=
  let sync_path := sync_folder_path self in
  sync_exists <- Path_exists h sync_path ;;
  if negb sync_exists then
    raise (mkExn FileNotFoundError
             ("Синхронизируемая папка не существует: "
              ++ sync_folder_path self ++ nl
              ++ "Пожалуйста, создайте эту папку или укажите другой путь в файле .env"))
  else
    sync_is_dir <- Path_is_dir h sync_path ;;
    if negb sync_is_dir then
      raise (mkExn NotADirectoryError
               ("Указанный путь не является папкой: "
                ++ sync_folder_path self ++ nl
                ++ "Пожалуйста, укажите путь к папке в файле .env"))
    else if (sync_period self <=? 0)%Z then
      raise (mkExn ValueError
               ("Период синхронизации должен быть положительным числом: "
                ++ str_int (sync_period self) ++ nl
                ++ "Пожалуйста, укажите корректное значение в файле .env"))
    else
      let log_dir := Path_parent h (log_file_path self) in
      log_dir_exists <- Path_exists h log_dir ;;
      if negb log_dir_exists then
        try_except
          (Path_mkdir h log_dir)
          (except1 PermissionError (fun _ =>
             raise (mkExn PermissionError
                      ("Нет прав на создание директории для лога: "
                       ++ log_dir ++ nl
                       ++ "Пожалуйста, укажите другой путь в файле .env"))))
      else ret tt.

Definition __init__ (h : Host) : M (list string) Config :=
  sync_folder_path <- _get_env_var h "SYNC_FOLDER_PATH" ;;
  cloud_folder_name <- _get_env_var h "CLOUD_FOLDER_NAME" ;;
  yandex_token <- _get_env_var h "YANDEX_TOKEN" ;;
  period_text <- _get_env_var h "SYNC_PERIOD" ;;
  sync_period <- int h period_text ;;
  log_file_path <- _get_env_var h "LOG_FILE_PATH" ;;
  let self := mkConfig sync_folder_path cloud_folder_name yandex_token
                       sync_period log_file_path in
  _validate_config h self ;;
  ret self.

End config.

(* ================================================================== *)
(** ** [main.py]: function [main] *)


Definition sys_exit (code : string) : exn := mkExn SystemExit code.

(** The body of the [try] of [main]. *)
Definition main_body (boot : Res Config) (ticks : list Tick)
  : State -> Outcome * State :=
  fun st =>
    match boot with
    | Raise e => (Finished (Raise e), st)
    | Ret config =>
        match FileSyncService.__init__ config st with
        | (Raise e, st') => (Finished (Raise e), st')
        | (Ret _, st') => FileSyncService.run config ticks st'
        end
    end.

Definition main (boot : Res Config) (ticks : list Tick)
  : State -> Outcome * State * list string :=
  fun st =>
    match main_body boot ticks st with
    | (Finished (Raise e), st') =>
        if isinstance e ValueError || isinstance e FileNotFoundError
           || isinstance e NotADirectoryError || isinstance e PermissionError
        then (Finished (Raise (sys_exit "1")), st',
              ["Ошибка конфигурации: " ++ str e])
        else if isinstance e PyException
        then (Finished (Raise (sys_exit "1")), st',
              ["Неожиданная ошибка: " ++ str e])
        else (Finished (Raise e), st', [])
    | (other, st') => (other, st', [])
    end.

(* ================================================================== *)
(** * Notions for stating and proving the properties *)

(** ** States that differ by what was sent, invoked and logged *)

Definition extend (rq : list Request) (cs : list Call) (ls : list LogRecord)
           (st : State) : State :=
  mkState (local_files_cache st) (fs st) (net st)
          (requests st ++ rq) (calls st ++ cs) (log st ++ ls).

(** ** Exceptions and the storage client *)

Definition is_Exception (e : exn) : Prop := isinstance e PyException = true.

(** What [_make_request] makes of the network's answer. *)
Definition request_outcome (rp : Reply) : Res Response :=
  match rp with
  | Replied r =>
      if (400 <=? status_code r)%nat && (status_code r <? 600)%nat then
        if (status_code r =? 401)%nat then
          Raise (mkExn ValueError "Недействительный токен доступа к Яндекс.Диску")
        else if (status_code r =? 404)%nat then
          Raise (mkExn FileNotFoundError "Ресурс не найден на Яндекс.Диске")
        else
          Raise (mkExn RuntimeError
                   ("Ошибка HTTP " ++ dec (status_code r) ++ ": " ++ text r))
      else Ret r
  | RaisedConnectionError _ =>
      Raise (mkExn ConnectionError "Нет подключения к интернету")
  | RaisedTimeout _ =>
      Raise (mkExn TimeoutError "Превышен таймаут подключения к Яндекс.Диску")
  | RaisedRequestException m =>
      Raise (mkExn RuntimeError ("Ошибка при запросе к Яндекс.Диску: " ++ m))
  end.

(** ** A small program logic for [M]

    [sound R E m]: whenever [m] runs from [s] to [s'], the two states are
    related by [R], and an exception that [m] raises satisfies [E]. *)
Definition sound {S A} (R : S -> S -> Prop) (E : exn -> Prop) (m : M S A)
  : Prop :=
  forall s r s', m s = (r, s') -> R s s' /\ (forall e, r = Raise e -> E e).

(** ** The storage client only sends requests

    A method of the client changes nothing but the list of requests sent,
    and what it raises is an [Exception]. *)
Definition sends (st st' : State) : Prop :=
  exists rq, st' = extend rq [] [] st.

Definition client {A} (m : M State A) : Prop := sound sends is_Exception m.

(** ** The scanner *)

(** The records the scanner writes. *)
Definition is_scan_record (r : LogRecord) : Prop :=
  match snd r with
  | LogReadError _ _ | LogFolderAccess _ _ => True
  | _ => False
  end.

(** What the scanner guarantees about an entry of its result, and about
    the whole result. *)
Definition entry_ok (cfg : Config) (it : string * FileInfo) : Prop :=
  name (snd it) = fst it /\
  path (snd it) = joinpath (sync_folder_path cfg) (fst it) /\
  FileSyncService.truthy (hash (snd it)) = true.

Definition snapshot_ok (cfg : Config) (d : Dict FileInfo) : Prop :=
  dict_wf d /\ Forall (entry_ok cfg) d.

(** ** The calls and records of a pass *)

(** The calls a file of the snapshot gives rise to, given the cache, and
    the calls a name of the cache gives rise to, given the snapshot. *)
Definition calls_for_item (cache : Dict FileInfo) (it : string * FileInfo)
  : list Call :=
  match dict_get (fst it) cache with
  | None => [CLoad (path (snd it))]
  | Some cached_info =>
      if negb (String.eqb (hash cached_info) (hash (snd it)))
      then [CReload (path (snd it))]
      else []
  end.

Definition calls_for_cached (current : Dict FileInfo) (file_name : string)
  : list Call :=
  if negb (dict_contains file_name current) then [CDelete file_name] else [].

Definition planned_calls (cache current : Dict FileInfo) : list Call :=
  (flat_map (calls_for_item cache) current
   ++ flat_map (calls_for_cached current) (dict_keys cache))%list.

(** The records a turn of a loop writes about its file. *)
Definition item_record (file_name : string) (r : LogRecord) : Prop :=
  match snd r with
  | LogNewUploaded n | LogNewUploadError n _
  | LogUpdated n | LogUpdateError n _ => n = file_name
  | _ => False
  end.

Definition cached_record (file_name : string) (r : LogRecord) : Prop :=
  match snd r with
  | LogDeleted n | LogDeleteError n _ => n = file_name
  | _ => False
  end.

Definition initial_record (file_name : string) (r : LogRecord) : Prop :=
  match snd r with
  | LogUploaded n | LogUploadError n _ => n = file_name
  | _ => False
  end.

(** The records the loops of a pass over the snapshot [current] write. *)
Definition pass_record (current : Dict FileInfo) (r : LogRecord) : Prop :=
  match snd r with
  | LogNewUploaded n | LogNewUploadError n _
  | LogUpdated n | LogUpdateError n _
  | LogUploaded n | LogUploadError n _ => In n (dict_keys current)
  | LogDeleted _ | LogDeleteError _ _ => True
  | _ => False
  end.

Definition initial_call (it : string * FileInfo) : list Call :=
  [CLoad (path (snd it))].

(** ** How a pass can go *)

(** The three ways a pass of [sync_files] can go: the scanner raises, the
    listing call raises, or the comparison is made and the cache replaced. *)
Inductive SyncPass (cfg : Config) (st st' : State) : Prop :=
| ScanRaised e ls
    (Hscan : FileSyncService.scan_local_folder cfg st
             = (Raise e, extend [] [] ls st))
    (Hls : Forall is_scan_record ls)
    (Hst : st' = extend [] [] (ls ++ [(ERROR, LogSyncError e)]) st)
| ListingRaised current ls e rq
    (Hscan : FileSyncService.scan_local_folder cfg st
             = (Ret current, extend [] [] ls st))
    (Hls : Forall is_scan_record ls)
    (Hinfo : FileSyncService.invoke CGetInfo (YandexDiskStorage.get_info cfg)
               (extend [] [] ls st)
             = (Raise e, extend rq [CGetInfo] ls st))
    (Hst : st' = extend rq [CGetInfo] (ls ++ [(ERROR, LogSyncError e)]) st)
| Compared current ls cloud_files rq0 rq ls'
    (Hscan : FileSyncService.scan_local_folder cfg st
             = (Ret current, extend [] [] ls st))
    (Hok : snapshot_ok cfg current)
    (Hls : Forall is_scan_record ls)
    (Hinfo : FileSyncService.invoke CGetInfo (YandexDiskStorage.get_info cfg)
               (extend [] [] ls st)
             = (Ret cloud_files, extend rq0 [CGetInfo] ls st))
    (Hls' : Forall (pass_record current) ls')
    (Hst : st' = set_cache current
                   (extend rq
                      (CGetInfo :: planned_calls (local_files_cache st) current)
                      (ls ++ ls') st)).

(** The three ways [perform_initial_sync] can go. *)
Inductive InitialPass (cfg : Config) (st st' : State) : Prop :=
| InitListingRaised e rq
    (Hinfo : FileSyncService.invoke CGetInfo (YandexDiskStorage.get_info cfg)
               (extend [] [] [(INFO, LogInitialBegin)] st)
             = (Raise e, extend rq [CGetInfo] [(INFO, LogInitialBegin)] st))
    (Hst : st' = extend rq [CGetInfo]
                   [(INFO, LogInitialBegin); (ERROR, LogInitialError e)] st)
| InitScanRaised e rq ls
    (Hscan : FileSyncService.scan_local_folder cfg st
             = (Raise e, extend [] [] ls st))
    (Hls : Forall is_scan_record ls)
    (Hst : st' = extend rq [CGetInfo]
                   ((INFO, LogInitialBegin) :: ls ++ [(ERROR, LogInitialError e)])
                   st)
| InitCompared local_files cloud_files rq0 rq ls ls'
    (Hinfo : FileSyncService.invoke CGetInfo (YandexDiskStorage.get_info cfg)
               (extend [] [] [(INFO, LogInitialBegin)] st)
             = (Ret cloud_files,
                extend rq0 [CGetInfo] [(INFO, LogInitialBegin)] st))
    (Hscan : FileSyncService.scan_local_folder cfg st
             = (Ret local_files, extend [] [] ls st))
    (Hok : snapshot_ok cfg local_files)
    (Hls : Forall is_scan_record ls)
    (Hls' : Forall (pass_record local_files) ls')
    (Hst : st' = set_cache local_files
                   (extend rq
                      (CGetInfo :: flat_map initial_call local_files)
                      ((INFO, LogInitialBegin)
                         :: ls ++ ls' ++ [(INFO, LogInitialDone)]) st)).

(** ** What a pass does, as seen from outside *)

(** The client methods invoked, and the records logged, between two
    states. *)
Definition issued (st st' : State) : list Call :=
  skipn (length (calls st)) (calls st').

Definition logged (st st' : State) : list LogRecord :=
  skipn (length (log st)) (log st').

(** How often a file is uploaded, overwritten, deleted by a list of calls.
    The service names a file to [load] and [reload] by its path in the
    watched folder, and to [delete] by its name. *)
Definition uploads (cfg : Config) (file_name : string) (l : list Call) : nat :=
  count_occ Call_eq_dec l (CLoad (joinpath (sync_folder_path cfg) file_name)).

Definition overwrites (cfg : Config) (file_name : string) (l : list Call)
  : nat :=
  count_occ Call_eq_dec l (CReload (joinpath (sync_folder_path cfg) file_name)).

Definition deletes (file_name : string) (l : list Call) : nat :=
  count_occ Call_eq_dec l (CDelete file_name).

(** The snapshot the scanner takes in a state (empty when it raises). *)
Definition scanned (cfg : Config) (st : State) : Dict FileInfo :=
  match fst (FileSyncService.scan_local_folder cfg st) with
  | Ret d => d
  | Raise _ => []
  end.

(** A pass of [sync_files] from [st] gets as far as the comparison: the
    scanner returns and the listing call returns. *)
Definition pass_compares (cfg : Config) (st : State) : bool :=
  match FileSyncService.scan_local_folder cfg st with
  | (Ret _, st1) =>
      match FileSyncService.invoke CGetInfo (YandexDiskStorage.get_info cfg) st1
      with
      | (Ret _, _) => true
      | (Raise _, _) => false
      end
  | (Raise _, _) => false
  end.

(** In a pass of [sync_files] from [st] the scanner returns and the listing
    call raises. *)
Definition listing_raises (cfg : Config) (st : State) : bool :=
  match FileSyncService.scan_local_folder cfg st with
  | (Ret _, st1) =>
      match FileSyncService.invoke CGetInfo (YandexDiskStorage.get_info cfg) st1
      with
      | (Ret _, _) => false
      | (Raise _, _) => true
      end
  | (Raise _, _) => false
  end.

(** [perform_initial_sync] from [st] gets as far as the uploads: the listing
    call returns and the scanner returns. *)
Definition initial_compares (cfg : Config) (st : State) : bool :=
  match FileSyncService.invoke CGetInfo (YandexDiskStorage.get_info cfg)
          (add_log (INFO, LogInitialBegin) st)
  with
  | (Ret _, st1) =>
      match FileSyncService.scan_local_folder cfg st1 with
      | (Ret _, _) => true
      | (Raise _, _) => false
      end
  | (Raise _, _) => false
  end.

(** ** Passes cut short, and refused uploads *)



(** A reply that makes [_make_request] raise; a network that refuses every
    request after the next one, which in a pass is the listing call; and a
    record of the log about a failed upload of a file. *)
Definition refused (rp : Reply) : Prop :=
  exists e, request_outcome rp = Raise e.

Definition uploads_refused (st : State) : Prop :=
  forall n, (length (requests st) < n)%nat -> refused (net st n).

Definition failure_record (file_name : string) (r : LogRecord) : Prop :=
  exists e,
    r = (ERROR, LogUploadError file_name e)
    \/ r = (ERROR, LogNewUploadError file_name e)
    \/ r = (ERROR, LogUpdateError file_name e).

(** The states of a pass after its listing call. *)
Definition after_listing (st s : State) : Prop :=
  net s = net st
  /\ (length (requests st) < length (requests s))%nat
  /\ local_files_cache s = local_files_cache st.

(** ** Concrete worlds *)

Definition cfg0 : Config :=
  mkConfig "/data" "backup" "token" 60 "/var/log/sync.log".

(** The folder [/data] with the regular files named and hashed as in
    [files]. *)
Definition fs_of (files : list (string * string)) : FileSystem :=
  mkFS (fun d => if String.eqb d "/data" then OsOk (map fst files)
                 else OsErr ENOENT)
       (fun p => match dict_get (basename p) files with
                 | Some _ => OsOk (mkStat true 10 20)
                 | None => OsErr ENOENT
                 end)
       (fun p => match dict_get (basename p) files with
                 | Some h => OsOk h
                 | None => OsErr ENOENT
                 end).

(** A file system where every operation fails with the same errno. *)
Definition fs_failing (n : Errno) : FileSystem :=
  mkFS (fun _ => OsErr n) (fun _ => OsErr n) (fun _ => OsErr n).

Definition reply_ok : Reply :=
  Replied (mkResponse 200 "" (Some (mkJson (Some "https://uploader/target") []))).

Definition reply_500 : Reply :=
  Replied (mkResponse 500 "Internal Server Error" None).

Definition reply_404 : Reply :=
  Replied (mkResponse 404 "Not Found" None).

Definition net_ok : nat -> Reply := fun _ => reply_ok.

Definition net_down : nat -> Reply := fun _ => reply_500.

(** Every request is answered well except the [k]-th. *)
Definition net_failing_at (k : nat) : nat -> Reply :=
  fun n => if Nat.eqb n k then reply_500 else reply_ok.

(** The listing call is answered well, every later request with 500. *)
Definition net_listing_only : nat -> Reply :=
  fun n => if Nat.eqb n 0 then reply_ok else reply_500.

Definition state0 (f : FileSystem) (n : nat -> Reply) (cache : Dict FileInfo)
  : State :=
  mkState cache f n [] [] [].

Definition file_info (n h : string) : string * FileInfo :=
  (n, mkFileInfo n (joinpath "/data" n) h 10 20).

(** [a.txt] is new, [b.txt] is unchanged, [c.txt] has changed, [d.txt] is
    gone. *)
Definition fs1 : FileSystem :=
  fs_of [("a.txt", "h1"); ("b.txt", "h2"); ("c.txt", "h3")].

Definition cache1 : Dict FileInfo :=
  [file_info "b.txt" "h2"; file_info "c.txt" "h0"; file_info "d.txt" "h4"].

(** ** The run loop and the failures of single files *)

(** A sleep that returns. *)
Definition quiet (t : Tick) : Prop := tick_raises t = None.

(** The log shows that the upload of a file failed, in the initial pass or
    in a steady-state pass (as a new or as a changed file). *)
Definition upload_failed (file_name : string) (l : list LogRecord) : Prop :=
  exists e,
    In (ERROR, LogUploadError file_name e) l
    \/ In (ERROR, LogNewUploadError file_name e) l
    \/ In (ERROR, LogUpdateError file_name e) l.

(** The log shows that a file was uploaded or overwritten. *)
Definition upload_succeeded (file_name : string) (l : list LogRecord) : Prop :=
  In (INFO, LogNewUploaded file_name) l \/ In (INFO, LogUpdated file_name) l.

(** A record of the loops about the upload of a file. *)
Definition upload_record (file_name : string) (r : LogRecord) : Prop :=
  match snd r with
  | LogNewUploaded n | LogNewUploadError n _
  | LogUpdated n | LogUpdateError n _
  | LogUploaded n | LogUploadError n _ => n = file_name
  | _ => False
  end.

(** What [load] raises for [/data/a.txt] when the remote answers 500. *)
Definition upload_error_a : exn :=
  mkExn RuntimeError
    ("Ошибка загрузки файла /data/a.txt: "
     ++ "Ошибка HTTP 500: Internal Server Error").


Definition upload_error (p : string) : exn :=
  mkExn RuntimeError
    ("Ошибка загрузки файла " ++ p ++ ": "
     ++ "Ошибка HTTP 500: Internal Server Error").

(** ** Notions for the further properties *)

(** The answer the network gives to the next request, and to the one after
    it. *)
Definition next_reply (st : State) : Reply := net st (length (requests st)).

Definition second_reply (st : State) : Reply :=
  net st (S (length (requests st))).

(** A response that [raise_for_status] lets through. *)
Definition http_ok (r : Response) : bool :=
  negb ((400 <=? status_code r)%nat && (status_code r <? 600)%nat).

(** The two requests of a [load] that goes well: the one for the upload
    address, and the upload to the address [upload_url]. *)
Definition upload_address_request (cfg : Config) (file_path : string)
  : Request :=
  mkRequest "GET" (YandexDiskStorage.BASE_URL ++ "/resources/upload")
    [("path", cloud_folder_name cfg ++ "/" ++ basename file_path);
     ("overwrite", "true")].

Definition upload_request (upload_url : string) : Request :=
  mkRequest "PUT" upload_url [].

(** The request of [get_info], and the two requests of the constructor of
    the client. *)
Definition listing_request (cfg : Config) : Request :=
  mkRequest "GET" (YandexDiskStorage.BASE_URL ++ "/resources")
    [("path", cloud_folder_name cfg); ("limit", "1000")].

Definition probe_request : Request :=
  mkRequest "GET" YandexDiskStorage.BASE_URL [].

Definition folder_request (cfg : Config) : Request :=
  mkRequest "PUT" (YandexDiskStorage.BASE_URL ++ "/resources")
    [("path", cloud_folder_name cfg)].

(** An item of a listing that is a file named [nm]; what [get_info] records
    about it; an item the loop of [get_info] cannot read, because it has no
    type, or is a file without a name. *)
Definition file_item (nm : string) (it : RemoteItem) : Prop :=
  item_type it = Some "file" /\ item_name it = Some nm.

Definition remote_info_of (nm : string) (it : RemoteItem) : RemoteInfo :=
  mkRemoteInfo nm
    (match item_size it with Some z => z | None => 0%Z end)
    (match item_modified it with Some m => m | None => "" end).

Definition item_unreadable (it : RemoteItem) : Prop :=
  item_type it = None
  \/ (item_type it = Some "file" /\ item_name it = None).

(** What the scanner records about the child [n] of the watched folder:
    nothing, unless the child is a regular file whose bytes can be read and
    have a digest that is not empty. *)
Definition expected_entry (cfg : Config) (f : FileSystem) (n : string)
  : option FileInfo :=
  let item := joinpath (sync_folder_path cfg) n in
  match fs_stat f item with
  | OsOk s =>
      if st_isreg s then
        match fs_md5 f item with
        | OsOk h =>
            if FileSyncService.truthy h
            then Some (mkFileInfo n item h (st_size s) (st_mtime s))
            else None
        | OsErr _ => None
        end
      else None
  | OsErr _ => None
  end.

(** What the scanner logs about the child [n]: an error, when the child is
    a regular file whose bytes cannot be read. *)
Definition read_error_record (cfg : Config) (f : FileSystem) (n : string)
  : list LogRecord :=
  let item := joinpath (sync_folder_path cfg) n in
  match fs_stat f item with
  | OsOk s =>
      if st_isreg s then
        match fs_md5 f item with
        | OsOk _ => []
        | OsErr e => [(ERROR, LogReadError item (exn_of_errno e))]
        end
      else []
  | OsErr _ => []
  end.

(** [stat] of the child [n] answers, or fails because the child is gone. *)
Definition stat_passes (cfg : Config) (f : FileSystem) (n : string) : Prop :=
  fs_stat f (joinpath (sync_folder_path cfg) n) <> OsErr EACCES
  /\ fs_stat f (joinpath (sync_folder_path cfg) n) <> OsErr EIO.

(** The value of [local_files] after the turn of the loop for the child
    [n], and after the turns for a list of children. *)
Definition scan_step (cfg : Config) (f : FileSystem)
           (local_files : Dict FileInfo) (n : string) : Dict FileInfo :=
  match expected_entry cfg f n with
  | Some info => dict_set n info local_files
  | None => local_files
  end.

Definition scan_steps (cfg : Config) (f : FileSystem)
           (children : list string) (local_files : Dict FileInfo)
  : Dict FileInfo :=
  fold_left (scan_step cfg f) children local_files.

(** The folder [/data] with a readable file, a directory, a file that
    cannot be read, and a child that is gone when it is looked at; and the
    same folder when [stat] of the directory is refused. *)
Definition fs2 : FileSystem :=
  mkFS (fun _ => OsOk ["a.txt"; "sub"; "locked.txt"; "ghost"])
       (fun p => if String.eqb p "/data/a.txt" then OsOk (mkStat true 10 20)
                 else if String.eqb p "/data/sub" then OsOk (mkStat false 0 30)
                 else if String.eqb p "/data/locked.txt"
                      then OsOk (mkStat true 5 40)
                 else OsErr ENOENT)
       (fun p => if String.eqb p "/data/a.txt" then OsOk "h1"
                 else OsErr EACCES).

Definition fs3 : FileSystem :=
  mkFS (fun _ => OsOk ["a.txt"; "sub"; "locked.txt"; "ghost"])
       (fun p => if String.eqb p "/data/a.txt" then OsOk (mkStat true 10 20)
                 else OsErr EACCES)
       (fun p => if String.eqb p "/data/a.txt" then OsOk "h1"
                 else OsErr EACCES).

(** The exceptions [main] reports as errors of the configuration. *)
Definition config_error (e : exn) : bool :=
  isinstance e ValueError || isinstance e FileNotFoundError
  || isinstance e NotADirectoryError || isinstance e PermissionError.

(** The directory of the log file of a configuration. *)
Definition log_dir_of (h : Host) (c : Config) : string :=
  Path_parent h (log_file_path c).

(** A path that [Path.exists] takes to be missing, and a host whose
    [mkdir] raises nothing but errors of the operating system. *)
Definition missing (h : Host) (p : string) : Prop :=
  host_stat h p = OsErr ENOENT \/ host_stat h p = OsErr ENOTDIR.


(** A host where the five variables are set, the period to [period]; the
    watched folder exists, the directory of the log and its parent do
    not, and [mkdir] does what [mkdir_does] says. *)
Definition host0 (period : string) (mkdir_does : list string * option exn)
  : Host :=
  mkHost
    (fun v => if String.eqb v "SYNC_FOLDER_PATH" then Some "/data"
              else if String.eqb v "CLOUD_FOLDER_NAME" then Some "backup"
              else if String.eqb v "YANDEX_TOKEN" then Some "token"
              else if String.eqb v "SYNC_PERIOD" then Some period
              else if String.eqb v "LOG_FILE_PATH" then Some "/var/log/sync.log"
              else None)
    (fun s => if String.eqb s "60" then inl 60%Z
              else if String.eqb s "0" then inl 0%Z
              else inr "invalid literal for int() with base 10")
    (fun p => if String.eqb p "/data" then OsOk true else OsErr ENOENT)
    (fun _ => "/var/log")
    (fun _ => mkdir_does).

(* ================================================================== *)
(** * Reasoning about the embedding *)

Arguments String.append : simpl never.
Arguments Nat.eqb : simpl never.
Arguments Nat.leb : simpl never.
Arguments Nat.ltb : simpl never.

(** ** States that differ by what was sent, invoked and logged *)

Lemma extend_nil st : extend [] [] [] st = st.
Proof. destruct st; unfold extend; simpl; now rewrite !app_nil_r. Qed.

Lemma extend_extend rq1 cs1 ls1 rq2 cs2 ls2 st :
  extend rq2 cs2 ls2 (extend rq1 cs1 ls1 st)
  = extend (rq1 ++ rq2) (cs1 ++ cs2) (ls1 ++ ls2) st.
Proof. unfold extend; simpl; now rewrite !app_assoc. Qed.

Lemma add_request_extend r st : add_request r st = extend [r] [] [] st.
Proof. destruct st; unfold add_request, extend; simpl; now rewrite !app_nil_r. Qed.

Lemma add_call_extend c st : add_call c st = extend [] [c] [] st.
Proof. destruct st; unfold add_call, extend; simpl; now rewrite !app_nil_r. Qed.

Lemma add_log_extend r st : add_log r st = extend [] [] [r] st.
Proof. destruct st; unfold add_log, extend; simpl; now rewrite !app_nil_r. Qed.

Lemma set_cache_extend rq cs ls d st :
  extend rq cs ls (set_cache d st) = set_cache d (extend rq cs ls st).
Proof. reflexivity. Qed.

Ltac ext_norm :=
  rewrite ?add_call_extend, ?add_log_extend, ?add_request_extend,
    ?extend_extend;
  cbn [app]; rewrite ?app_nil_r.

(** ** Exception classes *)

Lemma errno_is_Exception n : is_Exception (exn_of_errno n).
Proof. destruct n; reflexivity. Qed.

Lemma Exception_not_interrupt e :
  isinstance e PyException = true -> isinstance e KeyboardInterrupt = false.
Proof. destruct e as [c m]. destruct c; try reflexivity; discriminate. Qed.

Lemma errno_PermissionError n :
  isinstance (exn_of_errno n) PermissionError = true <-> n = EACCES.
Proof. destruct n; simpl; split; intro H; try reflexivity; discriminate. Qed.

(** ** The storage client *)

Lemma make_request_eq meth u ps st :
  YandexDiskStorage._make_request meth u ps st
  = (request_outcome (net st (length (requests st))),
     extend [mkRequest meth u ps] [] [] st).
Proof.
  rewrite <- add_request_extend.
  unfold YandexDiskStorage._make_request, with_local, try_except, bind, lift,
    YandexDiskStorage.requests_request, set_local, get_local,
    YandexDiskStorage.raise_for_status, request_outcome; simpl.
  destruct (net st (length (requests st))) as [r| | |]; simpl; try reflexivity.
  destruct ((400 <=? status_code r)%nat && (status_code r <? 600)%nat); simpl;
    [|reflexivity].
  destruct (status_code r =? 401)%nat; [reflexivity|].
  destruct (status_code r =? 404)%nat; reflexivity.
Qed.

Lemma request_outcome_Exception rp e :
  request_outcome rp = Raise e -> is_Exception e.
Proof.
  unfold request_outcome. destruct rp as [r| | |]; try (intros [= <-]; reflexivity).
  destruct ((400 <=? status_code r)%nat && (status_code r <? 600)%nat);
    [|discriminate].
  destruct (status_code r =? 401)%nat; [intros [= <-]; reflexivity|].
  destruct (status_code r =? 404)%nat; intros [= <-]; reflexivity.
Qed.

(** ** The program logic *)

Section Sound.
Context {S : Type} (R : S -> S -> Prop).
Hypothesis R_refl : forall s, R s s.
Hypothesis R_trans : forall s1 s2 s3, R s1 s2 -> R s2 s3 -> R s1 s3.

Lemma sound_ret {A} E (a : A) : sound R E (ret a).
Proof. intros s r s' [= <- <-]. split; [apply R_refl | discriminate]. Qed.

Lemma sound_raise {A} (E : exn -> Prop) e : E e -> sound R E (@raise S A e).
Proof.
  intros He s r s' [= <- <-]. split; [apply R_refl|].
  now intros e' [= <-].
Qed.

Lemma sound_gets {A} E (f : S -> A) : sound R E (gets f).
Proof. intros s r s' [= <- <-]. split; [apply R_refl | discriminate]. Qed.

Lemma sound_bind {A B} E (m : M S A) (k : A -> M S B) :
  sound R E m -> (forall a, sound R E (k a)) -> sound R E (bind m k).
Proof.
  intros Hm Hk s r s' H. unfold bind in H.
  destruct (m s) as [[a|e] s1] eqn:Em.
  - destruct (Hm _ _ _ Em) as [R1 _]. destruct (Hk a _ _ _ H) as [R2 E2].
    split; [eapply R_trans; eauto | exact E2].
  - injection H as <- <-. destruct (Hm _ _ _ Em) as [R1 E1].
    split; [exact R1|]. intros e' [= <-]. now apply E1.
Qed.

Lemma sound_try_except {A} (E' E : exn -> Prop) (m : M S A) h :
  sound R E' m ->
  (forall e, E' e ->
     match h e with Some k => sound R E k | None => E e end) ->
  sound R E (try_except m h).
Proof.
  intros Hm Hh s r s' H. unfold try_except in H.
  destruct (m s) as [[a|e] s1] eqn:Em.
  - injection H as <- <-. destruct (Hm _ _ _ Em) as [R1 _].
    split; [exact R1 | discriminate].
  - destruct (Hm _ _ _ Em) as [R1 E1].
    specialize (Hh e (E1 e eq_refl)).
    destruct (h e) as [k|].
    + destruct (Hh _ _ _ H) as [R2 E2]. split; [eapply R_trans; eauto | exact E2].
    + injection H as <- <-. split; [exact R1|]. now intros e' [= <-].
Qed.

Lemma sound_for_each {X} E (xs : list X) (body : X -> M S unit) :
  (forall x, In x xs -> sound R E (body x)) -> sound R E (for_each xs body).
Proof.
  induction xs as [|x xs IH]; intros Hb; simpl.
  - apply sound_ret.
  - apply sound_bind; [apply Hb; now left|].
    intros _. apply IH. intros y Hy. apply Hb. now right.
Qed.

Lemma sound_weaken {A} (E E' : exn -> Prop) (m : M S A) :
  (forall e, E e -> E' e) -> sound R E m -> sound R E' m.
Proof.
  intros HE Hm s r s' H. destruct (Hm _ _ _ H) as [R1 E1].
  split; [exact R1|]. intros e He. apply HE. now apply E1.
Qed.
End Sound.

Lemma bind_gets {S A B} (f : S -> A) (k : A -> M S B) s :
  bind (gets f) k s = k (f s) s.
Proof. reflexivity. Qed.

Lemma bind_Ret {S A B} (m : M S A) (k : A -> M S B) s a s' :
  m s = (Ret a, s') -> bind m k s = k a s'.
Proof. unfold bind. now intros ->. Qed.

Lemma bind_Raise {S A B} (m : M S A) (k : A -> M S B) s e s' :
  m s = (Raise e, s') -> bind m k s = (Raise e, s').
Proof. unfold bind. now intros ->. Qed.

Lemma try_Ret {S A} (m : M S A) h s a s' :
  m s = (Ret a, s') -> try_except m h s = (Ret a, s').
Proof. unfold try_except. now intros ->. Qed.

Lemma try_Raise {S A} (m : M S A) h s e s' k :
  m s = (Raise e, s') -> h e = Some k -> try_except m h s = k s'.
Proof. unfold try_except. now intros -> ->. Qed.

Lemma try_handled {S A} (m : M S A) c (k : exn -> M S A) s e s' :
  m s = (Raise e, s') -> isinstance e c = true ->
  try_except m (except1 c k) s = k e s'.
Proof. unfold try_except, except1. now intros -> ->. Qed.

(** What [except c: k] answers for an exception. *)
Lemma except1_hit {S A} c (k : exn -> M S A) e :
  isinstance e c = true -> except1 c k e = Some (k e).
Proof. unfold except1. now intros ->. Qed.

Lemma except1_miss {S A} c (k : exn -> M S A) e :
  isinstance e c = false -> except1 c k e = None.
Proof. unfold except1. now intros ->. Qed.

Lemma sends_refl st : sends st st.
Proof. exists []. now rewrite extend_nil. Qed.

Lemma sends_trans s1 s2 s3 : sends s1 s2 -> sends s2 s3 -> sends s1 s3.
Proof.
  intros [r1 ->] [r2 ->]. exists (r1 ++ r2)%list. now rewrite extend_extend.
Qed.

Lemma client_ret {A} (a : A) : client (ret a).
Proof. apply sound_ret, sends_refl. Qed.

Lemma client_raise {A} e : is_Exception e -> client (@raise State A e).
Proof. apply sound_raise, sends_refl. Qed.

Lemma client_bind {A B} (m : M State A) (k : A -> M State B) :
  client m -> (forall a, client (k a)) -> client (bind m k).
Proof. apply sound_bind, sends_trans. Qed.

Lemma client_make_request meth u ps :
  client (YandexDiskStorage._make_request meth u ps).
Proof.
  intros s r s' H. rewrite make_request_eq in H. injection H as <- <-.
  split; [now eexists|]. intros e. apply request_outcome_Exception.
Qed.

Lemma client_requests_request meth u ps :
  client (YandexDiskStorage.requests_request meth u ps).
Proof.
  intros s r s' H. unfold YandexDiskStorage.requests_request in H.
  rewrite add_request_extend in H.
  destruct (net s (length (requests s))); injection H as <- <-;
    (split; [now eexists|]); intros e' [= <-]; reflexivity.
Qed.

Lemma client_raise_for_status r :
  client (YandexDiskStorage.raise_for_status r).
Proof.
  unfold YandexDiskStorage.raise_for_status.
  destruct (_ && _); [apply client_raise; reflexivity | apply client_ret].
Qed.

Lemma client_response_json r : client (YandexDiskStorage.response_json r).
Proof.
  unfold YandexDiskStorage.response_json.
  destruct (json r); [apply client_ret | apply client_raise; reflexivity].
Qed.

Lemma client_open_rb p : client (YandexDiskStorage.open_rb p).
Proof.
  intros s r s' H. unfold YandexDiskStorage.open_rb in H.
  destruct (fs_md5 (fs s) p); injection H as <- <-;
    (split; [apply sends_refl|]).
  - discriminate.
  - intros e [= <-]. apply errno_is_Exception.
Qed.

Lemma client_collect_files its acc :
  client (YandexDiskStorage.collect_files its acc).
Proof.
  revert acc. induction its as [|it its IH]; intros acc; simpl.
  - apply client_ret.
  - destruct (item_type it) as [ty|]; [|apply client_raise; reflexivity].
    destruct (String.eqb ty "file"); [|apply IH].
    destruct (item_name it); [apply IH | apply client_raise; reflexivity].
Qed.

(** A handler that turns every [Exception] into another one. *)
Lemma client_wrap {A} (m : M State A) (h : exn -> option (M State A)) :
  client m ->
  (forall e, is_Exception e ->
     exists e', is_Exception e' /\ h e = Some (raise e')) ->
  client (try_except m h).
Proof.
  intros Hm Hh. eapply sound_try_except; [apply sends_trans | exact Hm |].
  intros e He. destruct (Hh e He) as (e' & He' & ->).
  now apply client_raise.
Qed.

Lemma client_load cfg p : client (YandexDiskStorage.load cfg p).
Proof.
  unfold YandexDiskStorage.load. apply client_wrap.
  - apply client_bind; [apply client_make_request|]. intros response.
    apply client_bind; [apply client_response_json|]. intros body.
    assert (Hbad : client (@raise State bool
              (mkExn RuntimeError "Не удалось получить URL для загрузки")))
      by (apply client_raise; reflexivity).
    destruct (href body) as [[|c s]|]; try exact Hbad.
    apply client_bind; [apply client_open_rb|]. intros _.
    apply client_bind; [apply client_requests_request|]. intros ur.
    apply client_bind; [apply client_raise_for_status|]. intros _.
    apply client_ret.
  - intros e He. unfold orelse, except1.
    destruct (isinstance e OSError); [eexists; split; [|reflexivity]; reflexivity|].
    unfold is_Exception in He. rewrite He.
    eexists; split; [|reflexivity]; reflexivity.
Qed.

Lemma client_reload cfg p : client (YandexDiskStorage.reload cfg p).
Proof. apply client_load. Qed.

Lemma client_delete cfg f : client (YandexDiskStorage.delete cfg f).
Proof.
  unfold YandexDiskStorage.delete.
  eapply sound_try_except; [apply sends_trans | |].
  - apply client_bind; [apply client_make_request|]. intros _.
    apply client_ret.
  - intros e He. unfold orelse, except1.
    destruct (isinstance e FileNotFoundError); [apply client_ret|].
    unfold is_Exception in He. rewrite He. apply client_raise. reflexivity.
Qed.

Lemma client_get_info cfg : client (YandexDiskStorage.get_info cfg).
Proof.
  unfold YandexDiskStorage.get_info. apply client_wrap.
  - apply client_bind; [apply client_make_request|]. intros response.
    apply client_bind; [apply client_response_json|]. intros body.
    apply client_collect_files.
  - intros e He. unfold except1. unfold is_Exception in He. rewrite He.
    eexists; split; [|reflexivity]; reflexivity.
Qed.

(** ** Dictionaries *)

Lemma dict_get_In {V} k (v : V) d : dict_get k d = Some v -> In (k, v) d.
Proof.
  induction d as [|[k' v'] d IH]; simpl; [discriminate|].
  destruct (String.eqb k k') eqn:E.
  - apply String.eqb_eq in E. intros [= ->]. subst. now left.
  - intros H. right. now apply IH.
Qed.

Lemma dict_get_None {V} k (d : Dict V) :
  dict_get k d = None <-> ~ In k (dict_keys d).
Proof.
  induction d as [|[k' v'] d IH]; simpl; [tauto|].
  destruct (String.eqb k k') eqn:E.
  - apply String.eqb_eq in E. subst. split; [discriminate|]. intros H. tauto.
  - apply String.eqb_neq in E. rewrite IH. split; intros H; [|tauto].
    intros [H1|H1]; [congruence | tauto].
Qed.

Lemma In_dict_get {V} k (v : V) d :
  dict_wf d -> In (k, v) d -> dict_get k d = Some v.
Proof.
  unfold dict_wf. induction d as [|[k' v'] d IH]; simpl; [tauto|].
  intros Hnd. inversion Hnd as [|? ? Hni Hnd']; subst.
  intros [[= -> ->]|Hin].
  - now rewrite String.eqb_refl.
  - destruct (String.eqb k k') eqn:E; [|now apply IH].
    apply String.eqb_eq in E. subst. exfalso. apply Hni.
    change (In (fst (k', v)) (map fst d)). now apply in_map.
Qed.

Lemma dict_contains_true {V} k (d : Dict V) :
  dict_contains k d = true <-> In k (dict_keys d).
Proof.
  unfold dict_contains. destruct (dict_get k d) eqn:E.
  - split; [intros _|reflexivity]. apply dict_get_In in E.
    change (In (fst (k, v)) (map fst d)). now apply in_map.
  - apply dict_get_None in E. split; [discriminate | tauto].
Qed.

Lemma dict_keys_set {V} k (v : V) d :
  dict_keys (dict_set k v d)
  = if dict_contains k d then dict_keys d else (dict_keys d ++ [k])%list.
Proof.
  unfold dict_contains. induction d as [|[k' v'] d IH]; simpl; [reflexivity|].
  destruct (String.eqb k k') eqn:E; simpl; [reflexivity|].
  rewrite IH. now destruct (dict_get k d).
Qed.

Lemma dict_wf_set {V} k (v : V) d : dict_wf d -> dict_wf (dict_set k v d).
Proof.
  unfold dict_wf. rewrite dict_keys_set. intros H.
  destruct (dict_contains k d) eqn:E; [exact H|].
  apply NoDup_app; [exact H | repeat constructor; simpl; tauto |].
  intros x Hx [<-|[]].
  apply dict_contains_true in Hx. congruence.
Qed.

Lemma In_dict_set {V} k (v : V) d k1 v1 :
  In (k1, v1) (dict_set k v d) -> (k1 = k /\ v1 = v) \/ In (k1, v1) d.
Proof.
  induction d as [|[k' v'] d IH]; simpl.
  - intros [[= <- <-]|[]]. now left.
  - destruct (String.eqb k k') eqn:E; simpl.
    + apply String.eqb_eq in E. subst.
      intros [[= <- <-]|H]; [now left | right; now right].
    + intros [H|H]; [right; now left|].
      destruct (IH H) as [H1|H1]; [now left | right; now right].
Qed.

(** ** Paths *)

Lemma append_inj_l (a b c : string) : (a ++ b = a ++ c)%string -> b = c.
Proof.
  induction a as [|x a IH]; intros H; [exact H|].
  injection H as H. now apply IH.
Qed.

Lemma joinpath_inj folder a b : joinpath folder a = joinpath folder b -> a = b.
Proof.
  unfold joinpath. intros H. apply append_inj_l in H.
  now apply (append_inj_l "/") in H.
Qed.

(** ** The scanner *)

Lemma snapshot_ok_set cfg k v d :
  entry_ok cfg (k, v) -> snapshot_ok cfg d -> snapshot_ok cfg (dict_set k v d).
Proof.
  intros Hv [Hwf Hall]. split; [now apply dict_wf_set|].
  apply Forall_forall. intros [k1 v1] Hin.
  apply In_dict_set in Hin. destruct Hin as [[-> ->]|Hin]; [exact Hv|].
  rewrite Forall_forall in Hall. now apply Hall.
Qed.

(** One turn of the scanner's loop: what it returns, the new value of
    [local_files] and what it logs depend on the file system only. *)
Ltac scan_run item Hfs :=
  unfold FileSyncService.scan_item, bind, lift,
    FileSyncService.Path_is_file, FileSyncService.get_file_hash,
    FileSyncService.md5_of_file, FileSyncService.Path_stat,
    try_except, get_local, set_local, ret;
  repeat (cbn [fst snd]; fold item; rewrite ?Hfs;
          match goal with
          | H : ?t = _ |- context [match ?t with _ => _ end] => rewrite H
          | H : ?t = _ |- context [if ?t then _ else _] => rewrite H
          end).

Lemma scan_item_char cfg x lf fs0 :
  exists r lf' ls,
    (forall st, fs st = fs0 ->
       FileSyncService.scan_item cfg x (lf, st)
       = (r, (lf', extend [] [] ls st)))
    /\ Forall is_scan_record ls
    /\ (snapshot_ok cfg lf -> snapshot_ok cfg lf')
    /\ (forall e, r = Raise e -> exists n, e = exn_of_errno n).
Proof.
  set (item := joinpath (sync_folder_path cfg) x).
  destruct (fs_stat fs0 item) as [s|n] eqn:Hs.
  - destruct (st_isreg s) eqn:Hreg.
    + destruct (fs_md5 fs0 item) as [h|n] eqn:Hh.
      * destruct (FileSyncService.truthy h) eqn:Ht.
        -- exists (Ret tt),
             (dict_set x (mkFileInfo x item h (st_size s) (st_mtime s)) lf), [].
           split; [|split; [constructor|split; [|discriminate]]].
           ++ intros st Hfs. rewrite extend_nil. scan_run item Hfs. reflexivity.
           ++ apply snapshot_ok_set. repeat split; auto.
        -- exists (Ret tt), lf, [].
           split; [|split; [constructor|split; [tauto|discriminate]]].
           intros st Hfs. rewrite extend_nil. scan_run item Hfs. reflexivity.
      * exists (Ret tt), lf, [(ERROR, LogReadError item (exn_of_errno n))].
        split; [|split; [repeat constructor|split; [tauto|discriminate]]].
        intros st Hfs. rewrite <- add_log_extend. scan_run item Hfs.
        rewrite except1_hit by (destruct n; reflexivity). reflexivity.
    + exists (Ret tt), lf, [].
      split; [|split; [constructor|split; [tauto|discriminate]]].
      intros st Hfs. rewrite extend_nil. scan_run item Hfs. reflexivity.
  - assert (Hcase : (n = ENOENT \/ n = ENOTDIR) \/ (n = EACCES \/ n = EIO))
      by (destruct n; tauto).
    destruct Hcase as [Hn|Hn].
    + exists (Ret tt), lf, [].
      split; [|split; [constructor|split; [tauto|discriminate]]].
      intros st Hfs. rewrite extend_nil. scan_run item Hfs.
      now destruct Hn as [-> | ->].
    + exists (Raise (exn_of_errno n)), lf, [].
      split; [|split; [constructor|split; [tauto|]]].
      * intros st Hfs. rewrite extend_nil. scan_run item Hfs.
        now destruct Hn as [-> | ->].
      * intros e [= <-]. now exists n.
Qed.

Lemma scan_loop_char cfg xs : forall lf fs0,
  exists r lf' ls,
    (forall st, fs st = fs0 ->
       for_each xs (FileSyncService.scan_item cfg) (lf, st)
       = (r, (lf', extend [] [] ls st)))
    /\ Forall is_scan_record ls
    /\ (snapshot_ok cfg lf -> snapshot_ok cfg lf')
    /\ (forall e, r = Raise e -> exists n, e = exn_of_errno n).
Proof.
  induction xs as [|x xs IH]; intros lf fs0.
  - exists (Ret tt), lf, [].
    split; [|split; [constructor|split; [tauto|discriminate]]].
    intros st _. now rewrite extend_nil.
  - destruct (scan_item_char cfg x lf fs0) as (r1 & lf1 & ls1 & H1 & L1 & K1 & E1).
    destruct r1 as [[]|e].
    + destruct (IH lf1 fs0) as (r2 & lf2 & ls2 & H2 & L2 & K2 & E2).
      exists r2, lf2, (ls1 ++ ls2)%list.
      split; [|split; [now apply Forall_app|split; [tauto|exact E2]]].
      intros st Hfs. simpl. unfold bind. rewrite (H1 st Hfs).
      rewrite (H2 (extend [] [] ls1 st) Hfs). now rewrite extend_extend.
    + exists (Raise e), lf1, ls1.
      split; [|split; [exact L1|split; [exact K1|]]].
      * intros st Hfs. simpl. unfold bind. now rewrite (H1 st Hfs).
      * intros e' [= <-]. now apply E1.
Qed.

Lemma snapshot_ok_nil cfg : snapshot_ok cfg [].
Proof. split; constructor. Qed.

(** The scanner: its result and what it logs depend on the file system
    only; a result is a well-formed snapshot, an exception that leaves it is
    an [OSError] other than [PermissionError]. *)
Lemma scan_char cfg fs0 :
  exists r ls,
    (forall st, fs st = fs0 ->
       FileSyncService.scan_local_folder cfg st = (r, extend [] [] ls st))
    /\ Forall is_scan_record ls
    /\ (forall cur, r = Ret cur -> snapshot_ok cfg cur)
    /\ (forall e, r = Raise e -> exists n, e = exn_of_errno n /\ n <> EACCES).
Proof.
  set (folder := sync_folder_path cfg).
  set (denied := (ERROR, LogFolderAccess folder (exn_of_errno EACCES))).
  destruct (fs_listdir fs0 folder) as [children|n] eqn:Hl.
  - destruct (scan_loop_char cfg children [] fs0)
      as (r1 & lf1 & ls1 & H1 & L1 & K1 & E1).
    specialize (K1 (snapshot_ok_nil cfg)).
    destruct r1 as [[]|e].
    + exists (Ret lf1), ls1.
      split; [|split; [exact L1|split; [|discriminate]]].
      * intros st Hfs.
        unfold FileSyncService.scan_local_folder, with_local, bind, try_except,
          lift, FileSyncService.Path_iterdir, get_local.
        cbn [fst snd]. fold folder. rewrite Hfs, Hl. now rewrite (H1 st Hfs).
      * now intros cur [= <-].
    + destruct (E1 e eq_refl) as [n ->].
      destruct (Errno_eq_dec n EACCES) as [->|Hn].
      * exists (Ret lf1), (ls1 ++ [denied])%list.
        split; [|split; [|split; [|discriminate]]].
        -- intros st Hfs.
           unfold FileSyncService.scan_local_folder, with_local, bind,
             try_except, lift, FileSyncService.Path_iterdir, get_local.
           cbn [fst snd]. fold folder. rewrite Hfs, Hl, (H1 st Hfs).
           rewrite except1_hit by reflexivity.
           unfold logger_error, modify. cbn [fst snd].
           now rewrite add_log_extend, extend_extend.
        -- apply Forall_app. split; [exact L1|]. repeat constructor.
        -- now intros cur [= <-].
      * exists (Raise (exn_of_errno n)), ls1.
        split; [|split; [exact L1|split; [discriminate|]]].
        -- intros st Hfs.
           unfold FileSyncService.scan_local_folder, with_local, bind,
             try_except, lift, FileSyncService.Path_iterdir, get_local.
           cbn [fst snd]. fold folder. rewrite Hfs, Hl, (H1 st Hfs).
           rewrite except1_miss by (destruct n; try reflexivity; congruence).
           reflexivity.
        -- intros e [= <-]. now exists n.
  - destruct (Errno_eq_dec n EACCES) as [->|Hn].
    + exists (Ret []), [denied].
      split; [|split; [repeat constructor|split; [|discriminate]]].
      * intros st Hfs.
        unfold FileSyncService.scan_local_folder, with_local, bind, try_except,
          lift, FileSyncService.Path_iterdir, get_local.
        cbn [fst snd]. fold folder. rewrite Hfs, Hl.
        rewrite except1_hit by reflexivity.
        unfold logger_error, modify. cbn [fst snd].
        now rewrite add_log_extend.
      * intros cur [= <-]. apply snapshot_ok_nil.
    + exists (Raise (exn_of_errno n)), [].
      split; [|split; [constructor|split; [discriminate|]]].
      * intros st Hfs.
        unfold FileSyncService.scan_local_folder, with_local, bind, try_except,
          lift, FileSyncService.Path_iterdir, get_local.
        cbn [fst snd]. fold folder. rewrite Hfs, Hl.
        rewrite except1_miss by (destruct n; try reflexivity; congruence).
        now rewrite extend_nil.
      * intros e [= <-]. now exists n.
Qed.

Lemma scan_listing_denied cfg st :
  fs_listdir (fs st) (sync_folder_path cfg) = OsErr EACCES ->
  FileSyncService.scan_local_folder cfg st
  = (Ret [],
     extend [] []
       [(ERROR, LogFolderAccess (sync_folder_path cfg) (exn_of_errno EACCES))] st).
Proof.
  intros Hl.
  unfold FileSyncService.scan_local_folder, with_local, bind, try_except,
    lift, FileSyncService.Path_iterdir, get_local.
  cbn [fst snd]. rewrite Hl. rewrite except1_hit by reflexivity.
  unfold logger_error, modify. cbn [fst snd]. now rewrite add_log_extend.
Qed.

Lemma scan_listing_error cfg st n :
  fs_listdir (fs st) (sync_folder_path cfg) = OsErr n -> n <> EACCES ->
  FileSyncService.scan_local_folder cfg st = (Raise (exn_of_errno n), st).
Proof.
  intros Hl Hn.
  unfold FileSyncService.scan_local_folder, with_local, bind, try_except,
    lift, FileSyncService.Path_iterdir, get_local.
  cbn [fst snd]. rewrite Hl.
  rewrite except1_miss by (destruct n; try reflexivity; congruence).
  reflexivity.
Qed.

(** ** The service's actions *)

(** [try: client call; log success  except Exception: log failure]: the call
    is recorded, exactly one record is logged, nothing is raised. *)
Lemma action_block {A} (c : Call) (m : M State A) okev errev st :
  client m ->
  exists rq rec,
    try_except (_ <- FileSyncService.invoke c m ;; logger_info okev)
               (except1 PyException (fun e => logger_error (errev e))) st
    = (Ret tt, extend rq [c] [rec] st)
    /\ match fst (m (add_call c st)) with
       | Ret _ => rec = (INFO, okev)
       | Raise e => rec = (ERROR, errev e)
       end.
Proof.
  intros Hm.
  unfold FileSyncService.invoke, try_except, bind, modify.
  destruct (m (add_call c st)) as [[a|e] s1] eqn:Em;
    destruct (Hm _ _ _ Em) as [[rq ->] He]; cbn [fst].
  - exists rq, (INFO, okev). split; [|reflexivity].
    unfold logger_info, modify. now ext_norm.
  - exists rq, (ERROR, errev e). split; [|reflexivity].
    rewrite except1_hit by (now apply He).
    unfold logger_error, modify. now ext_norm.
Qed.

Lemma sync_item_char cfg it st :
  exists rq ls,
    FileSyncService.sync_item cfg it st
    = (Ret tt, extend rq (calls_for_item (local_files_cache st) it) ls st)
    /\ Forall (item_record (fst it)) ls.
Proof.
  destruct it as [file_name local_info].
  unfold FileSyncService.sync_item, calls_for_item. rewrite bind_gets.
  cbn [fst snd].
  destruct (dict_get file_name (local_files_cache st)) as [cached_info|].
  - destruct (negb (String.eqb (hash cached_info) (hash local_info))).
    + destruct (action_block (CReload (path local_info))
                  (LogUpdated file_name) (LogUpdateError file_name) st
                  (client_reload cfg (path local_info)))
        as (rq & rec & -> & Hrec).
      exists rq, [rec]. split; [reflexivity|]. constructor; [|constructor].
      destruct (fst _); subst rec; reflexivity.
    + exists [], []. split; [now rewrite extend_nil | constructor].
  - destruct (action_block (CLoad (path local_info))
                (LogNewUploaded file_name) (LogNewUploadError file_name) st
                (client_load cfg (path local_info)))
      as (rq & rec & -> & Hrec).
    exists rq, [rec]. split; [reflexivity|]. constructor; [|constructor].
    destruct (fst _); subst rec; reflexivity.
Qed.

Lemma sync_cached_char cfg current file_name st :
  exists rq ls,
    FileSyncService.sync_cached cfg current file_name st
    = (Ret tt, extend rq (calls_for_cached current file_name) ls st)
    /\ Forall (cached_record file_name) ls.
Proof.
  unfold FileSyncService.sync_cached, calls_for_cached.
  destruct (negb (dict_contains file_name current)).
  - destruct (action_block (CDelete file_name)
                (LogDeleted file_name) (LogDeleteError file_name) st
                (client_delete cfg file_name))
      as (rq & rec & -> & Hrec).
    exists rq, [rec]. split; [reflexivity|]. constructor; [|constructor].
    destruct (fst _); subst rec; reflexivity.
  - exists [], []. split; [now rewrite extend_nil | constructor].
Qed.

Lemma initial_item_char cfg it st :
  exists rq ls,
    FileSyncService.initial_item cfg it st
    = (Ret tt, extend rq (initial_call it) ls st)
    /\ Forall (initial_record (fst it)) ls.
Proof.
  destruct it as [file_name file_info].
  destruct (action_block (CLoad (path file_info))
              (LogUploaded file_name) (LogUploadError file_name) st
              (client_load cfg (path file_info)))
    as (rq & rec & H & Hrec).
  exists rq, [rec]. split; [exact H|]. constructor; [|constructor].
  destruct (fst _); subst rec; reflexivity.
Qed.

(** A loop whose turns only send, invoke and log: it runs to its end, the
    calls are those of its turns, in order, and every record is one of a
    turn.  A turn may read the cache, which the loop does not change. *)
Lemma for_each_char {X} (body : X -> M State unit)
      (fc : Dict FileInfo -> X -> list Call) (P : X -> LogRecord -> Prop) :
  (forall x st, exists rq ls,
      body x st = (Ret tt, extend rq (fc (local_files_cache st) x) ls st)
      /\ Forall (P x) ls) ->
  forall xs st, exists rq ls,
    for_each xs body st
    = (Ret tt, extend rq (flat_map (fc (local_files_cache st)) xs) ls st)
    /\ Forall (fun r => exists x, In x xs /\ P x r) ls.
Proof.
  intros Hb. induction xs as [|x xs IH]; intros st.
  - exists [], []. split; [now rewrite extend_nil | constructor].
  - destruct (Hb x st) as (rq1 & ls1 & H1 & L1).
    destruct (IH (extend rq1 (fc (local_files_cache st) x) ls1 st))
      as (rq2 & ls2 & H2 & L2).
    exists (rq1 ++ rq2)%list, (ls1 ++ ls2)%list. split.
    + simpl. unfold bind. rewrite H1, H2. now rewrite extend_extend.
    + apply Forall_app. split.
      * eapply Forall_impl; [|exact L1]. intros r Hr. exists x. split; [now left|exact Hr].
      * eapply Forall_impl; [|exact L2]. intros r (y & Hy & Hr).
        exists y. split; [now right|exact Hr].
Qed.

Lemma item_records_pass current ls :
  Forall (fun r => exists it : string * FileInfo,
              In it current /\ item_record (fst it) r) ls ->
  Forall (pass_record current) ls.
Proof.
  apply Forall_impl. intros [lv ev] (it & Hin & Hr).
  unfold item_record in Hr. unfold pass_record. cbn [snd] in *.
  destruct ev; try contradiction; subst; now apply in_map.
Qed.

Lemma cached_records_pass current (ks : list string) ls :
  Forall (fun r => exists k, In k ks /\ cached_record k r) ls ->
  Forall (pass_record current) ls.
Proof.
  apply Forall_impl. intros [lv ev] (k & Hin & Hr).
  unfold cached_record in Hr. unfold pass_record. cbn [snd] in *.
  destruct ev; try contradiction; exact I.
Qed.

Lemma initial_records_pass current ls :
  Forall (fun r => exists it : string * FileInfo,
              In it current /\ initial_record (fst it) r) ls ->
  Forall (pass_record current) ls.
Proof.
  apply Forall_impl. intros [lv ev] (it & Hin & Hr).
  unfold initial_record in Hr. unfold pass_record. cbn [snd] in *.
  destruct ev; try contradiction; subst; now apply in_map.
Qed.

Lemma invoke_eq {A} c (m : M State A) st :
  FileSyncService.invoke c m st = m (add_call c st).
Proof. reflexivity. Qed.

(** The listing call made by the service: recorded, then one request. *)
Lemma invoke_get_info cfg st :
  exists r rq,
    FileSyncService.invoke CGetInfo (YandexDiskStorage.get_info cfg) st
    = (r, extend rq [CGetInfo] [] st)
    /\ (forall e, r = Raise e -> is_Exception e).
Proof.
  rewrite invoke_eq.
  destruct (YandexDiskStorage.get_info cfg (add_call CGetInfo st))
    as [r s1] eqn:E.
  destruct (client_get_info cfg _ E) as [[rq ->] He].
  exists r, rq. split; [now ext_norm | exact He].
Qed.

(** ** The steady-state pass *)

Lemma sync_files_pass cfg st :
  exists st',
    FileSyncService.sync_files cfg st = (Ret tt, st') /\ SyncPass cfg st st'.
Proof.
  destruct (scan_char cfg (fs st)) as (r & ls & Hscan & Hls & Hok & Hraise).
  specialize (Hscan st eq_refl).
  unfold FileSyncService.sync_files.
  destruct r as [current|e].
  - destruct (invoke_get_info cfg (extend [] [] ls st)) as (ri & rq0 & Hinfo & Hie).
    rewrite extend_extend in Hinfo. cbn [app] in Hinfo.
    rewrite app_nil_r in Hinfo.
    destruct ri as [cloud_files|e].
    + set (s2 := extend rq0 [CGetInfo] ls st) in *.
      destruct (for_each_char (FileSyncService.sync_item cfg) calls_for_item
                  (fun it => item_record (fst it)) (sync_item_char cfg) (dict_items current) s2)
        as (rq1 & ls1 & Hloop1 & L1).
      set (s3 := extend rq1 (flat_map (calls_for_item (local_files_cache s2))
                               (dict_items current)) ls1 s2) in *.
      destruct (for_each_char (FileSyncService.sync_cached cfg current)
                  (fun _ => calls_for_cached current) cached_record
                  (sync_cached_char cfg current)
                  (dict_keys (local_files_cache s3)) s3)
        as (rq2 & ls2 & Hloop2 & L2).
      eexists. split.
      * apply try_Ret.
        rewrite (bind_Ret _ _ _ Hscan), (bind_Ret _ _ _ Hinfo).
        rewrite (bind_Ret _ _ _ Hloop1), bind_gets.
        rewrite (bind_Ret _ _ _ Hloop2). reflexivity.
      * eapply Compared with (ls' := (ls1 ++ ls2)%list); eauto.
        -- apply Forall_app. split;
             [now apply item_records_pass
             | now apply cached_records_pass with (ks := dict_keys (local_files_cache s3))].
        -- unfold s3, s2, dict_copy, planned_calls, dict_items.
           rewrite !extend_extend. cbn [app local_files_cache extend].
           reflexivity.
    + eexists. split.
      * erewrite try_handled;
          [reflexivity
          | rewrite (bind_Ret _ _ _ Hscan); apply (bind_Raise _ _ _ Hinfo)
          | now apply Hie].
      * eapply ListingRaised; eauto. now ext_norm.
  - destruct (Hraise e eq_refl) as (n & -> & Hn).
    eexists. split.
    + erewrite try_handled;
        [reflexivity | apply (bind_Raise _ _ _ Hscan) | apply errno_is_Exception].
    + eapply ScanRaised; eauto. now ext_norm.
Qed.

(** ** The initial pass *)

Lemma perform_initial_sync_pass cfg st :
  exists st',
    FileSyncService.perform_initial_sync cfg st = (Ret tt, st')
    /\ InitialPass cfg st st'.
Proof.
  set (s0 := extend [] [] [(INFO, LogInitialBegin)] st).
  assert (Hbegin : logger_info LogInitialBegin st = (Ret tt, s0))
    by (unfold logger_info, modify, s0; now ext_norm).
  unfold FileSyncService.perform_initial_sync.
  rewrite (bind_Ret _ _ _ Hbegin).
  destruct (invoke_get_info cfg s0) as (ri & rq0 & Hinfo & Hie).
  unfold s0 in Hinfo at 2. rewrite extend_extend in Hinfo.
  cbn [app] in Hinfo. rewrite ?app_nil_r in Hinfo.
  destruct ri as [cloud_files|e].
  - set (s1 := extend rq0 [CGetInfo] [(INFO, LogInitialBegin)] st) in *.
    destruct (scan_char cfg (fs st)) as (r & ls & Hscan & Hls & Hok & Hraise).
    pose proof (Hscan st eq_refl) as Hscan0.
    specialize (Hscan s1 eq_refl).
    destruct r as [local_files|e].
    + set (s2 := extend [] [] ls s1) in *.
      destruct (for_each_char (FileSyncService.initial_item cfg)
                  (fun _ => initial_call) (fun it => initial_record (fst it))
                  (initial_item_char cfg) (dict_items local_files) s2)
        as (rq1 & ls1 & Hloop & L1).
      eexists. split.
      * apply try_Ret.
        rewrite (bind_Ret _ _ _ Hinfo), (bind_Ret _ _ _ Hscan).
        rewrite (bind_Ret _ _ _ Hloop). reflexivity.
      * eapply InitCompared with (ls' := ls1); eauto.
        { now apply initial_records_pass. }
        unfold s2, s1, dict_copy, dict_items.
        rewrite add_log_extend, set_cache_extend, !extend_extend.
        cbn [app]. rewrite ?app_nil_r, <- ?app_assoc. reflexivity.
    + destruct (Hraise e eq_refl) as (n & -> & Hn).
      eexists. split.
      * erewrite try_handled;
          [reflexivity
          | rewrite (bind_Ret _ _ _ Hinfo); apply (bind_Raise _ _ _ Hscan)
          | apply errno_is_Exception].
      * eapply InitScanRaised; eauto. unfold s1. now ext_norm.
  - eexists. split.
    + erewrite try_handled;
        [reflexivity | apply (bind_Raise _ _ _ Hinfo) | now apply Hie].
    + eapply InitListingRaised; eauto. now ext_norm.
Qed.

(* ================================================================== *)
(** * What a pass does, as seen from outside *)

Lemma skipn_length_app {A} (a l : list A) : skipn (length a) (a ++ l) = l.
Proof. induction a; simpl; auto. Qed.

Lemma issued_extend rq cs ls st : issued st (extend rq cs ls st) = cs.
Proof. unfold issued, extend; simpl. apply skipn_length_app. Qed.

Lemma logged_extend rq cs ls st : logged st (extend rq cs ls st) = ls.
Proof. unfold logged, extend; simpl. apply skipn_length_app. Qed.

Lemma issued_set_cache d rq cs ls st :
  issued st (set_cache d (extend rq cs ls st)) = cs.
Proof. unfold issued, extend; simpl. apply skipn_length_app. Qed.

Lemma logged_set_cache d rq cs ls st :
  logged st (set_cache d (extend rq cs ls st)) = ls.
Proof. unfold logged, extend; simpl. apply skipn_length_app. Qed.

(** ** Counting the calls of a comparison *)

Lemma count_one (c c' : Call) :
  count_occ Call_eq_dec [c] c' = if Call_eq_dec c c' then 1 else 0.
Proof. simpl. now destruct (Call_eq_dec c c'). Qed.

Lemma wf_tail {V} (k : string) (v : V) d :
  dict_wf ((k, v) :: d) -> dict_get k d = None /\ dict_wf d.
Proof.
  unfold dict_wf. simpl. intros H. inversion H; subst.
  split; [now apply dict_get_None | assumption].
Qed.

Lemma count_items cfg cache current file_name :
  snapshot_ok cfg current ->
  let l := flat_map (calls_for_item cache) current in
  uploads cfg file_name l
  = match dict_get file_name current, dict_get file_name cache with
    | Some _, None => 1
    | _, _ => 0
    end
  /\ overwrites cfg file_name l
     = match dict_get file_name current, dict_get file_name cache with
       | Some local_info, Some cached_info =>
           if String.eqb (hash cached_info) (hash local_info) then 0 else 1
       | _, _ => 0
       end
  /\ deletes file_name l = 0.
Proof.
  unfold uploads, overwrites, deletes.
  set (folder := sync_folder_path cfg).
  induction current as [|[k info] rest IH]; intros [Hwf Hall]; cbn zeta.
  - simpl. auto.
  - apply wf_tail in Hwf. destruct Hwf as [Hk Hwf].
    inversion Hall as [|? ? (Hname & Hpath & Hhash) Hall']; subst.
    cbn [fst snd] in Hpath. fold folder in Hpath.
    destruct (IH (conj Hwf Hall')) as (IH1 & IH2 & IH3). cbn zeta in *.
    cbn [flat_map]. rewrite !count_occ_app, IH1, IH2, IH3.
    cbn [dict_get]. unfold calls_for_item. cbn [fst snd]. rewrite Hpath.
    destruct (String.eqb file_name k) eqn:E.
    + apply String.eqb_eq in E. subst k. rewrite Hk.
      destruct (dict_get file_name cache) as [c|].
      * destruct (String.eqb (hash c) (hash info)); cbn [negb];
          rewrite ?count_one;
          repeat match goal with
                 | |- context [Call_eq_dec ?a ?b] =>
                     destruct (Call_eq_dec a b); try discriminate; try congruence
                 end; simpl; auto.
      * rewrite ?count_one.
        repeat match goal with
               | |- context [Call_eq_dec ?a ?b] =>
                   destruct (Call_eq_dec a b); try discriminate; try congruence
               end; simpl; auto.
    + apply String.eqb_neq in E.
      assert (Hp : joinpath folder k <> joinpath folder file_name)
        by (intros Hp; apply joinpath_inj in Hp; congruence).
      destruct (dict_get k cache) as [c|].
      * destruct (negb (String.eqb (hash c) (hash info)));
          rewrite ?count_one;
          repeat match goal with
                 | |- context [Call_eq_dec ?a ?b] =>
                     destruct (Call_eq_dec a b); try discriminate; try congruence
                 end; simpl; auto.
      * rewrite ?count_one.
        repeat match goal with
               | |- context [Call_eq_dec ?a ?b] =>
                   destruct (Call_eq_dec a b); try discriminate; try congruence
               end; simpl; auto.
Qed.

Lemma count_cached cfg current (ks : list string) file_name :
  let l := flat_map (calls_for_cached current) ks in
  uploads cfg file_name l = 0
  /\ overwrites cfg file_name l = 0
  /\ (dict_contains file_name current = true -> deletes file_name l = 0)
  /\ (~ In file_name ks -> deletes file_name l = 0)
  /\ (NoDup ks -> In file_name ks -> dict_contains file_name current = false ->
      deletes file_name l = 1).
Proof.
  unfold uploads, overwrites, deletes. cbn zeta.
  induction ks as [|k ks IH].
  - simpl. repeat split; auto. intros _ [].
  - destruct IH as (IH1 & IH2 & IH3 & IH4 & IH5).
    cbn [flat_map]. rewrite !count_occ_app, IH1, IH2.
    set (l := flat_map (calls_for_cached current) ks) in *.
    unfold calls_for_cached.
    destruct (dict_contains k current) eqn:Ek; cbn [negb].
    + repeat split; auto.
      * intros Hni. apply IH4. intros Hin. apply Hni. now right.
      * intros Hnd [->|Hin] Hc; [congruence|].
        inversion Hnd; subst. now apply IH5.
    + rewrite !count_one.
      split; [now destruct (Call_eq_dec _ _)|].
      split; [now destruct (Call_eq_dec _ _)|].
      split; [|split].
      * intros Hc. rewrite (IH3 Hc).
        destruct (Call_eq_dec _ _) as [[= ->]|]; [congruence | reflexivity].
      * intros Hni. rewrite IH4 by (intros Hin; apply Hni; now right).
        destruct (Call_eq_dec _ _) as [[= ->]|]; [|reflexivity].
        exfalso. apply Hni. now left.
      * intros Hnd Hin Hc. inversion Hnd as [|? ? Hk Hnd']; subst.
        destruct (Call_eq_dec _ _) as [[= ->]|Hne].
        -- now rewrite IH4.
        -- destruct Hin as [->|Hin]; [congruence|]. now rewrite IH5.
Qed.

(** The calls of a comparison, counted for one file name. *)
Lemma count_planned cfg cache current file_name :
  dict_wf cache -> snapshot_ok cfg current ->
  let l := CGetInfo :: planned_calls cache current in
  (uploads cfg file_name l, overwrites cfg file_name l, deletes file_name l)
  = match dict_get file_name current, dict_get file_name cache with
    | Some _, None => (1, 0, 0)
    | Some local_info, Some cached_info =>
        if String.eqb (hash cached_info) (hash local_info)
        then (0, 0, 0) else (0, 1, 0)
    | None, Some _ => (0, 0, 1)
    | None, None => (0, 0, 0)
    end.
Proof.
  intros Hwf Hok. cbn zeta.
  destruct (count_items cache file_name Hok) as (I1 & I2 & I3).
  destruct (count_cached cfg current (dict_keys cache) file_name)
    as (C1 & C2 & C3 & C4 & C5).
  cbn zeta in *.
  unfold uploads, overwrites, deletes in *. unfold planned_calls.
  rewrite !count_occ_cons_neq by discriminate.
  rewrite !count_occ_app, I1, I2, I3, C1, C2. cbn [Nat.add].
  rewrite !Nat.add_0_r.
  destruct (dict_get file_name current) as [i|] eqn:Ecur.
  - rewrite C3 by (unfold dict_contains; now rewrite Ecur).
    destruct (dict_get file_name cache) as [c|]; [|reflexivity].
    now destruct (String.eqb (hash c) (hash i)).
  - destruct (dict_get file_name cache) as [c|] eqn:Ecache.
    + rewrite C5; auto.
      * apply dict_contains_true. unfold dict_contains. now rewrite Ecache.
      * unfold dict_contains. now rewrite Ecur.
    + rewrite C4; [reflexivity|]. now apply dict_get_None.
Qed.

(** ** Views of the two passes *)

(** The snapshot depends on the file system only. *)
Lemma scan_fs cfg st1 st2 :
  fs st1 = fs st2 ->
  fst (FileSyncService.scan_local_folder cfg st1)
  = fst (FileSyncService.scan_local_folder cfg st2).
Proof.
  intros Hfs. destruct (scan_char cfg (fs st1)) as (r & ls & H & _).
  now rewrite (H st1 eq_refl), (H st2 (eq_sym Hfs)).
Qed.

Lemma scanned_fs cfg st1 st2 : fs st1 = fs st2 -> scanned cfg st1 = scanned cfg st2.
Proof. intros H. unfold scanned. now rewrite (scan_fs cfg st1 st2 H). Qed.

Lemma scanned_ok cfg st : snapshot_ok cfg (scanned cfg st).
Proof.
  unfold scanned. destruct (scan_char cfg (fs st)) as (r & ls & H & _ & Hok & _).
  rewrite (H st eq_refl). cbn [fst].
  destruct r; [now apply Hok | apply snapshot_ok_nil].
Qed.

(** A pass of [sync_files] never raises and leaves the environment as it
    is.  When it gets as far as the comparison, it invokes the listing and
    the calls of the comparison and replaces the cache by the snapshot;
    otherwise it logs the exception and keeps the cache. *)
Lemma sync_files_view cfg st :
  let st' := snd (FileSyncService.sync_files cfg st) in
  let current := scanned cfg st in
  fst (FileSyncService.sync_files cfg st) = Ret tt
  /\ if pass_compares cfg st then
       exists rq ls ls',
         Forall is_scan_record ls
         /\ Forall (pass_record current) ls'
         /\ st' = set_cache current
                    (extend rq
                       (CGetInfo :: planned_calls (local_files_cache st) current)
                       (ls ++ ls') st)
     else
       exists rq cs ls e,
         Forall is_scan_record ls
         /\ is_Exception e
         /\ st' = extend rq cs (ls ++ [(ERROR, LogSyncError e)]) st
         /\ ((cs = [] /\ fst (FileSyncService.scan_local_folder cfg st) = Raise e)
             \/ (cs = [CGetInfo] /\ listing_raises cfg st = true)).
Proof.
  cbn zeta. destruct (sync_files_pass cfg st) as (st' & -> & Hpass).
  cbn [fst snd]. split; [reflexivity|].
  unfold pass_compares, listing_raises, scanned.
  destruct Hpass; rewrite Hscan; cbn [fst]; rewrite ?Hinfo.
  - exists [], [], ls, e. repeat split; auto.
    destruct (scan_char cfg (fs st)) as (r & ls0 & H & _ & _ & Hr).
    rewrite (H st eq_refl) in Hscan. injection Hscan as -> _.
    destruct (Hr e eq_refl) as (n & -> & _). apply errno_is_Exception.
  - exists rq, [CGetInfo], ls, e. repeat split; auto.
    destruct (invoke_get_info cfg (extend [] [] ls st)) as (r & rq' & H & He).
    rewrite H in Hinfo. injection Hinfo as -> _. now apply He.
  - exists rq, ls, ls'. repeat split; auto.
Qed.

Lemma perform_initial_sync_view cfg st :
  let st' := snd (FileSyncService.perform_initial_sync cfg st) in
  let local_files := scanned cfg st in
  fst (FileSyncService.perform_initial_sync cfg st) = Ret tt
  /\ if initial_compares cfg st then
       exists rq ls ls',
         Forall is_scan_record ls
         /\ Forall (pass_record local_files) ls'
         /\ st' = set_cache local_files
                    (extend rq
                       (CGetInfo :: flat_map initial_call local_files)
                       ((INFO, LogInitialBegin)
                          :: ls ++ ls' ++ [(INFO, LogInitialDone)]) st)
     else
       exists rq ls e,
         Forall is_scan_record ls
         /\ st' = extend rq [CGetInfo]
                    ((INFO, LogInitialBegin)
                       :: ls ++ [(ERROR, LogInitialError e)]) st.
Proof.
  cbn zeta. destruct (perform_initial_sync_pass cfg st) as (st' & -> & Hpass).
  cbn [fst snd]. split; [reflexivity|].
  unfold initial_compares, scanned. rewrite add_log_extend.
  destruct Hpass; rewrite ?Hinfo.
  - exists rq, [], e. split; [constructor | exact Hst].
  - destruct (invoke_get_info cfg (extend [] [] [(INFO, LogInitialBegin)] st))
      as (r & rq' & H & He).
    rewrite H.
    assert (Hs : forall s1, fs s1 = fs st ->
                 fst (FileSyncService.scan_local_folder cfg s1) = Raise e)
      by (intros s1 H1; rewrite (scan_fs cfg s1 st H1); now rewrite Hscan).
    destruct r as [cf|e'].
    + set (s0 := extend rq' [CGetInfo] []
                   (extend [] [] [(INFO, LogInitialBegin)] st)).
      specialize (Hs s0 eq_refl).
      destruct (FileSyncService.scan_local_folder cfg s0) as [r1 s1].
      cbn [fst] in Hs. subst r1. exists rq, ls, e. auto.
    + exists rq, ls, e. auto.
  - set (s0 := extend rq0 [CGetInfo] [(INFO, LogInitialBegin)] st).
    assert (Hs : fst (FileSyncService.scan_local_folder cfg s0)
                 = Ret local_files)
      by (rewrite (scan_fs cfg s0 st eq_refl); now rewrite Hscan).
    destruct (FileSyncService.scan_local_folder cfg s0) as [r1 s1].
    cbn [fst] in Hs. subst r1. rewrite Hscan. cbn [fst].
    exists rq, ls, ls'. auto.
Qed.

(** The cache after a pass: the snapshot when the pass compares, what it
    was otherwise. *)
Lemma sync_files_cache cfg st :
  if pass_compares cfg st
  then local_files_cache (snd (FileSyncService.sync_files cfg st))
       = scanned cfg st
  else local_files_cache (snd (FileSyncService.sync_files cfg st))
       = local_files_cache st.
Proof.
  destruct (sync_files_view cfg st) as [_ Hs]. cbn zeta in Hs.
  destruct (pass_compares cfg st).
  - destruct Hs as (rq & ls & ls' & _ & _ & ->). reflexivity.
  - destruct Hs as (rq & cs & ls & e & _ & _ & -> & _). reflexivity.
Qed.

Lemma perform_initial_sync_cache cfg st :
  if initial_compares cfg st
  then local_files_cache (snd (FileSyncService.perform_initial_sync cfg st))
       = scanned cfg st
  else local_files_cache (snd (FileSyncService.perform_initial_sync cfg st))
       = local_files_cache st.
Proof.
  destruct (perform_initial_sync_view cfg st) as [_ Hi]. cbn zeta in Hi.
  destruct (initial_compares cfg st).
  - destruct Hi as (rq & ls & ls' & _ & _ & ->). reflexivity.
  - destruct Hi as (rq & ls & e & _ & ->). reflexivity.
Qed.

Lemma flat_map_nil {X Y} (f : X -> list Y) (xs : list X) :
  (forall x, In x xs -> f x = []) -> flat_map f xs = [].
Proof.
  induction xs as [|x xs IH]; intros H; simpl; [reflexivity|].
  rewrite (H x) by now left. apply IH. intros y Hy. apply H. now right.
Qed.

(** Comparing a snapshot with itself plans nothing. *)
Lemma planned_same d : dict_wf d -> planned_calls d d = [].
Proof.
  intros Hwf. unfold planned_calls.
  rewrite !flat_map_nil; [reflexivity| |].
  - intros k Hk. unfold calls_for_cached.
    apply dict_contains_true in Hk. now rewrite Hk.
  - intros [k info] Hin. unfold calls_for_item. cbn [fst snd].
    rewrite (In_dict_get _ _ Hwf Hin). now rewrite String.eqb_refl.
Qed.

(** ** Deleting what is already gone *)

Lemma delete_404 cfg filename st r :
  net st (length (requests st)) = Replied r ->
  status_code r = 404 ->
  fst (YandexDiskStorage.delete cfg filename st) = Ret true.
Proof.
  intros Hnet Hsc. unfold YandexDiskStorage.delete, try_except.
  erewrite bind_Raise
    by (rewrite make_request_eq, Hnet; unfold request_outcome;
        rewrite Hsc; reflexivity).
  reflexivity.
Qed.

(** ** The cache keeps its invariant *)

Lemma sync_files_cache_wf cfg st :
  dict_wf (local_files_cache st) ->
  dict_wf (local_files_cache (snd (FileSyncService.sync_files cfg st))).
Proof.
  intros Hwf. pose proof (sync_files_cache cfg st) as H.
  destruct (pass_compares cfg st); rewrite H;
    [apply (scanned_ok cfg st) | exact Hwf].
Qed.

Lemma perform_initial_sync_cache_wf cfg st :
  dict_wf (local_files_cache st) ->
  dict_wf (local_files_cache (snd (FileSyncService.perform_initial_sync cfg st))).
Proof.
  intros Hwf. pose proof (perform_initial_sync_cache cfg st) as H.
  destruct (initial_compares cfg st); rewrite H;
    [apply (scanned_ok cfg st) | exact Hwf].
Qed.

(** ** The run loop *)

Lemma sync_files_returns cfg st :
  exists st', FileSyncService.sync_files cfg st = (Ret tt, st').
Proof. destruct (sync_files_pass cfg st) as (st' & H & _). eauto. Qed.

Lemma perform_initial_sync_returns cfg st :
  exists st', FileSyncService.perform_initial_sync cfg st = (Ret tt, st').
Proof. destruct (perform_initial_sync_pass cfg st) as (st' & H & _). eauto. Qed.

Lemma time_sleep_quiet t st :
  quiet t ->
  FileSyncService.time_sleep t st
  = (Ret tt, set_net (tick_net t) (set_fs (tick_fs t) st)).
Proof.
  unfold quiet, FileSyncService.time_sleep, bind, modify. now intros ->.
Qed.

Lemma time_sleep_raises t st e :
  tick_raises t = Some e ->
  FileSyncService.time_sleep t st
  = (Raise e, set_net (tick_net t) (set_fs (tick_fs t) st)).
Proof.
  unfold FileSyncService.time_sleep, bind, modify. now intros ->.
Qed.


(** ** Failures of single files *)

Lemma In_keys_get {V} k (d : Dict V) :
  In k (dict_keys d) -> exists v, dict_get k d = Some v.
Proof.
  intros H. destruct (dict_get k d) as [v|] eqn:E; [eauto|].
  apply dict_get_None in E. contradiction.
Qed.

(** A record about an upload is written by a pass only when it compares,
    and only about a file of the snapshot. *)
Lemma upload_record_sync cfg st r file_name :
  In r (logged st (snd (FileSyncService.sync_files cfg st))) ->
  upload_record file_name r ->
  pass_compares cfg st = true /\ In file_name (dict_keys (scanned cfg st)).
Proof.
  intros Hin Hr. destruct (sync_files_view cfg st) as [_ Hv]. cbn zeta in Hv.
  destruct r as [lv ev]. unfold upload_record in Hr. cbn [snd] in Hr.
  destruct (pass_compares cfg st).
  - split; [reflexivity|].
    destruct Hv as (rq & ls & ls' & Hls & Hls' & Hst).
    rewrite Hst, logged_set_cache in Hin. apply in_app_or in Hin.
    rewrite Forall_forall in Hls, Hls'.
    destruct Hin as [Hin|Hin].
    + specialize (Hls _ Hin). unfold is_scan_record in Hls. cbn [snd] in Hls.
      destruct ev; contradiction.
    + specialize (Hls' _ Hin). unfold pass_record in Hls'. cbn [snd] in Hls'.
      destruct ev; try contradiction; now subst.
  - exfalso. destruct Hv as (rq & cs & ls & e & Hls & _ & Hst & _).
    rewrite Hst, logged_extend in Hin. apply in_app_or in Hin.
    rewrite Forall_forall in Hls.
    destruct Hin as [Hin|[[= <- <-]|[]]]; [|contradiction].
    specialize (Hls _ Hin). unfold is_scan_record in Hls. cbn [snd] in Hls.
    destruct ev; contradiction.
Qed.

Lemma upload_record_initial cfg st r file_name :
  In r (logged st (snd (FileSyncService.perform_initial_sync cfg st))) ->
  upload_record file_name r ->
  initial_compares cfg st = true /\ In file_name (dict_keys (scanned cfg st)).
Proof.
  intros Hin Hr.
  destruct (perform_initial_sync_view cfg st) as [_ Hv]. cbn zeta in Hv.
  destruct r as [lv ev]. unfold upload_record in Hr. cbn [snd] in Hr.
  destruct (initial_compares cfg st).
  - split; [reflexivity|].
    destruct Hv as (rq & ls & ls' & Hls & Hls' & Hst).
    rewrite Hst, logged_set_cache in Hin.
    rewrite Forall_forall in Hls, Hls'.
    destruct Hin as [[= <- <-]|Hin]; [contradiction|].
    apply in_app_or in Hin. destruct Hin as [Hin|Hin].
    + specialize (Hls _ Hin). unfold is_scan_record in Hls. cbn [snd] in Hls.
      destruct ev; contradiction.
    + apply in_app_or in Hin. destruct Hin as [Hin|[[= <- <-]|[]]];
        [|contradiction].
      specialize (Hls' _ Hin). unfold pass_record in Hls'. cbn [snd] in Hls'.
      destruct ev; try contradiction; now subst.
  - exfalso. destruct Hv as (rq & ls & e & Hls & Hst).
    rewrite Hst, logged_extend in Hin.
    rewrite Forall_forall in Hls.
    destruct Hin as [[= <- <-]|Hin]; [contradiction|].
    apply in_app_or in Hin.
    destruct Hin as [Hin|[[= <- <-]|[]]]; [|contradiction].
    specialize (Hls _ Hin). unfold is_scan_record in Hls. cbn [snd] in Hls.
    destruct ev; contradiction.
Qed.

(** A file that is in the cache and in the scan with the same hash gets
    no call in a steady-state pass. *)
Lemma unchanged_file_untouched cfg st file_name cached_info local_info :
  dict_get file_name (local_files_cache st) = Some cached_info ->
  dict_get file_name (scanned cfg st) = Some local_info ->
  hash local_info = hash cached_info ->
  let acts := issued st (snd (FileSyncService.sync_files cfg st)) in
  uploads cfg file_name acts = 0
  /\ overwrites cfg file_name acts = 0
  /\ deletes file_name acts = 0.
Proof.
  intros Hcache Hcur Hhash. cbn zeta.
  destruct (sync_files_view cfg st) as [_ Hv]. cbn zeta in Hv.
  destruct (pass_compares cfg st).
  - destruct Hv as (rq & ls & ls' & _ & _ & ->). rewrite issued_set_cache.
    destruct (@count_items cfg (local_files_cache st) (scanned cfg st) file_name
                (scanned_ok cfg st)) as (I1 & I2 & I3).
    destruct (count_cached cfg (scanned cfg st)
                (dict_keys (local_files_cache st)) file_name)
      as (C1 & C2 & C3 & _).
    cbn zeta in *. unfold uploads, overwrites, deletes in *.
    unfold planned_calls.
    rewrite !count_occ_cons_neq by discriminate.
    rewrite !count_occ_app, I1, I2, I3, C1, C2.
    rewrite C3 by (unfold dict_contains; now rewrite Hcur).
    rewrite Hcur, Hcache, Hhash, String.eqb_refl. auto.
  - destruct Hv as (rq & cs & ls & e & _ & _ & -> & [[-> _]|[-> _]]);
      rewrite issued_extend; repeat split.
Qed.

(** ** Refused uploads *)

Unset Implicit Arguments.

Lemma bind_request {B} meth u ps (k : Response -> M State B) st :
  bind (YandexDiskStorage._make_request meth u ps) k st
  = match request_outcome (net st (length (requests st))) with
    | Ret r => k r (extend [mkRequest meth u ps] [] [] st)
    | Raise e => (Raise e, extend [mkRequest meth u ps] [] [] st)
    end.
Proof.
  unfold bind. rewrite make_request_eq. now destruct (request_outcome _).
Qed.

Lemma load_refused cfg p st :
  refused (net st (length (requests st))) ->
  exists e, fst (YandexDiskStorage.load cfg p st) = Raise e.
Proof.
  intros [e He]. unfold YandexDiskStorage.load, try_except.
  rewrite bind_request, He.
  pose proof (request_outcome_Exception _ He) as Hex.
  unfold is_Exception in Hex.
  unfold orelse, except1. destruct (isinstance e OSError);
    [|rewrite Hex]; eexists; reflexivity.
Qed.

Lemma get_info_sends_request cfg st :
  (length (requests st)
   < length (requests (snd (YandexDiskStorage.get_info cfg st))))%nat.
Proof.
  unfold YandexDiskStorage.get_info, try_except. rewrite bind_request.
  set (s1 := extend [_] [] [] st).
  assert (H1 : (length (requests st) < length (requests s1))%nat)
    by (unfold s1; cbn [requests extend]; rewrite length_app; cbn; lia).
  destruct (request_outcome _) as [r|e].
  - assert (Hc : client (body <- YandexDiskStorage.response_json r ;;
                         YandexDiskStorage.collect_files (S := State)
                           (items body) []))
      by (apply client_bind;
          [apply client_response_json | intros; apply client_collect_files]).
    match goal with
    | |- context [match ?m s1 with _ => _ end] =>
        destruct (m s1) as [[d|e] s2] eqn:E
    end.
    + destruct (Hc _ _ _ E) as [[rq ->] _].
      cbn [snd requests extend]. rewrite length_app. lia.
    + destruct (Hc _ _ _ E) as [[rq ->] _].
      unfold except1. destruct (isinstance e PyException);
        cbn [snd raise requests extend]; rewrite length_app; lia.
  - unfold except1. destruct (isinstance e PyException);
      cbn [snd raise]; exact H1.
Qed.

Lemma for_each_extends {X} (body : X -> M State unit) :
  (forall x s, exists rq cs ls, body x s = (Ret tt, extend rq cs ls s)) ->
  forall xs s, exists rq cs ls,
    for_each xs body s = (Ret tt, extend rq cs ls s).
Proof.
  intros Hb. induction xs as [|x xs IH]; intros s.
  - exists [], [], []. now rewrite extend_nil.
  - destruct (Hb x s) as (rq1 & cs1 & ls1 & H1).
    destruct (IH (extend rq1 cs1 ls1 s)) as (rq2 & cs2 & ls2 & H2).
    exists (rq1 ++ rq2)%list, (cs1 ++ cs2)%list, (ls1 ++ ls2)%list.
    cbn [for_each]. unfold bind. rewrite H1, H2. now rewrite extend_extend.
Qed.

(** A loop one of whose turns writes a record, in every state the loop can
    be in, writes that record. *)
Lemma for_each_record {X} (body : X -> M State unit) (Q : State -> Prop)
      (R : LogRecord -> Prop) (x0 : X) :
  (forall x s, exists rq cs ls, body x s = (Ret tt, extend rq cs ls s)) ->
  (forall rq cs ls s, Q s -> Q (extend rq cs ls s)) ->
  (forall s, Q s ->
     exists rq cs ls, body x0 s = (Ret tt, extend rq cs ls s) /\ Exists R ls) ->
  forall xs s, In x0 xs -> Q s ->
    exists rq cs ls,
      for_each xs body s = (Ret tt, extend rq cs ls s) /\ Exists R ls.
Proof.
  intros Hb Hq H0. induction xs as [|x xs IH]; intros s Hin Hs; [destruct Hin|].
  cbn [for_each]. unfold bind. destruct Hin as [->|Hin].
  - destruct (H0 s Hs) as (rq1 & cs1 & ls1 & H1 & HR).
    destruct (for_each_extends body Hb xs (extend rq1 cs1 ls1 s))
      as (rq2 & cs2 & ls2 & H2).
    exists (rq1 ++ rq2)%list, (cs1 ++ cs2)%list, (ls1 ++ ls2)%list.
    rewrite H1, H2, extend_extend. split; [reflexivity|].
    apply Exists_app. now left.
  - destruct (Hb x s) as (rq1 & cs1 & ls1 & H1).
    destruct (IH (extend rq1 cs1 ls1 s) Hin (Hq rq1 cs1 ls1 s Hs))
      as (rq2 & cs2 & ls2 & H2 & HR).
    exists (rq1 ++ rq2)%list, (cs1 ++ cs2)%list, (ls1 ++ ls2)%list.
    rewrite H1, H2, extend_extend. split; [reflexivity|].
    apply Exists_app. now right.
Qed.

Lemma after_listing_extend st rq cs ls s :
  after_listing st s -> after_listing st (extend rq cs ls s).
Proof.
  intros (H1 & H2 & H3). repeat split; cbn [extend net requests local_files_cache];
    auto. rewrite length_app. lia.
Qed.

Lemma refused_block (c : Call) cfg p okev errev st s :
  uploads_refused st -> after_listing st s ->
  exists rq e,
    try_except (_ <- FileSyncService.invoke c (YandexDiskStorage.load cfg p) ;;
                logger_info okev)
               (except1 PyException (fun e => logger_error (errev e))) s
    = (Ret tt, extend rq [c] [(ERROR, errev e)] s).
Proof.
  intros Hr (Hn & Hl & _).
  destruct (@action_block _ c (YandexDiskStorage.load cfg p) okev errev s
              (client_load cfg p))
    as (rq & rec & H & Hrec).
  destruct (load_refused cfg p (add_call c s)) as [e He].
  { cbn [add_call net requests]. rewrite Hn. now apply Hr. }
  rewrite He in Hrec. subst rec. now exists rq, e.
Qed.

Lemma sync_item_failure cfg st file_name local_info s :
  uploads_refused st -> after_listing st s ->
  calls_for_item (local_files_cache st) (file_name, local_info) <> [] ->
  exists rq cs ls,
    FileSyncService.sync_item cfg (file_name, local_info) s
    = (Ret tt, extend rq cs ls s)
    /\ Exists (failure_record file_name) ls.
Proof.
  intros Hr Hs Hplan. pose proof Hs as (_ & _ & Hcache).
  unfold FileSyncService.sync_item. rewrite bind_gets, Hcache.
  unfold calls_for_item in Hplan. cbn [fst snd] in Hplan.
  destruct (dict_get file_name (local_files_cache st)) as [cached_info|].
  - destruct (negb (String.eqb (hash cached_info) (hash local_info)));
      [|now contradiction Hplan].
    destruct (@refused_block (CReload (path local_info)) cfg (path local_info)
                (LogUpdated file_name) (LogUpdateError file_name) st s Hr Hs)
      as (rq & e & H).
    exists rq, [CReload (path local_info)], [(ERROR, LogUpdateError file_name e)].
    split; [exact H|]. constructor. exists e. auto.
  - destruct (@refused_block (CLoad (path local_info)) cfg (path local_info)
                (LogNewUploaded file_name) (LogNewUploadError file_name) st s
                Hr Hs) as (rq & e & H).
    exists rq, [CLoad (path local_info)],
      [(ERROR, LogNewUploadError file_name e)].
    split; [exact H|]. constructor. exists e. auto.
Qed.

Lemma initial_item_failure cfg st file_name file_info s :
  uploads_refused st -> after_listing st s ->
  exists rq cs ls,
    FileSyncService.initial_item cfg (file_name, file_info) s
    = (Ret tt, extend rq cs ls s)
    /\ Exists (failure_record file_name) ls.
Proof.
  intros Hr Hs.
  destruct (@refused_block (CLoad (path file_info)) cfg (path file_info)
              (LogUploaded file_name) (LogUploadError file_name) st s Hr Hs)
    as (rq & e & H).
  exists rq, [CLoad (path file_info)], [(ERROR, LogUploadError file_name e)].
  split; [exact H|]. constructor. exists e. auto.
Qed.

Lemma sync_item_extends cfg it s :
  exists rq cs ls, FileSyncService.sync_item cfg it s = (Ret tt, extend rq cs ls s).
Proof. destruct (sync_item_char cfg it s) as (rq & ls & H & _). eauto. Qed.

Lemma sync_cached_extends cfg current k s :
  exists rq cs ls,
    FileSyncService.sync_cached cfg current k s = (Ret tt, extend rq cs ls s).
Proof. destruct (sync_cached_char cfg current k s) as (rq & ls & H & _). eauto. Qed.

Lemma initial_item_extends cfg it s :
  exists rq cs ls,
    FileSyncService.initial_item cfg it s = (Ret tt, extend rq cs ls s).
Proof. destruct (initial_item_char cfg it s) as (rq & ls & H & _). eauto. Qed.

Lemma listing_then_after cfg st s0 r s1 :
  net s0 = net st -> requests s0 = requests st ->
  local_files_cache s0 = local_files_cache st ->
  FileSyncService.invoke CGetInfo (YandexDiskStorage.get_info cfg) s0 = (r, s1) ->
  after_listing st s1.
Proof.
  intros Hn Hr Hc H.
  pose proof (get_info_sends_request cfg (add_call CGetInfo s0)) as Hlen.
  rewrite invoke_eq in H. rewrite H in Hlen. cbn [snd add_call requests] in Hlen.
  destruct (client_get_info cfg _ H) as [[rq ->] _].
  repeat split; cbn [extend add_call net requests local_files_cache] in *; auto.
  now rewrite <- Hr.
Qed.

(** When the uploads are refused, a steady-state pass that gets as far as
    the comparison logs the failure for every file it plans a call for,
    and an initial pass that gets as far as the uploads logs it for every
    file of the scan. *)
Lemma sync_files_failure_logged cfg st file_name local_info :
  uploads_refused st ->
  pass_compares cfg st = true ->
  dict_get file_name (scanned cfg st) = Some local_info ->
  calls_for_item (local_files_cache st) (file_name, local_info) <> [] ->
  Exists (failure_record file_name)
         (logged st (snd (FileSyncService.sync_files cfg st))).
Proof.
  intros Hr Hc Hget Hplan.
  destruct (scan_char cfg (fs st)) as (r & ls & Hscan & _).
  specialize (Hscan st eq_refl).
  unfold pass_compares, scanned in *. rewrite Hscan in *. cbn [fst] in Hget.
  destruct r as [current|e]; [|discriminate Hc].
  destruct (FileSyncService.invoke CGetInfo (YandexDiskStorage.get_info cfg)
              (extend [] [] ls st)) as [[cf|e] s2] eqn:Hinfo;
    [|discriminate Hc].
  pose proof (@listing_then_after cfg st (extend [] [] ls st) _ _ eq_refl
                (app_nil_r (requests st)) eq_refl Hinfo) as Hs2.
  destruct (invoke_get_info cfg (extend [] [] ls st)) as (ri & rq0 & Hi & _).
  rewrite Hinfo in Hi. injection Hi as _ Hs2eq.
  destruct (for_each_record (FileSyncService.sync_item cfg)
              (after_listing st) (failure_record file_name)
              (file_name, local_info)
              (sync_item_extends cfg)
              (@after_listing_extend st)
              (fun s Hs => @sync_item_failure cfg st file_name local_info s
                             Hr Hs Hplan)
              (dict_items current) s2 (@dict_get_In _ _ _ _ Hget) Hs2)
    as (rq1 & cs1 & ls1 & Hloop1 & HR).
  set (s3 := extend rq1 cs1 ls1 s2) in *.
  destruct (for_each_extends (FileSyncService.sync_cached cfg current)
              (sync_cached_extends cfg current)
              (dict_keys (local_files_cache s3)) s3)
    as (rq2 & cs2 & ls2 & Hloop2).
  assert (Hrun : FileSyncService.sync_files cfg st
                 = (Ret tt, set_cache current (extend rq2 cs2 ls2 s3))).
  { unfold FileSyncService.sync_files. apply try_Ret.
    rewrite (bind_Ret _ _ _ Hscan), (bind_Ret _ _ _ Hinfo).
    rewrite (bind_Ret _ _ _ Hloop1), bind_gets.
    rewrite (bind_Ret _ _ _ Hloop2). reflexivity. }
  rewrite Hrun. cbn [snd]. unfold s3. rewrite Hs2eq.
  rewrite !extend_extend, logged_set_cache.
  apply Exists_app. right. apply Exists_app. right.
  apply Exists_app. now left.
Qed.

Lemma initial_failure_logged cfg st file_name local_info :
  uploads_refused st ->
  initial_compares cfg st = true ->
  dict_get file_name (scanned cfg st) = Some local_info ->
  Exists (failure_record file_name)
         (logged st (snd (FileSyncService.perform_initial_sync cfg st))).
Proof.
  intros Hr Hc Hget.
  set (s0 := extend [] [] [(INFO, LogInitialBegin)] st).
  assert (Hbegin : logger_info LogInitialBegin st = (Ret tt, s0))
    by (unfold logger_info, modify, s0; now rewrite add_log_extend).
  unfold initial_compares in Hc. rewrite add_log_extend in Hc. fold s0 in Hc.
  destruct (FileSyncService.invoke CGetInfo (YandexDiskStorage.get_info cfg) s0)
    as [[cf|e] s1] eqn:Hinfo; [|discriminate Hc].
  pose proof (@listing_then_after cfg st s0 _ _ eq_refl
                (app_nil_r (requests st)) eq_refl Hinfo) as Hs1.
  destruct (invoke_get_info cfg s0) as (ri & rq0 & Hi & _).
  rewrite Hinfo in Hi. injection Hi as _ Hs1eq.
  destruct (scan_char cfg (fs s1)) as (r & ls & Hscan & _).
  specialize (Hscan s1 eq_refl). rewrite Hscan in Hc.
  destruct r as [local_files|e]; [|discriminate Hc].
  assert (Hsame : scanned cfg st = local_files).
  { unfold scanned. rewrite (scan_fs cfg st s1), Hscan; [reflexivity|].
    rewrite Hs1eq. reflexivity. }
  rewrite Hsame in Hget.
  set (s2 := extend [] [] ls s1) in *.
  destruct (for_each_record (FileSyncService.initial_item cfg)
              (after_listing st) (failure_record file_name)
              (file_name, local_info)
              (initial_item_extends cfg)
              (@after_listing_extend st)
              (fun s Hs => @initial_item_failure cfg st file_name local_info s
                             Hr Hs)
              (dict_items local_files) s2 (@dict_get_In _ _ _ _ Hget)
              (after_listing_extend st _ _ _ s1 Hs1))
    as (rq1 & cs1 & ls1 & Hloop & HR).
  assert (Hrun : FileSyncService.perform_initial_sync cfg st
                 = (Ret tt,
                    add_log (INFO, LogInitialDone)
                      (set_cache local_files (extend rq1 cs1 ls1 s2)))).
  { unfold FileSyncService.perform_initial_sync.
    rewrite (bind_Ret _ _ _ Hbegin). apply try_Ret.
    rewrite (bind_Ret _ _ _ Hinfo), (bind_Ret _ _ _ Hscan).
    rewrite (bind_Ret _ _ _ Hloop). reflexivity. }
  rewrite Hrun. cbn [snd]. unfold s2. rewrite Hs1eq. unfold s0.
  rewrite !extend_extend.
  unfold logged. cbn [log add_log set_cache extend].
  rewrite <- app_assoc, skipn_length_app.
  rewrite !Exists_app. tauto.
Qed.

(** ** What a pass does with the exception that cuts it short *)




Lemma failure_record_failed file_name l :
  Exists (failure_record file_name) l -> upload_failed file_name l.
Proof.
  intros H. apply Exists_exists in H. destruct H as (r & Hin & e & Hr).
  exists e. destruct Hr as [-> | [-> | ->]]; auto.
Qed.

Set Implicit Arguments.

(* ================================================================== *)
(** * The properties of the specification *)

Lemma cache1_wf : dict_wf cache1.
Proof.
  unfold dict_wf. simpl.
  repeat (constructor; [simpl; intuition discriminate|]). constructor.
Defined.

(** C1, as stated, fails: a file that is in the scan and not in the cache
    is not uploaded in a cycle whose listing call raises (here the remote
    answers 500), although the claim promises exactly one upload. *)
Lemma sync_files_new_file_not_uploaded :
  ~ (forall cfg st file_name local_info,
       dict_wf (local_files_cache st) ->
       dict_get file_name (scanned cfg st) = Some local_info ->
       dict_get file_name (local_files_cache st) = None ->
       uploads cfg file_name
               (issued st (snd (FileSyncService.sync_files cfg st))) = 1).
Proof.
  intros H.
  specialize (H cfg0 (state0 (fs_of [("a.txt", "h1")]) net_down []) "a.txt"
                (snd (file_info "a.txt" "h1")) (NoDup_nil _) eq_refl eq_refl).
  vm_compute in H. discriminate.
Qed.

(** C1 (amended): in a steady-state cycle that gets as far as the
    comparison (the scanner returns and the listing call returns), the
    calls issued for a file name are determined by the scan and the cache:
    one upload and nothing else for a name in the scan and not in the
    cache; one overwrite and nothing else for a name in both with different
    hashes; nothing for a name in both with the same hash, whatever the
    sizes and times; one delete and nothing else for a name in the cache
    and not in the scan; nothing for any other name. *)
Theorem sync_files_classification cfg st file_name :
  dict_wf (local_files_cache st) ->
  pass_compares cfg st = true ->
  let acts := issued st (snd (FileSyncService.sync_files cfg st)) in
  (uploads cfg file_name acts, overwrites cfg file_name acts,
   deletes file_name acts)
  = match dict_get file_name (scanned cfg st),
          dict_get file_name (local_files_cache st) with
    | Some _, None => (1, 0, 0)
    | Some local_info, Some cached_info =>
        if String.eqb (hash cached_info) (hash local_info)
        then (0, 0, 0) else (0, 1, 0)
    | None, Some _ => (0, 0, 1)
    | None, None => (0, 0, 0)
    end.
Proof.
  intros Hwf Hc. cbn zeta.
  destruct (sync_files_view cfg st) as [_ Hv]. rewrite Hc in Hv.
  destruct Hv as (rq & ls & ls' & _ & _ & ->).
  rewrite issued_set_cache.
  apply count_planned; [exact Hwf | apply scanned_ok].
Qed.

Lemma sync_files_classification_witness :
  dict_wf (local_files_cache (state0 fs1 net_ok cache1))
  /\ pass_compares cfg0 (state0 fs1 net_ok cache1) = true
  /\ issued (state0 fs1 net_ok cache1)
            (snd (FileSyncService.sync_files cfg0 (state0 fs1 net_ok cache1)))
     = [CGetInfo; CLoad "/data/a.txt"; CReload "/data/c.txt"; CDelete "d.txt"]
  /\ (uploads cfg0 "a.txt" [CGetInfo; CLoad "/data/a.txt";
                            CReload "/data/c.txt"; CDelete "d.txt"],
      overwrites cfg0 "a.txt" [CGetInfo; CLoad "/data/a.txt";
                               CReload "/data/c.txt"; CDelete "d.txt"],
      deletes "a.txt" [CGetInfo; CLoad "/data/a.txt";
                       CReload "/data/c.txt"; CDelete "d.txt"])
     = (1, 0, 0).
Proof.
  split; [exact cache1_wf|]. split; [reflexivity|]. split; [reflexivity|].
  exact (sync_files_classification cfg0 (state0 fs1 net_ok cache1) "a.txt"
           cache1_wf eq_refl).
Defined.

(** C2: after a pass that gets as far as the comparison, initial or
    steady-state, the cache is the snapshot just scanned, whatever the
    remote answers to the uploads, overwrites and deletes; after any pass
    the cache is either what it was or that snapshot, never a mixture; and
    after construction it is empty. *)
Theorem cache_is_last_snapshot cfg st :
  (pass_compares cfg st = true ->
   local_files_cache (snd (FileSyncService.sync_files cfg st))
   = scanned cfg st)
  /\ (initial_compares cfg st = true ->
      local_files_cache (snd (FileSyncService.perform_initial_sync cfg st))
      = scanned cfg st)
  /\ (local_files_cache (snd (FileSyncService.sync_files cfg st))
      = local_files_cache st
      \/ local_files_cache (snd (FileSyncService.sync_files cfg st))
         = scanned cfg st)
  /\ (local_files_cache (snd (FileSyncService.perform_initial_sync cfg st))
      = local_files_cache st
      \/ local_files_cache (snd (FileSyncService.perform_initial_sync cfg st))
         = scanned cfg st)
  /\ (forall st', FileSyncService.__init__ cfg st = (Ret tt, st') ->
      local_files_cache st' = []).
Proof.
  pose proof (sync_files_cache cfg st) as S1.
  pose proof (perform_initial_sync_cache cfg st) as I1.
  repeat split.
  - intros H. now rewrite H in S1.
  - intros H. now rewrite H in I1.
  - destruct (pass_compares cfg st); auto.
  - destruct (initial_compares cfg st); auto.
  - intros st'. unfold FileSyncService.__init__, bind.
    destruct (YandexDiskStorage.__init__ cfg st) as [[[]|e] s1].
    + unfold modify, logger_info, modify. intros [= <-]. reflexivity.
    + discriminate.
Qed.

Lemma cache_is_last_snapshot_witness :
  (pass_compares cfg0 (state0 fs1 (net_failing_at 1) cache1) = true
   /\ local_files_cache
        (snd (FileSyncService.sync_files cfg0
                (state0 fs1 (net_failing_at 1) cache1)))
      = [file_info "a.txt" "h1"; file_info "b.txt" "h2"; file_info "c.txt" "h3"])
  /\ (initial_compares cfg0 (state0 fs1 (net_failing_at 1) []) = true
      /\ local_files_cache
           (snd (FileSyncService.perform_initial_sync cfg0
                   (state0 fs1 (net_failing_at 1) [])))
         = [file_info "a.txt" "h1"; file_info "b.txt" "h2";
            file_info "c.txt" "h3"])
  /\ (FileSyncService.__init__ cfg0 (state0 fs1 net_ok cache1)
      = (Ret tt, snd (FileSyncService.__init__ cfg0 (state0 fs1 net_ok cache1)))
      /\ local_files_cache
           (snd (FileSyncService.__init__ cfg0 (state0 fs1 net_ok cache1)))
         = []).
Proof.
  split; [split; [reflexivity|]|split; [split; [reflexivity|]|split; [reflexivity|]]].
  - exact (proj1 (cache_is_last_snapshot cfg0
                    (state0 fs1 (net_failing_at 1) cache1)) eq_refl).
  - exact (proj1 (proj2 (cache_is_last_snapshot cfg0
                           (state0 fs1 (net_failing_at 1) []))) eq_refl).
  - exact (proj2 (proj2 (proj2 (proj2 (cache_is_last_snapshot cfg0
                                         (state0 fs1 net_ok cache1)))))
             _ eq_refl).
Defined.




(** C4: a file whose upload or overwrite failed during a pass, initial or
    steady-state, is in the cache after the pass, with the entry the
    scanner made for it; in a later cycle that starts from this cache and
    finds the file with the same hash, no upload, overwrite or delete is
    issued for it.  And the failure does occur: when the remote refuses
    the uploads, an initial pass that gets as far as the uploads logs the
    failure for every scanned file, and a steady-state pass that gets as
    far as the comparison logs it for every file it finds new or
    changed. *)
Theorem failed_upload_is_cached cfg st file_name :
  (forall st',
     st' = snd (FileSyncService.perform_initial_sync cfg st)
     \/ st' = snd (FileSyncService.sync_files cfg st) ->
     upload_failed file_name (logged st st') ->
     exists local_info,
       dict_get file_name (scanned cfg st) = Some local_info
       /\ dict_get file_name (local_files_cache st') = Some local_info
       /\ forall st2 local_info2,
            local_files_cache st2 = local_files_cache st' ->
            dict_get file_name (scanned cfg st2) = Some local_info2 ->
            hash local_info2 = hash local_info ->
            let acts := issued st2 (snd (FileSyncService.sync_files cfg st2)) in
            uploads cfg file_name acts = 0
            /\ overwrites cfg file_name acts = 0
            /\ deletes file_name acts = 0)
  /\ (forall local_info,
        uploads_refused st ->
        dict_get file_name (scanned cfg st) = Some local_info ->
        (initial_compares cfg st = true ->
         upload_failed file_name
           (logged st (snd (FileSyncService.perform_initial_sync cfg st))))
        /\ (pass_compares cfg st = true ->
            calls_for_item (local_files_cache st) (file_name, local_info)
            <> [] ->
            upload_failed file_name
              (logged st (snd (FileSyncService.sync_files cfg st))))).
Proof.
  split.
  - intros st' Hst' (e & Hfail).
    assert (Hin : In file_name (dict_keys (scanned cfg st))
                  /\ local_files_cache st' = scanned cfg st).
    { pose proof (sync_files_cache cfg st) as Hs.
      pose proof (perform_initial_sync_cache cfg st) as Hi.
      destruct Hst' as [-> | ->].
      - assert (H : initial_compares cfg st = true
                    /\ In file_name (dict_keys (scanned cfg st))).
        { destruct Hfail as [H|[H|H]];
            exact (@upload_record_initial cfg st _ file_name H eq_refl). }
        destruct H as [Hc Hk]. rewrite Hc in Hi. split; [exact Hk | exact Hi].
      - assert (H : pass_compares cfg st = true
                    /\ In file_name (dict_keys (scanned cfg st))).
        { destruct Hfail as [H|[H|H]];
            exact (@upload_record_sync cfg st _ file_name H eq_refl). }
        destruct H as [Hc Hk]. rewrite Hc in Hs. split; [exact Hk | exact Hs]. }
    destruct Hin as [Hk Hcache].
    destruct (@In_keys_get _ _ _ Hk) as [local_info Hget].
    exists local_info. split; [exact Hget|]. split; [now rewrite Hcache|].
    intros st2 local_info2 Hc2 Hget2 Hhash.
    apply (@unchanged_file_untouched cfg st2 file_name local_info local_info2);
      [rewrite Hc2, Hcache; exact Hget | exact Hget2 | exact Hhash].
  - intros local_info Hr Hget. split.
    + intros Hc. apply failure_record_failed.
      exact (initial_failure_logged cfg st file_name local_info Hr Hc Hget).
    + intros Hc Hplan. apply failure_record_failed.
      exact (sync_files_failure_logged cfg st file_name local_info
               Hr Hc Hget Hplan).
Qed.

Lemma failed_upload_is_cached_witness :
  (upload_failed "a.txt"
     (logged (state0 fs1 (net_failing_at 1) [])
             (snd (FileSyncService.perform_initial_sync cfg0
                     (state0 fs1 (net_failing_at 1) []))))
   /\ exists local_info,
        dict_get "a.txt"
          (local_files_cache
             (snd (FileSyncService.perform_initial_sync cfg0
                     (state0 fs1 (net_failing_at 1) [])))) = Some local_info
        /\ hash local_info = "h1")
  /\ (upload_failed "c.txt"
        (logged (state0 fs1 (net_failing_at 3) cache1)
                (snd (FileSyncService.sync_files cfg0
                        (state0 fs1 (net_failing_at 3) cache1))))
      /\ (exists local_info,
            dict_get "c.txt"
              (local_files_cache
                 (snd (FileSyncService.sync_files cfg0
                         (state0 fs1 (net_failing_at 3) cache1))))
            = Some local_info
            /\ hash local_info = "h3")
      /\ overwrites cfg0 "c.txt"
           (issued (snd (FileSyncService.sync_files cfg0
                           (state0 fs1 (net_failing_at 3) cache1)))
                   (snd (FileSyncService.sync_files cfg0
                           (snd (FileSyncService.sync_files cfg0
                                   (state0 fs1 (net_failing_at 3) cache1))))))
         = 0)
  /\ (uploads_refused (state0 fs1 net_listing_only cache1)
      /\ pass_compares cfg0 (state0 fs1 net_listing_only cache1) = true
      /\ upload_failed "a.txt"
           (logged (state0 fs1 net_listing_only cache1)
                   (snd (FileSyncService.sync_files cfg0
                           (state0 fs1 net_listing_only cache1))))
      /\ upload_failed "c.txt"
           (logged (state0 fs1 net_listing_only cache1)
                   (snd (FileSyncService.sync_files cfg0
                           (state0 fs1 net_listing_only cache1))))).
Proof.
  split; [|split].
  - assert (Hfail : upload_failed "a.txt"
              (logged (state0 fs1 (net_failing_at 1) [])
                      (snd (FileSyncService.perform_initial_sync cfg0
                              (state0 fs1 (net_failing_at 1) []))))).
    { exists (upload_error "/data/a.txt"). left. vm_compute; repeat (first [left; reflexivity | right]). }
    split; [exact Hfail|].
    destruct (proj1 (failed_upload_is_cached cfg0
                       (state0 fs1 (net_failing_at 1) []) "a.txt")
                _ (or_introl eq_refl) Hfail)
      as (local_info & Hscan & Hcache & _).
    exists local_info. split; [exact Hcache|].
    vm_compute in Hscan. injection Hscan as <-. reflexivity.
  - assert (Hfail : upload_failed "c.txt"
              (logged (state0 fs1 (net_failing_at 3) cache1)
                      (snd (FileSyncService.sync_files cfg0
                              (state0 fs1 (net_failing_at 3) cache1))))).
    { exists (upload_error "/data/c.txt"). right. right. vm_compute; repeat (first [left; reflexivity | right]). }
    split; [exact Hfail|].
    destruct (proj1 (failed_upload_is_cached cfg0
                       (state0 fs1 (net_failing_at 3) cache1) "c.txt")
                _ (or_intror eq_refl) Hfail)
      as (local_info & Hscan & Hcache & Hlater).
    vm_compute in Hscan. injection Hscan as <-.
    split; [exists (snd (file_info "c.txt" "h3")); split;
            [exact Hcache | reflexivity]|].
    assert (Hscan2 : dict_get "c.txt"
              (scanned cfg0
                 (snd (FileSyncService.sync_files cfg0
                         (state0 fs1 (net_failing_at 3) cache1))))
            = Some (snd (file_info "c.txt" "h3")))
      by (vm_compute; reflexivity).
    exact (proj1 (proj2 (Hlater _ _ eq_refl Hscan2 eq_refl))).
  - assert (Hr : uploads_refused (state0 fs1 net_listing_only cache1)).
    { intros n Hn. destruct n as [|n]; [inversion Hn|].
      eexists. reflexivity. }
    split; [exact Hr|]. split; [reflexivity|].
    split.
    + refine (proj2 (proj2 (failed_upload_is_cached cfg0
                              (state0 fs1 net_listing_only cache1) "a.txt")
                       (snd (file_info "a.txt" "h1")) Hr _) eq_refl _).
      * vm_compute; reflexivity.
      * vm_compute. discriminate.
    + refine (proj2 (proj2 (failed_upload_is_cached cfg0
                              (state0 fs1 net_listing_only cache1) "c.txt")
                       (snd (file_info "c.txt" "h3")) Hr _) eq_refl _).
      * vm_compute; reflexivity.
      * vm_compute. discriminate.
Defined.

(** C5, as stated, fails: when the first of two runs is cut short by a
    failing listing call, the cache is not replaced, and the second run
    uploads the file although nothing changed in the folder. *)
Lemma sync_files_twice_second_uploads :
  ~ (forall cfg st file_name,
       let st1 := snd (FileSyncService.sync_files cfg st) in
       let st2 := snd (FileSyncService.sync_files cfg st1) in
       uploads cfg file_name (issued st1 st2) = 0
       /\ overwrites cfg file_name (issued st1 st2) = 0
       /\ deletes file_name (issued st1 st2) = 0).
Proof.
  intros H.
  specialize (H cfg0 (state0 (fs_of [("a.txt", "h1")]) (net_failing_at 0) [])
                "a.txt").
  vm_compute in H. destruct H as [H _]. discriminate.
Qed.

(** C5 (amended): when a steady-state run gets as far as the comparison, a
    second run right after it, on an unchanged folder, issues no upload, no
    overwrite and no delete (at most the listing call), whatever the
    remote answers. *)
Theorem sync_files_idempotent cfg st :
  pass_compares cfg st = true ->
  let st1 := snd (FileSyncService.sync_files cfg st) in
  let st2 := snd (FileSyncService.sync_files cfg st1) in
  issued st1 st2 = [] \/ issued st1 st2 = [CGetInfo].
Proof.
  intros Hc. cbn zeta.
  destruct (sync_files_view cfg st) as [_ Hv]. rewrite Hc in Hv.
  destruct Hv as (rq & ls & ls' & _ & _ & Hst1).
  set (st1 := snd (FileSyncService.sync_files cfg st)) in *.
  assert (Hcache : local_files_cache st1 = scanned cfg st)
    by (rewrite Hst1; reflexivity).
  assert (Hfs : scanned cfg st1 = scanned cfg st)
    by (apply scanned_fs; rewrite Hst1; reflexivity).
  destruct (sync_files_view cfg st1) as [_ Hv].
  destruct (pass_compares cfg st1).
  - destruct Hv as (rq2 & l2 & l2' & _ & _ & ->).
    rewrite issued_set_cache, Hcache, Hfs.
    rewrite planned_same by apply scanned_ok. now right.
  - destruct Hv as (rq2 & cs & l2 & e & _ & _ & -> & [[-> _]|[-> _]]);
      rewrite issued_extend; auto.
Qed.

Lemma sync_files_idempotent_witness :
  pass_compares cfg0 (state0 fs1 net_ok cache1) = true
  /\ (issued (snd (FileSyncService.sync_files cfg0 (state0 fs1 net_ok cache1)))
             (snd (FileSyncService.sync_files cfg0
                     (snd (FileSyncService.sync_files cfg0
                             (state0 fs1 net_ok cache1))))) = []
      \/ issued (snd (FileSyncService.sync_files cfg0 (state0 fs1 net_ok cache1)))
                (snd (FileSyncService.sync_files cfg0
                        (snd (FileSyncService.sync_files cfg0
                                (state0 fs1 net_ok cache1))))) = [CGetInfo]).
Proof.
  split; [reflexivity|].
  exact (sync_files_idempotent cfg0 (state0 fs1 net_ok cache1) eq_refl).
Defined.

(** C6: when the log of a steady-state cycle shows that the upload of one
    file failed and that of another succeeded, the cycle returned without
    raising, the cache entry of the second file is the one just scanned,
    and the calls issued are those of any cycle from the same state that
    gets as far as the comparison, whatever the remote answers: the failure
    cut nothing short. *)
Theorem partial_failure_isolated cfg st file_a file_b :
  let st' := snd (FileSyncService.sync_files cfg st) in
  upload_failed file_a (logged st st') ->
  upload_succeeded file_b (logged st st') ->
  fst (FileSyncService.sync_files cfg st) = Ret tt
  /\ (exists info_b,
        dict_get file_b (scanned cfg st) = Some info_b
        /\ dict_get file_b (local_files_cache st') = Some info_b)
  /\ (forall net2,
        pass_compares cfg (set_net net2 st) = true ->
        issued (set_net net2 st)
               (snd (FileSyncService.sync_files cfg (set_net net2 st)))
        = issued st st').
Proof.
  cbn zeta. intros Hfail Hok.
  destruct (sync_files_view cfg st) as [Hret Hv]. cbn zeta in Hv.
  assert (Hb : pass_compares cfg st = true
               /\ In file_b (dict_keys (scanned cfg st))).
  { destruct Hok as [H|H];
      exact (upload_record_sync cfg st _ file_b H eq_refl). }
  destruct Hb as [Hc Hk]. rewrite Hc in Hv.
  destruct Hv as (rq & ls & ls' & _ & _ & Hst').
  split; [exact Hret|]. split.
  - destruct (In_keys_get _ _ Hk) as [info_b Hget].
    exists info_b. split; [exact Hget|]. rewrite Hst'. exact Hget.
  - intros net2 Hc2.
    destruct (sync_files_view cfg (set_net net2 st)) as [_ Hv2].
    cbn zeta in Hv2. rewrite Hc2 in Hv2.
    destruct Hv2 as (rq2 & l2 & l2' & _ & _ & ->).
    rewrite Hst', !issued_set_cache.
    now rewrite (scanned_fs cfg (set_net net2 st) st eq_refl).
Qed.

Lemma partial_failure_isolated_witness :
  upload_failed "a.txt"
    (logged (state0 fs1 (net_failing_at 1) cache1)
            (snd (FileSyncService.sync_files cfg0
                    (state0 fs1 (net_failing_at 1) cache1))))
  /\ upload_succeeded "c.txt"
       (logged (state0 fs1 (net_failing_at 1) cache1)
               (snd (FileSyncService.sync_files cfg0
                       (state0 fs1 (net_failing_at 1) cache1))))
  /\ fst (FileSyncService.sync_files cfg0
            (state0 fs1 (net_failing_at 1) cache1)) = Ret tt
  /\ issued (state0 fs1 (net_failing_at 1) cache1)
            (snd (FileSyncService.sync_files cfg0
                    (state0 fs1 (net_failing_at 1) cache1)))
     = [CGetInfo; CLoad "/data/a.txt"; CReload "/data/c.txt"; CDelete "d.txt"].
Proof.
  assert (Hfail : upload_failed "a.txt"
            (logged (state0 fs1 (net_failing_at 1) cache1)
                    (snd (FileSyncService.sync_files cfg0
                            (state0 fs1 (net_failing_at 1) cache1))))).
  { exists upload_error_a. right. left. vm_compute. left. reflexivity. }
  assert (Hok : upload_succeeded "c.txt"
            (logged (state0 fs1 (net_failing_at 1) cache1)
                    (snd (FileSyncService.sync_files cfg0
                            (state0 fs1 (net_failing_at 1) cache1))))).
  { right. vm_compute. right. left. reflexivity. }
  split; [exact Hfail|]. split; [exact Hok|].
  destruct (@partial_failure_isolated cfg0
              (state0 fs1 (net_failing_at 1) cache1) "a.txt" "c.txt" Hfail Hok)
    as (Hret & _ & _).
  split; [exact Hret | reflexivity].
Defined.

(** C7, as stated, fails: when listing the folder fails because the folder
    is gone, the scanner does not return an empty snapshot, it raises; the
    cycle issues no delete and keeps the cache. *)
Lemma scan_listing_failure_not_empty :
  ~ (forall cfg st n,
       fs_listdir (fs st) (sync_folder_path cfg) = OsErr n ->
       fst (FileSyncService.scan_local_folder cfg st) = Ret []
       /\ (forall file_name,
             In file_name (dict_keys (local_files_cache st)) ->
             deletes file_name
                     (issued st (snd (FileSyncService.sync_files cfg st))) = 1)
       /\ local_files_cache (snd (FileSyncService.sync_files cfg st)) = []).
Proof.
  intros H.
  specialize (H cfg0 (state0 (fs_failing ENOENT) net_ok cache1) ENOENT eq_refl).
  destruct H as [H _]. vm_compute in H. discriminate.
Qed.

(** C7 (amended): when listing the watched folder fails with a permission
    error, the scanner logs the error and returns the empty snapshot; a
    steady-state cycle in that situation whose listing call returns issues
    the listing call and one delete for every name in the cache, nothing
    else, and replaces the cache with the empty snapshot. *)
Theorem sync_files_unreadable_folder cfg st :
  dict_wf (local_files_cache st) ->
  fs_listdir (fs st) (sync_folder_path cfg) = OsErr EACCES ->
  FileSyncService.scan_local_folder cfg st
  = (Ret [],
     add_log (ERROR, LogFolderAccess (sync_folder_path cfg)
                       (exn_of_errno EACCES)) st)
  /\ (pass_compares cfg st = true ->
      let st' := snd (FileSyncService.sync_files cfg st) in
      issued st st' = CGetInfo :: map CDelete (dict_keys (local_files_cache st))
      /\ (forall file_name,
            In file_name (dict_keys (local_files_cache st)) ->
            deletes file_name (issued st st') = 1)
      /\ local_files_cache st' = []).
Proof.
  intros Hwf Hl.
  pose proof (scan_listing_denied cfg st Hl) as Hscan.
  split; [now rewrite add_log_extend|].
  intros Hc. cbn zeta.
  destruct (sync_files_view cfg st) as [_ Hv]. rewrite Hc in Hv.
  assert (Hcur : scanned cfg st = []) by (unfold scanned; now rewrite Hscan).
  rewrite Hcur in Hv. destruct Hv as (rq & ls & ls' & _ & _ & Hst').
  rewrite Hst', issued_set_cache.
  assert (Hplan : planned_calls (local_files_cache st) []
                  = map CDelete (dict_keys (local_files_cache st))).
  { unfold planned_calls. cbn [flat_map app].
    induction (dict_keys (local_files_cache st)) as [|k ks IH];
      [reflexivity|]. cbn [flat_map map]. now rewrite IH. }
  split; [now rewrite Hplan|]. split; [|reflexivity].
  intros file_name Hin.
  pose proof (@count_planned cfg _ _ file_name Hwf (snapshot_ok_nil cfg))
    as Hcount.
  cbn zeta in Hcount. cbn [dict_get] in Hcount.
  apply dict_contains_true in Hin. unfold dict_contains in Hin.
  destruct (dict_get file_name (local_files_cache st)); [|discriminate].
  now injection Hcount.
Qed.

Lemma sync_files_unreadable_folder_witness :
  dict_wf (local_files_cache (state0 (fs_failing EACCES) net_ok cache1))
  /\ fs_listdir (fs (state0 (fs_failing EACCES) net_ok cache1))
                (sync_folder_path cfg0) = OsErr EACCES
  /\ pass_compares cfg0 (state0 (fs_failing EACCES) net_ok cache1) = true
  /\ issued (state0 (fs_failing EACCES) net_ok cache1)
            (snd (FileSyncService.sync_files cfg0
                    (state0 (fs_failing EACCES) net_ok cache1)))
     = [CGetInfo; CDelete "b.txt"; CDelete "c.txt"; CDelete "d.txt"]
  /\ local_files_cache
       (snd (FileSyncService.sync_files cfg0
               (state0 (fs_failing EACCES) net_ok cache1))) = [].
Proof.
  split; [exact cache1_wf|]. split; [reflexivity|]. split; [reflexivity|].
  pose proof (proj2 (sync_files_unreadable_folder cfg0
                       (state0 (fs_failing EACCES) net_ok cache1)
                       cache1_wf eq_refl) eq_refl) as H.
  cbn zeta in H. destruct H as (H1 & _ & H3). split; [exact H1 | exact H3].
Defined.

(** C8: a [delete] whose request is answered 404 (the remote object is
    already absent) returns [True], it does not raise; and the service,
    deleting a file that left the folder, records the delete as done. *)
Theorem delete_not_found_is_success cfg filename st r :
  net st (length (requests st)) = Replied r ->
  status_code r = 404 ->
  fst (YandexDiskStorage.delete cfg filename st) = Ret true
  /\ forall current,
       dict_contains filename current = false ->
       exists rq,
         FileSyncService.sync_cached cfg current filename st
         = (Ret tt, extend rq [CDelete filename] [(INFO, LogDeleted filename)] st).
Proof.
  intros Hnet Hsc. split; [now apply (delete_404 cfg filename st Hnet)|].
  intros current Hc. unfold FileSyncService.sync_cached. rewrite Hc.
  cbn [negb].
  destruct (action_block (CDelete filename)
              (LogDeleted filename) (LogDeleteError filename) st
              (client_delete cfg filename))
    as (rq & rec & -> & Hrec).
  rewrite (delete_404 cfg filename (add_call (CDelete filename) st) Hnet Hsc)
    in Hrec.
  subst rec. now exists rq.
Qed.

Lemma delete_not_found_is_success_witness :
  net (state0 fs1 (fun _ => reply_404) cache1)
      (length (requests (state0 fs1 (fun _ => reply_404) cache1)))
  = reply_404
  /\ fst (YandexDiskStorage.delete cfg0 "d.txt"
            (state0 fs1 (fun _ => reply_404) cache1)) = Ret true.
Proof.
  split; [reflexivity|].
  exact (proj1 (delete_not_found_is_success cfg0 "d.txt"
                  (state0 fs1 (fun _ => reply_404) cache1) eq_refl eq_refl)).
Defined.

(** C9: in a steady-state cycle whose listing call raises, the exception
    is logged and swallowed: the only call issued is the listing call, so
    no upload, no overwrite and no delete, the cache is left as it was and
    nothing is raised. *)
Theorem sync_files_listing_failure cfg st :
  listing_raises cfg st = true ->
  let st' := snd (FileSyncService.sync_files cfg st) in
  fst (FileSyncService.sync_files cfg st) = Ret tt
  /\ issued st st' = [CGetInfo]
  /\ local_files_cache st' = local_files_cache st
  /\ exists e, last (log st') (INFO, LogStart) = (ERROR, LogSyncError e).
Proof.
  intros Hl. cbn zeta.
  destruct (sync_files_view cfg st) as [Hret Hv]. cbn zeta in Hv.
  assert (Hc : pass_compares cfg st = false).
  { unfold pass_compares, listing_raises in *.
    destruct (FileSyncService.scan_local_folder cfg st) as [[d|e] s1];
      [|discriminate].
    destruct (FileSyncService.invoke _ _ _) as [[d'|e] s2];
      [discriminate | reflexivity]. }
  rewrite Hc in Hv.
  destruct Hv as (rq & cs & ls & e & _ & _ & Hst' & Hcase).
  split; [exact Hret|]. rewrite Hst', issued_extend.
  destruct Hcase as [[-> Hscan]|[-> _]].
  - exfalso. unfold listing_raises in Hl.
    destruct (FileSyncService.scan_local_folder cfg st) as [[d|e'] s1];
      [discriminate Hscan | discriminate Hl].
  - split; [reflexivity|]. split; [reflexivity|].
    exists e. unfold extend; cbn [log]. rewrite app_assoc. apply last_last.
Qed.

Lemma sync_files_listing_failure_witness :
  listing_raises cfg0 (state0 fs1 net_down cache1) = true
  /\ issued (state0 fs1 net_down cache1)
            (snd (FileSyncService.sync_files cfg0 (state0 fs1 net_down cache1)))
     = [CGetInfo]
  /\ local_files_cache
       (snd (FileSyncService.sync_files cfg0 (state0 fs1 net_down cache1)))
     = cache1.
Proof.
  split; [reflexivity|].
  pose proof (sync_files_listing_failure cfg0 (state0 fs1 net_down cache1)
                eq_refl) as H.
  cbn zeta in H. destruct H as (_ & H2 & H3 & _). split; [exact H2 | exact H3].
Defined.

(** C10: the scanner catches [PermissionError] only.  When listing the
    folder fails with a permission error it returns the empty snapshot; when
    it fails with any other OS error the exception leaves the scanner and
    is caught by the handler of the cycle, which issues no call at all and
    keeps the cache.  Whatever leaves the scanner is not a
    [PermissionError], and the cycle it leaves issues no call and keeps the
    cache. *)
Theorem scan_catches_permission_error_only cfg st :
  (forall n,
     fs_listdir (fs st) (sync_folder_path cfg) = OsErr n ->
     if Errno_eq_dec n EACCES then
       fst (FileSyncService.scan_local_folder cfg st) = Ret []
     else
       FileSyncService.scan_local_folder cfg st = (Raise (exn_of_errno n), st)
       /\ snd (FileSyncService.sync_files cfg st)
          = add_log (ERROR, LogSyncError (exn_of_errno n)) st)
  /\ (forall e,
        fst (FileSyncService.scan_local_folder cfg st) = Raise e ->
        let st' := snd (FileSyncService.sync_files cfg st) in
        isinstance e PermissionError = false
        /\ fst (FileSyncService.sync_files cfg st) = Ret tt
        /\ issued st st' = []
        /\ local_files_cache st' = local_files_cache st).
Proof.
  split.
  - intros n Hl. destruct (Errno_eq_dec n EACCES) as [->|Hn].
    + now rewrite (scan_listing_denied cfg st Hl).
    + pose proof (scan_listing_error cfg st Hl Hn) as Hscan.
      split; [exact Hscan|].
      unfold FileSyncService.sync_files.
      erewrite try_handled;
        [reflexivity | apply (bind_Raise _ _ _ Hscan) | apply errno_is_Exception].
  - intros e Hscan. cbn zeta.
    destruct (sync_files_view cfg st) as [Hret Hv]. cbn zeta in Hv.
    assert (Hc : pass_compares cfg st = false).
    { unfold pass_compares.
      destruct (FileSyncService.scan_local_folder cfg st) as [[d|e'] s1];
        [discriminate Hscan | reflexivity]. }
    rewrite Hc in Hv.
    destruct Hv as (rq & cs & ls & e' & _ & _ & Hst' & Hcase).
    split.
    { destruct (scan_char cfg (fs st)) as (r & ls0 & H & _ & _ & Hr).
      rewrite (H st eq_refl) in Hscan. cbn [fst] in Hscan. subst r.
      destruct (Hr e eq_refl) as (n & -> & Hn).
      destruct n; try reflexivity; congruence. }
    split; [exact Hret|]. rewrite Hst', issued_extend.
    destruct Hcase as [[-> _]|[-> Hl]]; [split; reflexivity|].
    exfalso. unfold listing_raises in Hl.
    destruct (FileSyncService.scan_local_folder cfg st) as [[d|e''] s1];
      [discriminate Hscan | discriminate Hl].
Qed.

Lemma scan_catches_permission_error_only_witness :
  (fs_listdir (fs (state0 (fs_failing ENOENT) net_ok cache1))
              (sync_folder_path cfg0) = OsErr ENOENT
   /\ snd (FileSyncService.sync_files cfg0
             (state0 (fs_failing ENOENT) net_ok cache1))
      = add_log (ERROR, LogSyncError (exn_of_errno ENOENT))
                (state0 (fs_failing ENOENT) net_ok cache1))
  /\ (fst (FileSyncService.scan_local_folder cfg0
             (state0 (fs_failing EIO) net_ok cache1))
      = Raise (exn_of_errno EIO)
      /\ issued (state0 (fs_failing EIO) net_ok cache1)
                (snd (FileSyncService.sync_files cfg0
                        (state0 (fs_failing EIO) net_ok cache1))) = []).
Proof.
  split; (split; [reflexivity|]).
  - exact (proj2 (proj1 (scan_catches_permission_error_only cfg0
                           (state0 (fs_failing ENOENT) net_ok cache1))
                    ENOENT eq_refl)).
  - pose proof (proj2 (scan_catches_permission_error_only cfg0
                         (state0 (fs_failing EIO) net_ok cache1))
                  (exn_of_errno EIO) eq_refl) as H.
    cbn zeta in H. exact (proj1 (proj2 (proj2 H))).
Defined.

(* ================================================================== *)
(** * Further properties of the code *)

(** ** The storage client *)

Lemma bind_make_request {B} meth u ps (k : Response -> M State B) st :
  bind (YandexDiskStorage._make_request meth u ps) k st
  = match request_outcome (next_reply st) with
    | Ret r => k r (add_request (mkRequest meth u ps) st)
    | Raise e => (Raise e, add_request (mkRequest meth u ps) st)
    end.
Proof.
  unfold bind, next_reply. rewrite make_request_eq, <- add_request_extend.
  now destruct (request_outcome _).
Qed.

(** X1: [_make_request] sends exactly one request and changes nothing
    else.  It returns the response when the status is outside 400..599;
    otherwise it raises [ValueError] for 401, [FileNotFoundError] for 404
    and [RuntimeError] for any other status; a connection error of
    [requests] becomes [ConnectionError], a timeout [TimeoutError], any
    other exception of [requests] [RuntimeError]. *)
Theorem make_request_outcomes meth u ps st :
  snd (YandexDiskStorage._make_request meth u ps st)
  = add_request (mkRequest meth u ps) st
  /\ match next_reply st with
     | Replied r =>
         if http_ok r then
           fst (YandexDiskStorage._make_request meth u ps st) = Ret r
         else
           exists msg,
             fst (YandexDiskStorage._make_request meth u ps st)
             = Raise (mkExn (if (status_code r =? 401)%nat then ValueError
                             else if (status_code r =? 404)%nat
                                  then FileNotFoundError
                                  else RuntimeError) msg)
     | RaisedConnectionError _ =>
         exists msg,
           fst (YandexDiskStorage._make_request meth u ps st)
           = Raise (mkExn ConnectionError msg)
     | RaisedTimeout _ =>
         exists msg,
           fst (YandexDiskStorage._make_request meth u ps st)
           = Raise (mkExn TimeoutError msg)
     | RaisedRequestException _ =>
         exists msg,
           fst (YandexDiskStorage._make_request meth u ps st)
           = Raise (mkExn RuntimeError msg)
     end.
Proof.
  rewrite make_request_eq, <- add_request_extend. split; [reflexivity|].
  unfold next_reply, http_ok. cbn [fst].
  destruct (net st (length (requests st))) as [r| | |]; cbn [request_outcome];
    try (eexists; reflexivity).
  destruct ((400 <=? status_code r)%nat && (status_code r <? 600)%nat);
    cbn [negb]; [|reflexivity].
  destruct (status_code r =? 401)%nat; [eexists; reflexivity|].
  destruct (status_code r =? 404)%nat; eexists; reflexivity.
Qed.

(** X2: [delete] sends one DELETE request for [cloud_folder/filename] with
    [permanently=true] and changes nothing else.  It returns [True] when
    the request succeeds or is answered 404, and in every other case raises
    [RuntimeError] with the file name in its text. *)
Theorem delete_outcomes cfg filename st :
  snd (YandexDiskStorage.delete cfg filename st)
  = add_request
      (mkRequest "DELETE" (YandexDiskStorage.BASE_URL ++ "/resources")
         [("path", cloud_folder_name cfg ++ "/" ++ filename);
          ("permanently", "true")]) st
  /\ match next_reply st with
     | Replied r =>
         if http_ok r || (status_code r =? 404)%nat then
           fst (YandexDiskStorage.delete cfg filename st) = Ret true
         else
           exists msg,
             fst (YandexDiskStorage.delete cfg filename st)
             = Raise (mkExn RuntimeError
                        ("Ошибка удаления файла " ++ filename ++ ": " ++ msg))
     | _ =>
         exists msg,
           fst (YandexDiskStorage.delete cfg filename st)
           = Raise (mkExn RuntimeError
                      ("Ошибка удаления файла " ++ filename ++ ": " ++ msg))
     end.
Proof.
  unfold YandexDiskStorage.delete, try_except. rewrite bind_make_request.
  unfold next_reply, http_ok.
  destruct (net st (length (requests st))) as [r| | |]; cbn [request_outcome];
    try (split; [reflexivity | eexists; reflexivity]).
  destruct ((400 <=? status_code r)%nat && (status_code r <? 600)%nat);
    cbn [negb orb]; [|split; reflexivity].
  destruct (status_code r =? 401)%nat eqn:E401.
  - apply Nat.eqb_eq in E401.
    assert (E : (status_code r =? 404)%nat = false)
      by (rewrite E401; reflexivity).
    rewrite E. split; [reflexivity | eexists; reflexivity].
  - destruct (status_code r =? 404)%nat;
      (split; [reflexivity | try reflexivity; eexists; reflexivity]).
Qed.

Lemma next_reply_add_request rq st :
  next_reply (add_request rq st) = second_reply st.
Proof.
  unfold next_reply, second_reply, add_request. cbn [net requests].
  now rewrite last_length.
Qed.

Lemma requests_request_eq meth u ps st :
  YandexDiskStorage.requests_request meth u ps st
  = (match next_reply st with
     | Replied r => Ret r
     | RaisedConnectionError m => Raise (mkExn ReqConnectionError m)
     | RaisedTimeout m => Raise (mkExn ReqTimeout m)
     | RaisedRequestException m => Raise (mkExn RequestException m)
     end, add_request (mkRequest meth u ps) st).
Proof.
  unfold YandexDiskStorage.requests_request, next_reply.
  now destruct (net st (length (requests st))).
Qed.

Lemma load_success cfg file_path st r1 body upload_url r2 h :
  next_reply st = Replied r1 -> http_ok r1 = true ->
  json r1 = Some body -> href body = Some upload_url -> upload_url <> "" ->
  fs_md5 (fs st) file_path = OsOk h ->
  second_reply st = Replied r2 -> http_ok r2 = true ->
  YandexDiskStorage.load cfg file_path st
  = (Ret true,
     add_request (upload_request upload_url)
       (add_request (upload_address_request cfg file_path) st)).
Proof.
  intros E1 S1 Ej Eh Hu Em E2 S2.
  unfold http_ok in S1, S2. apply negb_true_iff in S1, S2.
  unfold YandexDiskStorage.load, try_except. rewrite bind_make_request.
  fold (upload_address_request cfg file_path).
  rewrite E1. cbn [request_outcome]. rewrite S1.
  unfold YandexDiskStorage.response_json, bind at 1. rewrite Ej.
  unfold ret at 1. rewrite Eh.
  destruct upload_url as [|c u]; [congruence|].
  unfold YandexDiskStorage.open_rb, bind at 1. cbn [fs add_request].
  rewrite Em.
  unfold bind at 1. rewrite requests_request_eq, next_reply_add_request, E2.
  unfold YandexDiskStorage.raise_for_status, bind at 1. rewrite S2.
  reflexivity.
Qed.

Lemma load_success_inv cfg file_path st :
  fst (YandexDiskStorage.load cfg file_path st) = Ret true ->
  exists r1 body upload_url r2 h,
    next_reply st = Replied r1 /\ http_ok r1 = true
    /\ json r1 = Some body /\ href body = Some upload_url
    /\ upload_url <> ""
    /\ fs_md5 (fs st) file_path = OsOk h
    /\ second_reply st = Replied r2 /\ http_ok r2 = true.
Proof.
  unfold YandexDiskStorage.load, try_except. rewrite bind_make_request.
  destruct (next_reply st) as [r1|m|m|m] eqn:E1; cbn [request_outcome];
    try discriminate.
  destruct ((400 <=? status_code r1)%nat && (status_code r1 <? 600)%nat) eqn:S1.
  { destruct (status_code r1 =? 401)%nat;
      [|destruct (status_code r1 =? 404)%nat]; discriminate. }
  unfold YandexDiskStorage.response_json, bind at 1.
  destruct (json r1) as [body|] eqn:Ej; [|discriminate].
  unfold ret at 1.
  destruct (href body) as [[|c u]|] eqn:Eh; try discriminate.
  unfold YandexDiskStorage.open_rb, bind at 1. cbn [fs add_request].
  destruct (fs_md5 (fs st) file_path) as [h|n] eqn:Em;
    [|destruct n; discriminate].
  unfold bind at 1. rewrite requests_request_eq, next_reply_add_request.
  destruct (second_reply st) as [r2|m|m|m] eqn:E2; try discriminate.
  unfold YandexDiskStorage.raise_for_status, bind at 1.
  destruct ((400 <=? status_code r2)%nat && (status_code r2 <? 600)%nat) eqn:S2;
    [discriminate|].
  intros _. exists r1, body, (String c u), r2, h.
  unfold http_ok. rewrite S1, S2. repeat split; auto. discriminate.
Qed.

(** X3: [load] returns [True] exactly when the request for the upload
    address is answered with a status outside 400..599 and a body that
    holds a non-empty [href], the file can be opened, and the upload to
    that address is answered with a status outside 400..599; it has then
    sent these two requests, with [overwrite=true] and the base name of the
    file under the cloud folder, and changed nothing else. *)
Theorem load_succeeds_iff cfg file_path st :
  (fst (YandexDiskStorage.load cfg file_path st) = Ret true <->
   exists r1 body upload_url r2 h,
     next_reply st = Replied r1 /\ http_ok r1 = true
     /\ json r1 = Some body /\ href body = Some upload_url
     /\ upload_url <> ""
     /\ fs_md5 (fs st) file_path = OsOk h
     /\ second_reply st = Replied r2 /\ http_ok r2 = true)
  /\ (forall r1 body upload_url,
        fst (YandexDiskStorage.load cfg file_path st) = Ret true ->
        next_reply st = Replied r1 -> json r1 = Some body ->
        href body = Some upload_url ->
        snd (YandexDiskStorage.load cfg file_path st)
        = add_request (upload_request upload_url)
            (add_request (upload_address_request cfg file_path) st)).
Proof.
  split; [split|].
  - apply load_success_inv.
  - intros (r1 & body & u & r2 & h & E1 & S1 & Ej & Eh & Hu & Em & E2 & S2).
    now rewrite (load_success cfg file_path st E1 S1 Ej Eh Hu Em E2 S2).
  - intros r1 body u Hret E1 Ej Eh.
    destruct (load_success_inv cfg file_path st Hret)
      as (r1' & body' & u' & r2 & h & E1' & S1 & Ej' & Eh' & Hu & Em & E2 & S2).
    rewrite E1 in E1'. injection E1' as <-.
    rewrite Ej in Ej'. injection Ej' as <-.
    rewrite Eh in Eh'. injection Eh' as <-.
    now rewrite (load_success cfg file_path st E1 S1 Ej Eh Hu Em E2 S2).
Qed.

Lemma load_succeeds_iff_witness :
  fst (YandexDiskStorage.load cfg0 "/data/a.txt" (state0 fs1 net_ok cache1))
  = Ret true
  /\ requests
       (snd (YandexDiskStorage.load cfg0 "/data/a.txt"
               (state0 fs1 net_ok cache1)))
     = [mkRequest "GET" "https://cloud-api.yandex.net/v1/disk/resources/upload"
          [("path", "backup/a.txt"); ("overwrite", "true")];
        mkRequest "PUT" "https://uploader/target" []].
Proof.
  assert (H : fst (YandexDiskStorage.load cfg0 "/data/a.txt"
                     (state0 fs1 net_ok cache1)) = Ret true).
  { apply (proj1 (load_succeeds_iff cfg0 "/data/a.txt"
                    (state0 fs1 net_ok cache1))).
    exists (mkResponse 200 "" (Some (mkJson (Some "https://uploader/target") []))),
      (mkJson (Some "https://uploader/target") []), "https://uploader/target",
      (mkResponse 200 "" (Some (mkJson (Some "https://uploader/target") []))),
      "h1".
    repeat split; try reflexivity. discriminate. }
  split; [exact H|].
  rewrite (proj2 (load_succeeds_iff cfg0 "/data/a.txt"
                    (state0 fs1 net_ok cache1)) _ _ _ H eq_refl eq_refl eq_refl).
  reflexivity.
Defined.

(** X4: whatever [load] raises is an [IOError] ([OSError]) or a
    [RuntimeError].  When the request for the upload address fails, [load]
    stops after that one request: a connection error, a timeout and a 404
    are raised as [IOError] with the text of a file read error, although
    the file was not opened; any other status and any other error of
    [requests] are raised as [RuntimeError]. *)
Theorem load_failures cfg file_path st :
  (forall e,
     fst (YandexDiskStorage.load cfg file_path st) = Raise e ->
     cls e = OSError \/ cls e = RuntimeError)
  /\ match next_reply st with
     | Replied r =>
         if http_ok r then True
         else
           exists msg,
             YandexDiskStorage.load cfg file_path st
             = (Raise
                  (if (status_code r =? 404)%nat
                   then mkExn OSError
                          ("Ошибка чтения файла " ++ file_path ++ ": " ++ msg)
                   else mkExn RuntimeError
                          ("Ошибка загрузки файла " ++ file_path ++ ": " ++ msg)),
                add_request (upload_address_request cfg file_path) st)
     | RaisedConnectionError _ | RaisedTimeout _ =>
         exists msg,
           YandexDiskStorage.load cfg file_path st
           = (Raise (mkExn OSError
                       ("Ошибка чтения файла " ++ file_path ++ ": " ++ msg)),
              add_request (upload_address_request cfg file_path) st)
     | RaisedRequestException _ =>
         exists msg,
           YandexDiskStorage.load cfg file_path st
           = (Raise (mkExn RuntimeError
                       ("Ошибка загрузки файла " ++ file_path ++ ": " ++ msg)),
              add_request (upload_address_request cfg file_path) st)
     end.
Proof.
  split.
  - intros e He.
    assert (Hs : sound sends (fun e => cls e = OSError \/ cls e = RuntimeError)
                   (YandexDiskStorage.load cfg file_path)).
    { unfold YandexDiskStorage.load.
      eapply sound_try_except with (E' := is_Exception); [apply sends_trans | |].
      - apply client_bind; [apply client_make_request|]. intros response.
        apply client_bind; [apply client_response_json|]. intros body.
        assert (Hbad : client (@raise State bool
                  (mkExn RuntimeError "Не удалось получить URL для загрузки")))
          by (apply client_raise; reflexivity).
        destruct (href body) as [[|c s]|]; try exact Hbad.
        apply client_bind; [apply client_open_rb|]. intros _.
        apply client_bind; [apply client_requests_request|]. intros ur.
        apply client_bind; [apply client_raise_for_status|]. intros _.
        apply client_ret.
      - intros e' He'. unfold orelse, except1.
        destruct (isinstance e' OSError).
        + apply sound_raise; [apply sends_refl | now left].
        + unfold is_Exception in He'. rewrite He'.
          apply sound_raise; [apply sends_refl | now right]. }
    destruct (YandexDiskStorage.load cfg file_path st) as [r s1] eqn:El.
    cbn [fst] in He. subst r. exact (proj2 (Hs _ _ _ El) e eq_refl).
  - unfold YandexDiskStorage.load, try_except. rewrite bind_make_request.
    fold (upload_address_request cfg file_path). unfold http_ok.
    destruct (next_reply st) as [r|m|m|m]; cbn [request_outcome];
      try (eexists; reflexivity).
    destruct ((400 <=? status_code r)%nat && (status_code r <? 600)%nat);
      cbn [negb]; [|exact I].
    destruct (status_code r =? 401)%nat eqn:E401.
    + apply Nat.eqb_eq in E401.
      assert (E : (status_code r =? 404)%nat = false)
        by (rewrite E401; reflexivity).
      rewrite E. eexists; reflexivity.
    + destruct (status_code r =? 404)%nat; eexists; reflexivity.
Qed.

Lemma load_failures_witness :
  exists e,
    fst (YandexDiskStorage.load cfg0 "/data/a.txt" (state0 fs1 net_down cache1))
    = Raise e
    /\ (cls e = OSError \/ cls e = RuntimeError).
Proof.
  exists (mkExn RuntimeError
            ("Ошибка загрузки файла /data/a.txt: "
             ++ "Ошибка HTTP 500: Internal Server Error")).
  split; [reflexivity|].
  exact (proj1 (load_failures cfg0 "/data/a.txt" (state0 fs1 net_down cache1))
           _ eq_refl).
Defined.

(** *** The listing *)

Lemma dict_get_set_eq {V} k (v : V) d : dict_get k (dict_set k v d) = Some v.
Proof.
  induction d as [|[k' v'] d IH]; simpl.
  - now rewrite String.eqb_refl.
  - destruct (String.eqb k k') eqn:E; simpl; rewrite E; auto.
Qed.

Lemma dict_get_set_neq {V} k k1 (v : V) d :
  k1 <> k -> dict_get k1 (dict_set k v d) = dict_get k1 d.
Proof.
  intros Hne. induction d as [|[k' v'] d IH]; simpl.
  - apply String.eqb_neq in Hne. now rewrite Hne.
  - destruct (String.eqb k k') eqn:E; simpl.
    + apply String.eqb_eq in E. subst k'.
      apply String.eqb_neq in Hne. now rewrite Hne.
    + destruct (String.eqb k1 k'); auto.
Qed.

Lemma In_keys_set {V} k (v : V) d nm :
  In nm (dict_keys (dict_set k v d)) <-> In nm (dict_keys d) \/ nm = k.
Proof.
  rewrite dict_keys_set. destruct (dict_contains k d) eqn:E.
  - apply dict_contains_true in E. split; [tauto|]. intros [H| ->]; auto.
  - rewrite in_app_iff. simpl. intuition (subst; auto).
Qed.

Lemma collect_files_state {S} its : forall acc (s : S) r s',
  YandexDiskStorage.collect_files its acc s = (r, s') -> s' = s.
Proof.
  induction its as [|it its IH]; intros acc s r s'; simpl.
  - now intros [= _ <-].
  - destruct (item_type it) as [ty|]; [|now intros [= _ <-]].
    destruct (String.eqb ty "file"); [|apply IH].
    destruct (item_name it); [apply IH | now intros [= _ <-]].
Qed.

Lemma collect_files_spec {S} its : forall acc (s : S),
  ~ Exists item_unreadable its ->
  exists d,
    YandexDiskStorage.collect_files its acc s = (Ret d, s)
    /\ (dict_wf acc -> dict_wf d)
    /\ (forall nm,
          In nm (dict_keys d)
          <-> In nm (dict_keys acc) \/ exists it, In it its /\ file_item nm it)
    /\ (forall nm info,
          dict_get nm d = Some info ->
          dict_get nm acc = Some info
          \/ exists it, In it its /\ file_item nm it
                        /\ info = remote_info_of nm it).
Proof.
  induction its as [|it its IH]; intros acc s Hr; simpl.
  - exists acc. repeat split; auto.
    + intros [H|(it & [] & _)]; auto.
  - assert (Hit : ~ item_unreadable it) by (intros H; apply Hr; now left).
    assert (Hr' : ~ Exists item_unreadable its)
      by (intros H; apply Hr; now right).
    unfold item_unreadable in Hit.
    destruct (item_type it) as [ty|] eqn:Ety; [|tauto].
    destruct (String.eqb ty "file") eqn:Efile.
    + apply String.eqb_eq in Efile. subst ty.
      destruct (item_name it) as [nm0|] eqn:Enm; [|tauto].
      destruct (IH (dict_set nm0 (remote_info_of nm0 it) acc) s Hr')
        as (d & Hd & Hwf & Hkeys & Hget).
      exists d. split; [exact Hd|]. split; [|split].
      * intros Ha. apply Hwf. now apply dict_wf_set.
      * intros nm. rewrite Hkeys, In_keys_set. split.
        -- intros [[H| ->]|(it' & Hin & Hf)]; auto.
           ++ right. exists it. split; [now left | now split].
           ++ right. exists it'. split; [now right | exact Hf].
        -- intros [H|(it' & [<-|Hin] & Hf)]; auto.
           ++ destruct Hf as [_ Hf]. rewrite Enm in Hf. injection Hf as ->.
              left. now right.
           ++ right. now exists it'.
      * intros nm info Hg. destruct (Hget nm info Hg) as [H|(it' & Hin & Hf)].
        -- destruct (string_dec nm nm0) as [->|Hne].
           ++ rewrite dict_get_set_eq in H. injection H as <-.
              right. exists it. split; [now left|]. now repeat split.
           ++ rewrite dict_get_set_neq in H by exact Hne. now left.
        -- right. exists it'. split; [now right | exact Hf].
    + destruct (IH acc s Hr') as (d & Hd & Hwf & Hkeys & Hget).
      exists d. split; [exact Hd|]. split; [exact Hwf|]. split.
      * intros nm. rewrite Hkeys. split.
        -- intros [H|(it' & Hin & Hf)]; auto.
           right. exists it'. split; [now right | exact Hf].
        -- intros [H|(it' & [<-|Hin] & Hf)]; auto.
           ++ destruct Hf as [Hf _]. rewrite Ety in Hf. injection Hf as ->.
              discriminate Efile.
           ++ right. now exists it'.
      * intros nm info Hg. destruct (Hget nm info Hg) as [H|(it' & Hin & Hf)];
          auto.
        right. exists it'. split; [now right | exact Hf].
Qed.

Lemma collect_files_raises {S} its : forall acc (s : S),
  Exists item_unreadable its ->
  exists e, YandexDiskStorage.collect_files its acc s = (Raise e, s)
            /\ cls e = KeyError.
Proof.
  induction its as [|it its IH]; intros acc s He; [inversion He|].
  simpl. destruct (item_type it) as [ty|] eqn:Ety;
    [|eexists; split; reflexivity].
  destruct (String.eqb ty "file") eqn:Efile.
  - destruct (item_name it) as [nm|] eqn:Enm; [|eexists; split; reflexivity].
    apply IH. inversion He as [? ? [H|[_ H]]|]; subst; [congruence| |auto].
    congruence.
  - apply IH. inversion He as [? ? [H|[H _]]|]; subst; [congruence| |auto].
    rewrite Ety in H. injection H as ->. discriminate Efile.
Qed.

(** X5: when the listing request is answered with a status outside
    400..599 and a body whose items can all be read, [get_info] returns a
    dictionary whose keys are exactly the names of the items of type
    [file], each key once; an entry records the name and the size and time
    of an item of that name, with 0 and the empty string for what the item
    lacks.  One request is sent and nothing else changes. *)
Theorem get_info_lists_files cfg st r body :
  next_reply st = Replied r -> http_ok r = true -> json r = Some body ->
  ~ Exists item_unreadable (items body) ->
  exists d,
    YandexDiskStorage.get_info cfg st
    = (Ret d, add_request (listing_request cfg) st)
    /\ dict_wf d
    /\ (forall nm,
          In nm (dict_keys d)
          <-> exists it, In it (items body) /\ file_item nm it)
    /\ (forall nm info,
          dict_get nm d = Some info ->
          exists it, In it (items body) /\ file_item nm it
                     /\ info = remote_info_of nm it).
Proof.
  intros E1 S1 Ej Hr. unfold http_ok in S1. apply negb_true_iff in S1.
  destruct (collect_files_spec (S := State) [] (add_request (listing_request cfg) st) Hr)
    as (d & Hd & Hwf & Hkeys & Hget).
  exists d. split; [|split; [|split]].
  - unfold YandexDiskStorage.get_info, try_except. rewrite bind_make_request.
    fold (listing_request cfg). rewrite E1. cbn [request_outcome]. rewrite S1.
    unfold YandexDiskStorage.response_json, bind at 1. rewrite Ej.
    unfold ret at 1. now rewrite Hd.
  - apply Hwf. constructor.
  - intros nm. rewrite Hkeys. simpl. tauto.
  - intros nm info Hg. destruct (Hget nm info Hg) as [H|H];
      [discriminate H | exact H].
Qed.

Lemma get_info_lists_files_witness :
  exists d,
    YandexDiskStorage.get_info cfg0
      (state0 fs1
         (fun _ => Replied (mkResponse 200 ""
            (Some (mkJson None
               [mkRemoteItem (Some "dir") (Some "old") None None;
                mkRemoteItem (Some "file") (Some "a.txt") (Some 7%Z) None]))))
         cache1)
    = (Ret d,
       add_request (listing_request cfg0)
         (state0 fs1
            (fun _ => Replied (mkResponse 200 ""
               (Some (mkJson None
                  [mkRemoteItem (Some "dir") (Some "old") None None;
                   mkRemoteItem (Some "file") (Some "a.txt") (Some 7%Z) None]))))
            cache1))
    /\ dict_wf d.
Proof.
  destruct (@get_info_lists_files cfg0
              (state0 fs1
                 (fun _ => Replied (mkResponse 200 ""
                    (Some (mkJson None
                       [mkRemoteItem (Some "dir") (Some "old") None None;
                        mkRemoteItem (Some "file") (Some "a.txt") (Some 7%Z)
                          None]))))
                 cache1)
              _ _ eq_refl eq_refl eq_refl) as (d & H & Hwf & _).
  - intros He. inversion He as [? ? [H|[H _]]|? ? He']; subst;
      [discriminate H | discriminate H|].
    inversion He' as [? ? [H|[_ H]]|? ? He'']; subst;
      [discriminate H | discriminate H | inversion He''].
  - exists d. split; [exact H | exact Hwf].
Defined.

(** X6: [get_info] sends one request and changes nothing else, whatever
    happens; whatever it raises is a [RuntimeError] whose text starts with
    the message of the listing.  It raises in particular when the body
    holds an item without a type, or a file without a name, wherever that
    item stands. *)
Theorem get_info_failures cfg st :
  snd (YandexDiskStorage.get_info cfg st)
  = add_request (listing_request cfg) st
  /\ (forall e,
        fst (YandexDiskStorage.get_info cfg st) = Raise e ->
        exists msg,
          e = mkExn RuntimeError
                ("Ошибка получения информации о файлах: " ++ msg))
  /\ (forall r body,
        next_reply st = Replied r -> http_ok r = true -> json r = Some body ->
        Exists item_unreadable (items body) ->
        exists e, fst (YandexDiskStorage.get_info cfg st) = Raise e).
Proof.
  assert (Hall : exists r,
            YandexDiskStorage.get_info cfg st
            = (r, add_request (listing_request cfg) st)
            /\ forall e, r = Raise e ->
                 exists msg,
                   e = mkExn RuntimeError
                         ("Ошибка получения информации о файлах: " ++ msg)).
  { unfold YandexDiskStorage.get_info, try_except. rewrite bind_make_request.
    fold (listing_request cfg).
    destruct (request_outcome (next_reply st)) as [r|e] eqn:Eo.
    - unfold YandexDiskStorage.response_json, bind at 1.
      destruct (json r) as [body|].
      + unfold ret at 1.
        destruct (YandexDiskStorage.collect_files (items body) []
                    (add_request (listing_request cfg) st)) as [[d|e] s1] eqn:Ec;
          pose proof (collect_files_state _ _ _ Ec) as ->.
        * eexists. split; [reflexivity | discriminate].
        * assert (He : is_Exception e).
          { exact (proj2 (client_collect_files (items body) [] _ Ec) e eq_refl). }
          rewrite except1_hit by exact He.
          eexists. split; [reflexivity|]. intros e' [= <-]. eexists; reflexivity.
      + unfold raise at 1. rewrite except1_hit by reflexivity.
        eexists. split; [reflexivity|]. intros e' [= <-]. eexists; reflexivity.
    - rewrite except1_hit by exact (request_outcome_Exception _ Eo).
      eexists. split; [reflexivity|]. intros e' [= <-]. eexists; reflexivity. }
  destruct Hall as (r0 & Hg & H2).
  assert (H1 : snd (YandexDiskStorage.get_info cfg st)
               = add_request (listing_request cfg) st) by now rewrite Hg.
  assert (H2' : forall e,
            fst (YandexDiskStorage.get_info cfg st) = Raise e ->
            exists msg,
              e = mkExn RuntimeError
                    ("Ошибка получения информации о файлах: " ++ msg))
    by (rewrite Hg; exact H2).
  clear H2 Hg. rename H2' into H2.
  split; [exact H1|]. split; [exact H2|].
  intros r body E1 S1 Ej Hex. unfold http_ok in S1. apply negb_true_iff in S1.
  destruct (collect_files_raises (S := State) []
              (add_request (listing_request cfg) st) Hex)
    as (e & Hc & Hcls).
  unfold YandexDiskStorage.get_info, try_except. rewrite bind_make_request.
  fold (listing_request cfg). rewrite E1. cbn [request_outcome]. rewrite S1.
  unfold YandexDiskStorage.response_json, bind at 1. rewrite Ej.
  unfold ret at 1. rewrite Hc.
  rewrite except1_hit
    by (destruct e as [c m]; cbn in Hcls; subst c; reflexivity).
  eexists; reflexivity.
Qed.

Lemma get_info_failures_witness :
  exists msg,
    fst (YandexDiskStorage.get_info cfg0 (state0 fs1 net_down cache1))
    = Raise (mkExn RuntimeError
               ("Ошибка получения информации о файлах: " ++ msg)).
Proof.
  destruct (proj1 (proj2 (get_info_failures cfg0 (state0 fs1 net_down cache1)))
              (mkExn RuntimeError
                 ("Ошибка получения информации о файлах: "
                  ++ "Ошибка HTTP 500: Internal Server Error")) eq_refl)
    as [msg Hmsg].
  exists msg. rewrite <- Hmsg. reflexivity.
Defined.

(** *** The constructor *)

(** [needle in s], one character of [s] at a time. *)
Lemma prefix_cons_eq a n s : prefix (String a n) (String a s) = prefix n s.
Proof.
  change (prefix (String a n) (String a s))
    with (if ascii_dec a a then prefix n s else false).
  destruct (ascii_dec a a); congruence.
Qed.

Lemma prefix_cons_neq a n b s : a <> b -> prefix (String a n) (String b s) = false.
Proof.
  intros Hne.
  change (prefix (String a n) (String b s))
    with (if ascii_dec a b then prefix n s else false).
  destruct (ascii_dec a b); congruence.
Qed.

Lemma contains_skip n c s :
  prefix n (String c s) = false ->
  str_contains n (String c s) = str_contains n s.
Proof.
  intros Hp. unfold str_contains.
  change (index 0 n (String c s))
    with (if prefix n (String c s) then Some 0
          else match index 0 n s with Some k => Some (S k) | None => None end).
  rewrite Hp. now destruct (index 0 n s).
Qed.

Lemma contains_hit n c s :
  prefix n (String c s) = true -> str_contains n (String c s) = true.
Proof.
  intros Hp. unfold str_contains.
  change (index 0 n (String c s))
    with (if prefix n (String c s) then Some 0
          else match index 0 n s with Some k => Some (S k) | None => None end).
  now rewrite Hp.
Qed.

(** [409] does not begin at a character that is followed by a colon within
    the next two characters. *)
Lemma prefix_409_colon_1 c s : prefix "409" (String c (String ":" s)) = false.
Proof.
  destruct (ascii_dec "4" c) as [<-|Hne]; [|now apply prefix_cons_neq].
  rewrite prefix_cons_eq. now apply prefix_cons_neq.
Qed.

Lemma prefix_409_colon_2 c1 c2 s :
  prefix "409" (String c1 (String c2 (String ":" s))) = false.
Proof.
  destruct (ascii_dec "4" c1) as [<-|Hne]; [|now apply prefix_cons_neq].
  rewrite prefix_cons_eq.
  destruct (ascii_dec "0" c2) as [<-|Hne]; [|now apply prefix_cons_neq].
  rewrite prefix_cons_eq. now apply prefix_cons_neq.
Qed.

Lemma prefix_409_three d1 d2 d3 s :
  prefix "409" (String d1 (String d2 (String d3 (String ":" s))))
  = (Ascii.eqb d1 "4" && Ascii.eqb d2 "0" && Ascii.eqb d3 "9")%bool.
Proof.
  destruct (Ascii.eqb d1 "4") eqn:E1.
  - apply Ascii.eqb_eq in E1. subst d1. rewrite prefix_cons_eq.
    destruct (Ascii.eqb d2 "0") eqn:E2.
    + apply Ascii.eqb_eq in E2. subst d2. rewrite prefix_cons_eq.
      destruct (Ascii.eqb d3 "9") eqn:E3.
      * apply Ascii.eqb_eq in E3. subst d3. rewrite prefix_cons_eq. reflexivity.
      * apply Ascii.eqb_neq in E3. apply prefix_cons_neq. congruence.
    + apply Ascii.eqb_neq in E2. apply prefix_cons_neq. congruence.
  - apply Ascii.eqb_neq in E1. apply prefix_cons_neq. congruence.
Qed.

(** Where [409] can occur in the text of a [RuntimeError] of
    [_make_request]: the fixed words hold no [4], and a status of three
    digits is followed by a colon. *)
Lemma contains_409_after_status (d1 d2 d3 : ascii) (s : string) :
  str_contains "409" (String d1 (String d2 (String d3 (": " ++ s))))
  = (Ascii.eqb d1 "4" && Ascii.eqb d2 "0" && Ascii.eqb d3 "9")%bool
    || str_contains "409" s.
Proof.
  change (": " ++ s) with (String ":" (String " " s)).
  destruct (Ascii.eqb d1 "4" && Ascii.eqb d2 "0" && Ascii.eqb d3 "9")%bool
    eqn:E; cbn [orb].
  - apply contains_hit. now rewrite prefix_409_three.
  - rewrite contains_skip by now rewrite prefix_409_three.
    rewrite contains_skip by apply prefix_409_colon_2.
    rewrite contains_skip by apply prefix_409_colon_1.
    rewrite contains_skip by (apply prefix_cons_neq; discriminate).
    rewrite contains_skip by (apply prefix_cons_neq; discriminate).
    reflexivity.
Qed.

Lemma contains_409_http_error (X : string) :
  str_contains "409" ("Ошибка HTTP " ++ X) = str_contains "409" X.
Proof.
  cbv [append].
  repeat (rewrite contains_skip by (apply prefix_cons_neq; discriminate)).
  reflexivity.
Qed.

Lemma contains_409_request_error (X : string) :
  str_contains "409" ("Ошибка при запросе к Яндекс.Диску: " ++ X)
  = str_contains "409" X.
Proof.
  cbv [append].
  repeat (rewrite contains_skip by (apply prefix_cons_neq; discriminate)).
  reflexivity.
Qed.

(** A status from 400 to 599 is written with three digits, which are
    [409] for the status 409 only. *)
Lemma dec_status sc :
  (400 <= sc < 600)%nat ->
  exists d1 d2 d3,
    dec sc = String d1 (String d2 (String d3 ""))
    /\ (Ascii.eqb d1 "4" && Ascii.eqb d2 "0" && Ascii.eqb d3 "9")%bool
       = (sc =? 409)%nat.
Proof.
  intros Hsc.
  assert (Hall : forallb (fun n =>
            match dec n with
            | String d1 (String d2 (String d3 EmptyString)) =>
                Bool.eqb (Ascii.eqb d1 "4" && Ascii.eqb d2 "0" && Ascii.eqb d3 "9")
                         (n =? 409)%nat
            | _ => false
            end) (seq 400 200) = true) by (vm_compute; reflexivity).
  rewrite forallb_forall in Hall.
  assert (Hin : In sc (seq 400 200)) by (apply in_seq; lia).
  specialize (Hall sc Hin).
  destruct (dec sc) as [|d1 [|d2 [|d3 [|]]]]; try discriminate.
  exists d1, d2, d3. split; [reflexivity|]. now apply Bool.eqb_prop.
Qed.

(** X7: [_ensure_folder_exists] sends one PUT request for the cloud
    folder.  It returns when the request succeeds.  Of the failures it
    ignores a [RuntimeError] whose text holds [409]: an HTTP error other
    than 401 and 404 exactly when the status is 409 or the text of the
    response holds [409], and another error of [requests] exactly when its
    text holds [409].  Everything else is raised: [ValueError] for 401,
    [FileNotFoundError] for 404, [ConnectionError], [TimeoutError], and
    the remaining [RuntimeError]s. *)
Theorem ensure_folder_exists_outcomes cfg st :
  let st1 := add_request (folder_request cfg) st in
  match next_reply st with
  | Replied r =>
      if http_ok r then
        YandexDiskStorage._ensure_folder_exists cfg st = (Ret tt, st1)
      else if (status_code r =? 401)%nat then
        exists msg,
          YandexDiskStorage._ensure_folder_exists cfg st
          = (Raise (mkExn ValueError msg), st1)
      else if (status_code r =? 404)%nat then
        exists msg,
          YandexDiskStorage._ensure_folder_exists cfg st
          = (Raise (mkExn FileNotFoundError msg), st1)
      else if (status_code r =? 409)%nat || str_contains "409" (text r) then
        YandexDiskStorage._ensure_folder_exists cfg st = (Ret tt, st1)
      else
        exists msg,
          YandexDiskStorage._ensure_folder_exists cfg st
          = (Raise (mkExn RuntimeError msg), st1)
  | RaisedConnectionError _ =>
      exists msg,
        YandexDiskStorage._ensure_folder_exists cfg st
        = (Raise (mkExn ConnectionError msg), st1)
  | RaisedTimeout _ =>
      exists msg,
        YandexDiskStorage._ensure_folder_exists cfg st
        = (Raise (mkExn TimeoutError msg), st1)
  | RaisedRequestException m =>
      if str_contains "409" m then
        YandexDiskStorage._ensure_folder_exists cfg st = (Ret tt, st1)
      else
        exists msg,
          YandexDiskStorage._ensure_folder_exists cfg st
          = (Raise (mkExn RuntimeError msg), st1)
  end.
Proof.
  cbn zeta.
  unfold YandexDiskStorage._ensure_folder_exists, try_except.
  rewrite bind_make_request. fold (folder_request cfg). unfold http_ok.
  destruct (next_reply st) as [r|m|m|m]; cbn [request_outcome];
    try (eexists; reflexivity).
  - destruct ((400 <=? status_code r)%nat && (status_code r <? 600)%nat) eqn:S1;
      cbn [negb]; [|reflexivity].
    destruct (status_code r =? 401)%nat; [eexists; reflexivity|].
    destruct (status_code r =? 404)%nat; [eexists; reflexivity|].
    rewrite except1_hit by reflexivity. cbn [str].
    apply andb_true_iff in S1. destruct S1 as [Hlo Hhi].
    apply Nat.leb_le in Hlo. apply Nat.ltb_lt in Hhi.
    destruct (dec_status (conj Hlo Hhi)) as (d1 & d2 & d3 & Hdec & Heq).
    rewrite contains_409_http_error, Hdec.
    change (String d1 (String d2 (String d3 "")) ++ ": " ++ text r)
      with (String d1 (String d2 (String d3 (": " ++ text r)))).
    rewrite contains_409_after_status, Heq.
    destruct ((status_code r =? 409)%nat || str_contains "409" (text r));
      cbn [negb]; [reflexivity | eexists; reflexivity].
  - rewrite except1_hit by reflexivity. cbn [str].
    rewrite contains_409_request_error.
    destruct (str_contains "409" m); cbn [negb];
      [reflexivity | eexists; reflexivity].
Qed.

Lemma ensure_folder_exists_state cfg st :
  snd (YandexDiskStorage._ensure_folder_exists cfg st)
  = add_request (folder_request cfg) st.
Proof.
  unfold YandexDiskStorage._ensure_folder_exists, try_except.
  rewrite bind_make_request. fold (folder_request cfg).
  destruct (request_outcome (next_reply st)) as [r|e]; [reflexivity|].
  unfold except1. destruct (isinstance e RuntimeError); [|reflexivity].
  destruct (negb (str_contains "409" (str e))); reflexivity.
Qed.

Lemma validate_connection_eq st :
  YandexDiskStorage._validate_connection st
  = (match request_outcome (next_reply st) with
     | Ret _ => Ret tt
     | Raise e =>
         Raise (mkExn ValueError
                  ("Не удалось подключиться к Яндекс.Диску: " ++ str e))
     end, add_request probe_request st).
Proof.
  unfold YandexDiskStorage._validate_connection, try_except.
  rewrite bind_make_request. fold probe_request.
  destruct (request_outcome (next_reply st)) as [r|e] eqn:Eo; [reflexivity|].
  rewrite except1_hit by exact (request_outcome_Exception _ Eo). reflexivity.
Qed.

(** X8: the constructors.  [_validate_connection] sends one request to
    the base address and turns every failure of it, whatever its cause,
    into a [ValueError].  When it raises, the constructor of the client and
    with it the constructor of the service raise that [ValueError] after
    this one request: the folder request is not sent, nothing is logged
    and the cache is not set.  A constructor of the service that returns
    has sent the two requests, holds an empty cache and has logged the
    start and the folder, in this order. *)
Theorem constructor_outcomes cfg st :
  snd (YandexDiskStorage._validate_connection st)
  = add_request probe_request st
  /\ (forall e,
        fst (YandexDiskStorage._validate_connection st) = Raise e ->
        cls e = ValueError
        /\ FileSyncService.__init__ cfg st
           = (Raise e, add_request probe_request st))
  /\ (forall st',
        FileSyncService.__init__ cfg st = (Ret tt, st') ->
        st' = add_log (INFO, LogFolder (sync_folder_path cfg))
                (add_log (INFO, LogStart)
                   (set_cache []
                      (add_request (folder_request cfg)
                         (add_request probe_request st))))).
Proof.
  pose proof (validate_connection_eq st) as Hv.
  split; [now rewrite Hv|]. split.
  - intros e He. rewrite Hv in He. cbn [fst] in He.
    destruct (request_outcome (next_reply st)) as [r|e0]; [discriminate|].
    injection He as <-. split; [reflexivity|].
    unfold FileSyncService.__init__. apply bind_Raise.
    unfold YandexDiskStorage.__init__. apply bind_Raise. exact Hv.
  - intros st'.
    destruct (request_outcome (next_reply st)) as [r|e0].
    + pose proof (ensure_folder_exists_state cfg (add_request probe_request st))
        as Hst.
      destruct (YandexDiskStorage._ensure_folder_exists cfg
                  (add_request probe_request st)) as [[[]|e] s1] eqn:Ef;
        cbn [snd] in Hst; subst s1.
      * assert (Hi : YandexDiskStorage.__init__ cfg st
                     = (Ret tt, add_request (folder_request cfg)
                                  (add_request probe_request st)))
          by (unfold YandexDiskStorage.__init__;
              now rewrite (bind_Ret _ _ _ Hv)).
        unfold FileSyncService.__init__. rewrite (bind_Ret _ _ _ Hi).
        unfold bind, modify, logger_info, modify. now intros [= <-].
      * assert (Hi : YandexDiskStorage.__init__ cfg st
                     = (Raise e, add_request (folder_request cfg)
                                   (add_request probe_request st)))
          by (unfold YandexDiskStorage.__init__;
              now rewrite (bind_Ret _ _ _ Hv)).
        unfold FileSyncService.__init__. rewrite (bind_Raise _ _ _ Hi).
        discriminate.
    + assert (Hi : YandexDiskStorage.__init__ cfg st
                   = (Raise (mkExn ValueError
                        ("Не удалось подключиться к Яндекс.Диску: " ++ str e0)),
                      add_request probe_request st))
        by (unfold YandexDiskStorage.__init__; now apply bind_Raise).
      unfold FileSyncService.__init__. rewrite (bind_Raise _ _ _ Hi).
      discriminate.
Qed.

Lemma constructor_outcomes_witness :
  (exists e,
     fst (YandexDiskStorage._validate_connection
            (state0 fs1 (fun _ => reply_404) cache1)) = Raise e
     /\ cls e = ValueError)
  /\ local_files_cache
       (snd (FileSyncService.__init__ cfg0 (state0 fs1 net_ok cache1))) = [].
Proof.
  split.
  - exists (mkExn ValueError
              ("Не удалось подключиться к Яндекс.Диску: "
               ++ "Ресурс не найден на Яндекс.Диске")).
    split; [reflexivity|].
    exact (proj1 (proj1 (proj2 (constructor_outcomes cfg0
                                  (state0 fs1 (fun _ => reply_404) cache1)))
                    _ eq_refl)).
  - pose proof (proj2 (proj2 (constructor_outcomes cfg0
                                (state0 fs1 net_ok cache1)))
                  (snd (FileSyncService.__init__ cfg0
                          (state0 fs1 net_ok cache1))) eq_refl) as H.
    rewrite H. reflexivity.
Defined.

(** ** The scanner *)

Unset Implicit Arguments.

(** X9: [get_file_hash] never raises: it returns the digest of a file that
    can be read and logs nothing; for a file that cannot be read, whatever
    the error of the operating system, it logs one error and returns the
    empty string.  It changes nothing else. *)
Theorem get_file_hash_outcomes file_path st :
  FileSyncService.get_file_hash file_path st
  = match fs_md5 (fs st) file_path with
    | OsOk h => (Ret h, st)
    | OsErr n =>
        (Ret "", add_log (ERROR, LogReadError file_path (exn_of_errno n)) st)
    end.
Proof.
  unfold FileSyncService.get_file_hash, try_except,
    FileSyncService.md5_of_file.
  destruct (fs_md5 (fs st) file_path) as [h|n]; [reflexivity|].
  rewrite except1_hit by (destruct n; reflexivity). reflexivity.
Qed.

Lemma scan_item_passes cfg x lf st :
  stat_passes cfg (fs st) x ->
  FileSyncService.scan_item cfg x (lf, st)
  = (Ret tt, (scan_step cfg (fs st) lf x,
              extend [] [] (read_error_record cfg (fs st) x) st)).
Proof.
  intros [Hacc Hio]. unfold scan_step, expected_entry, read_error_record.
  cbn zeta. set (item := joinpath (sync_folder_path cfg) x) in *.
  assert (Hfs : fs st = fs st) by reflexivity.
  destruct (fs_stat (fs st) item) as [s|n] eqn:Hs.
  - destruct (st_isreg s) eqn:Hreg.
    + destruct (fs_md5 (fs st) item) as [h|n] eqn:Hh.
      * destruct (FileSyncService.truthy h) eqn:Ht;
          rewrite extend_nil; scan_run item Hfs; reflexivity.
      * rewrite <- add_log_extend. scan_run item Hfs.
        rewrite except1_hit by (destruct n; reflexivity). reflexivity.
    + rewrite extend_nil. scan_run item Hfs. reflexivity.
  - rewrite extend_nil. scan_run item Hfs.
    destruct n; try reflexivity; congruence.
Qed.

Lemma scan_item_fails cfg x lf st n :
  fs_stat (fs st) (joinpath (sync_folder_path cfg) x) = OsErr n ->
  n = EACCES \/ n = EIO ->
  FileSyncService.scan_item cfg x (lf, st) = (Raise (exn_of_errno n), (lf, st)).
Proof.
  intros Hs Hn. set (item := joinpath (sync_folder_path cfg) x) in *.
  assert (Hfs : fs st = fs st) by reflexivity.
  scan_run item Hfs. now destruct Hn as [-> | ->].
Qed.

Lemma scan_loop_passes cfg xs : forall lf st,
  (forall x, In x xs -> stat_passes cfg (fs st) x) ->
  for_each xs (FileSyncService.scan_item cfg) (lf, st)
  = (Ret tt, (scan_steps cfg (fs st) xs lf,
              extend [] [] (flat_map (read_error_record cfg (fs st)) xs) st)).
Proof.
  induction xs as [|x xs IH]; intros lf st Hp.
  - cbn. now rewrite extend_nil.
  - cbn [for_each]. unfold bind.
    rewrite (scan_item_passes cfg x lf st (Hp x (or_introl eq_refl))).
    rewrite IH by (intros y Hy; apply Hp; now right).
    cbn [fs extend flat_map scan_steps fold_left].
    now rewrite extend_extend.
Qed.

Lemma for_each_app {S X} (xs ys : list X) (body : X -> M S unit) s :
  for_each (xs ++ ys) body s
  = bind (for_each xs body) (fun _ => for_each ys body) s.
Proof.
  revert s. induction xs as [|x xs IH]; intros s; [reflexivity|].
  cbn [app for_each]. unfold bind.
  destruct (body x s) as [[[]|e] s1]; [|reflexivity].
  rewrite IH. reflexivity.
Qed.

(** Looking a name up after the turns of the loop. *)
Lemma dict_get_scan_steps cfg f xs : forall lf n,
  dict_get n (scan_steps cfg f xs lf)
  = if in_dec string_dec n xs then
      match expected_entry cfg f n with
      | Some info => Some info
      | None => dict_get n lf
      end
    else dict_get n lf.
Proof.
  induction xs as [|x xs IH]; intros lf n; [reflexivity|].
  cbn [scan_steps fold_left]. fold (scan_steps cfg f xs (scan_step cfg f lf x)).
  rewrite IH.
  assert (Hstep : dict_get n (scan_step cfg f lf x)
                  = if string_dec n x then
                      match expected_entry cfg f n with
                      | Some info => Some info
                      | None => dict_get n lf
                      end
                    else dict_get n lf).
  { unfold scan_step. destruct (string_dec n x) as [->|Hne].
    - destruct (expected_entry cfg f x); [apply dict_get_set_eq | reflexivity].
    - destruct (expected_entry cfg f x);
        [now apply dict_get_set_neq | reflexivity]. }
  rewrite Hstep.
  destruct (in_dec string_dec n xs) as [Hin|Hni];
    destruct (in_dec string_dec n (x :: xs)) as [Hin'|Hni'];
    destruct (string_dec n x) as [->|Hne];
    try reflexivity;
    try (exfalso; apply Hni'; simpl; auto; fail);
    try (destruct Hin' as [Heq|Hin']; [congruence | contradiction]);
    now destruct (expected_entry cfg f _).
Qed.

(** X10: when the folder can be listed and [stat] of no child fails with
    a permission or an input/output error, the scanner returns a snapshot
    in which a name is present exactly when it is a child that is a regular
    file with readable bytes, with the path, digest, size and time of that
    file; directories, children that are gone and unreadable files are left
    out, and an error is logged for each unreadable file and for nothing
    else. *)
Theorem scan_snapshot cfg st children :
  fs_listdir (fs st) (sync_folder_path cfg) = OsOk children ->
  (forall n, In n children -> stat_passes cfg (fs st) n) ->
  exists snapshot,
    FileSyncService.scan_local_folder cfg st
    = (Ret snapshot,
       extend [] []
         (flat_map (read_error_record cfg (fs st)) children) st)
    /\ forall n,
         dict_get n snapshot
         = if in_dec string_dec n children
           then expected_entry cfg (fs st) n
           else None.
Proof.
  intros Hl Hp. exists (scan_steps cfg (fs st) children []). split.
  - unfold FileSyncService.scan_local_folder, with_local, bind, try_except,
      lift, FileSyncService.Path_iterdir, get_local.
    cbn [fst snd]. rewrite Hl, (scan_loop_passes cfg children [] st Hp).
    reflexivity.
  - intros n. rewrite dict_get_scan_steps. cbn [dict_get].
    destruct (in_dec string_dec n children); [|reflexivity].
    now destruct (expected_entry cfg (fs st) n).
Qed.

Lemma scan_snapshot_witness :
  fs_listdir (fs (state0 fs2 net_ok cache1)) (sync_folder_path cfg0)
  = OsOk ["a.txt"; "sub"; "locked.txt"; "ghost"]
  /\ exists snapshot,
       FileSyncService.scan_local_folder cfg0 (state0 fs2 net_ok cache1)
       = (Ret snapshot,
          extend [] []
            [(ERROR, LogReadError "/data/locked.txt" (exn_of_errno EACCES))]
            (state0 fs2 net_ok cache1))
       /\ dict_get "a.txt" snapshot = Some (snd (file_info "a.txt" "h1"))
       /\ dict_get "sub" snapshot = None
       /\ dict_get "locked.txt" snapshot = None.
Proof.
  split; [reflexivity|].
  destruct (scan_snapshot cfg0 (state0 fs2 net_ok cache1)
              ["a.txt"; "sub"; "locked.txt"; "ghost"] eq_refl)
    as (snapshot & Hscan & Hget).
  - intros n [<-|[<-|[<-|[<-|[]]]]]; split; intros H; vm_compute in H;
      discriminate H.
  - exists snapshot. split; [exact Hscan|].
    rewrite !Hget. repeat split.
Defined.

(** X11: when [stat] of a child fails while the scanner goes through the
    folder, the scan ends there.  After a permission error the scanner
    logs the error and returns what it has gathered from the children
    before, as if the folder ended there: the children after it are not in
    the snapshot.  After an input/output error the exception leaves the
    scanner. *)
Theorem scan_interrupted cfg st before child after :
  fs_listdir (fs st) (sync_folder_path cfg) = OsOk (before ++ child :: after)%list ->
  (forall n, In n before -> stat_passes cfg (fs st) n) ->
  (fs_stat (fs st) (joinpath (sync_folder_path cfg) child) = OsErr EACCES ->
   exists snapshot,
     FileSyncService.scan_local_folder cfg st
     = (Ret snapshot,
        extend [] []
          (flat_map (read_error_record cfg (fs st)) before
           ++ [(ERROR, LogFolderAccess (sync_folder_path cfg)
                         (exn_of_errno EACCES))])%list st)
     /\ forall n,
          dict_get n snapshot
          = if in_dec string_dec n before
            then expected_entry cfg (fs st) n
            else None)
  /\ (fs_stat (fs st) (joinpath (sync_folder_path cfg) child) = OsErr EIO ->
      FileSyncService.scan_local_folder cfg st
      = (Raise (exn_of_errno EIO),
         extend [] [] (flat_map (read_error_record cfg (fs st)) before) st)).
Proof.
  intros Hl Hp.
  assert (Hloop : forall n,
            fs_stat (fs st) (joinpath (sync_folder_path cfg) child) = OsErr n ->
            n = EACCES \/ n = EIO ->
            for_each (before ++ child :: after)%list (FileSyncService.scan_item cfg)
                     (([] : Dict FileInfo), st)
            = (Raise (exn_of_errno n),
               (scan_steps cfg (fs st) before [],
                extend [] []
                  (flat_map (read_error_record cfg (fs st)) before) st))).
  { intros n Hs Hn. rewrite for_each_app. unfold bind.
    rewrite (scan_loop_passes cfg before [] st Hp).
    cbn [for_each]. unfold bind.
    now rewrite (scan_item_fails cfg child (scan_steps cfg (fs st) before [])
                   (extend [] []
                      (flat_map (read_error_record cfg (fs st)) before) st)
                   n Hs Hn). }
  split; intros Hs.
  - exists (scan_steps cfg (fs st) before []). split.
    + unfold FileSyncService.scan_local_folder, with_local, bind, try_except,
        lift, FileSyncService.Path_iterdir, get_local.
      cbn [fst snd]. rewrite Hl, (Hloop EACCES Hs (or_introl eq_refl)).
      rewrite except1_hit by reflexivity.
      unfold logger_error, modify. cbn [fst snd].
      now rewrite add_log_extend, extend_extend.
    + intros n. rewrite dict_get_scan_steps. cbn [dict_get].
      destruct (in_dec string_dec n before); [|reflexivity].
      now destruct (expected_entry cfg (fs st) n).
  - unfold FileSyncService.scan_local_folder, with_local, bind, try_except,
      lift, FileSyncService.Path_iterdir, get_local.
    cbn [fst snd]. rewrite Hl, (Hloop EIO Hs (or_intror eq_refl)).
    rewrite except1_miss by reflexivity. reflexivity.
Qed.

Lemma scan_interrupted_witness :
  fs_listdir (fs (state0 fs3 net_ok cache1)) (sync_folder_path cfg0)
  = OsOk (["a.txt"] ++ "sub" :: ["locked.txt"; "ghost"])%list
  /\ fs_stat (fs (state0 fs3 net_ok cache1))
             (joinpath (sync_folder_path cfg0) "sub") = OsErr EACCES
  /\ exists snapshot,
       fst (FileSyncService.scan_local_folder cfg0 (state0 fs3 net_ok cache1))
       = Ret snapshot
       /\ dict_get "a.txt" snapshot = Some (snd (file_info "a.txt" "h1"))
       /\ dict_get "locked.txt" snapshot = None.
Proof.
  split; [reflexivity|]. split; [reflexivity|].
  destruct (scan_interrupted cfg0 (state0 fs3 net_ok cache1)
              ["a.txt"] "sub" ["locked.txt"; "ghost"] eq_refl) as [H _].
  - intros n [<-|[]]; split; intros H; vm_compute in H; discriminate H.
  - destruct (H eq_refl) as (snapshot & Hscan & Hget).
    exists snapshot. split; [now rewrite Hscan|].
    rewrite !Hget. split; reflexivity.
Defined.

(** X12: the scanner talks to the file system only: it leaves the cache,
    the requests sent and the calls of the client as they are, and adds to
    the log nothing but its own two kinds of record, the error of an
    unreadable file and the error of an inaccessible folder. *)
Theorem scan_changes_the_log_only cfg st :
  let st' := snd (FileSyncService.scan_local_folder cfg st) in
  local_files_cache st' = local_files_cache st
  /\ requests st' = requests st
  /\ calls st' = calls st
  /\ fs st' = fs st
  /\ exists ls, log st' = (log st ++ ls)%list /\ Forall is_scan_record ls.
Proof.
  cbn zeta. destruct (scan_char cfg (fs st)) as (r & ls & H & Hls & _).
  rewrite (H st eq_refl). cbn [snd extend local_files_cache requests calls fs log].
  rewrite !app_nil_r. repeat split. now exists ls.
Qed.

(** X13: a snapshot returned by the scanner has no name twice, and the
    entry under a name carries that name, the path of that name in the
    watched folder, and a digest that is not empty. *)
Theorem scan_snapshot_well_formed cfg st snapshot :
  fst (FileSyncService.scan_local_folder cfg st) = Ret snapshot ->
  NoDup (dict_keys snapshot)
  /\ forall n info,
       dict_get n snapshot = Some info ->
       name info = n
       /\ path info = joinpath (sync_folder_path cfg) n
       /\ hash info <> "".
Proof.
  intros Hscan. destruct (scan_char cfg (fs st)) as (r & ls & H & _ & Hok & _).
  rewrite (H st eq_refl) in Hscan. cbn [fst] in Hscan. subst r.
  destruct (Hok snapshot eq_refl) as [Hwf Hall].
  split; [exact Hwf|]. intros n info Hget.
  apply dict_get_In in Hget. rewrite Forall_forall in Hall.
  destruct (Hall _ Hget) as (Hn & Hp & Hh). cbn [fst snd] in *.
  repeat split; auto. intros Hempty. rewrite Hempty in Hh. discriminate Hh.
Qed.

Lemma scan_snapshot_well_formed_witness :
  fst (FileSyncService.scan_local_folder cfg0 (state0 fs1 net_ok cache1))
  = Ret [file_info "a.txt" "h1"; file_info "b.txt" "h2"; file_info "c.txt" "h3"]
  /\ NoDup (dict_keys [file_info "a.txt" "h1"; file_info "b.txt" "h2";
                       file_info "c.txt" "h3"]).
Proof.
  split; [reflexivity|].
  exact (proj1 (scan_snapshot_well_formed cfg0 (state0 fs1 net_ok cache1)
                  _ eq_refl)).
Defined.

(** ** The passes *)

Lemma calls_for_cached_filter current ks :
  flat_map (calls_for_cached current) ks
  = map CDelete (filter (fun k => negb (dict_contains k current)) ks).
Proof.
  induction ks as [|k ks IH]; [reflexivity|].
  cbn [flat_map filter]. unfold calls_for_cached at 1.
  destruct (negb (dict_contains k current)); cbn [app map]; now rewrite IH.
Qed.

Lemma initial_calls_map (d : Dict FileInfo) :
  flat_map initial_call d = map (fun it => CLoad (path (snd it))) d.
Proof. induction d as [|it d IH]; [reflexivity|]. cbn. now rewrite IH. Qed.

Lemma initial_calls_as_new (d : Dict FileInfo) :
  flat_map initial_call d = flat_map (calls_for_item []) d.
Proof. apply flat_map_ext. intros it. reflexivity. Qed.

(** X14: an initial pass that gets as far as the uploads (the listing call
    and the scanner return) invokes the listing and then [load] for every
    file of the scan, in the order of the scan: each scanned file is
    uploaded once, whatever the cache holds and whatever the listing
    returned, and nothing is overwritten or deleted. *)
Theorem initial_sync_uploads_every_file cfg st file_name :
  initial_compares cfg st = true ->
  let acts := issued st (snd (FileSyncService.perform_initial_sync cfg st)) in
  acts = CGetInfo :: map (fun it => CLoad (path (snd it))) (scanned cfg st)
  /\ uploads cfg file_name acts
     = (if dict_contains file_name (scanned cfg st) then 1 else 0)
  /\ overwrites cfg file_name acts = 0
  /\ deletes file_name acts = 0.
Proof.
  intros Hc. cbn zeta.
  destruct (perform_initial_sync_view cfg st) as [_ Hv]. cbn zeta in Hv.
  rewrite Hc in Hv. destruct Hv as (rq & ls & ls' & _ & _ & ->).
  rewrite issued_set_cache. split; [now rewrite initial_calls_map|].
  rewrite initial_calls_as_new.
  destruct (@count_items cfg [] (scanned cfg st) file_name (scanned_ok cfg st))
    as (I1 & I2 & I3).
  cbn zeta in *. unfold uploads, overwrites, deletes in *.
  rewrite !count_occ_cons_neq by discriminate.
  rewrite I1, I2, I3. unfold dict_contains. cbn [dict_get].
  now destruct (dict_get file_name (scanned cfg st)).
Qed.

Lemma initial_sync_uploads_every_file_witness :
  initial_compares cfg0 (state0 fs1 net_ok cache1) = true
  /\ issued (state0 fs1 net_ok cache1)
       (snd (FileSyncService.perform_initial_sync cfg0
               (state0 fs1 net_ok cache1)))
     = [CGetInfo; CLoad "/data/a.txt"; CLoad "/data/b.txt"; CLoad "/data/c.txt"].
Proof.
  split; [reflexivity|].
  rewrite (proj1 (initial_sync_uploads_every_file cfg0
                    (state0 fs1 net_ok cache1) "b.txt" eq_refl)).
  reflexivity.
Defined.

(** X15: an initial pass that does not get as far as the uploads, because
    the listing call or the scanner raises, has invoked the listing and
    nothing else: no file is uploaded, the cache stays as it was, the
    exception is logged as the last record of the pass, and the record of
    completion is not written. *)
Theorem initial_sync_aborted cfg st :
  initial_compares cfg st = false ->
  let st' := snd (FileSyncService.perform_initial_sync cfg st) in
  fst (FileSyncService.perform_initial_sync cfg st) = Ret tt
  /\ issued st st' = [CGetInfo]
  /\ local_files_cache st' = local_files_cache st
  /\ (exists e, last (logged st st') (INFO, LogStart)
                = (ERROR, LogInitialError e))
  /\ ~ In (INFO, LogInitialDone) (logged st st').
Proof.
  intros Hc. cbn zeta.
  destruct (perform_initial_sync_view cfg st) as [Hret Hv]. cbn zeta in Hv.
  rewrite Hc in Hv. destruct Hv as (rq & ls & e & Hls & ->).
  rewrite issued_extend, logged_extend. repeat split; auto.
  - exists e.
    change ((INFO, LogInitialBegin) :: ls ++ [(ERROR, LogInitialError e)])%list
      with (((INFO, LogInitialBegin) :: ls) ++ [(ERROR, LogInitialError e)])%list.
    apply last_last.
  - intros [H|H]; [discriminate H|].
    apply in_app_or in H. destruct H as [H|[H|[]]]; [|discriminate H].
    rewrite Forall_forall in Hls. exact (Hls _ H).
Qed.

Lemma initial_sync_aborted_witness :
  initial_compares cfg0 (state0 fs1 net_down cache1) = false
  /\ issued (state0 fs1 net_down cache1)
       (snd (FileSyncService.perform_initial_sync cfg0
               (state0 fs1 net_down cache1))) = [CGetInfo]
  /\ local_files_cache
       (snd (FileSyncService.perform_initial_sync cfg0
               (state0 fs1 net_down cache1))) = cache1.
Proof.
  split; [reflexivity|].
  destruct (initial_sync_aborted cfg0 (state0 fs1 net_down cache1) eq_refl)
    as (_ & H1 & H2 & _).
  split; [exact H1 | exact H2].
Defined.

(** X16: the order of a steady-state pass that gets as far as the
    comparison: the listing first, then the uploads and overwrites of the
    scanned files in the order of the scan, then the deletes of the cached
    names that are not in the scan, in the order of the cache.  No delete
    comes before an upload or an overwrite. *)
Theorem sync_files_order cfg st :
  pass_compares cfg st = true ->
  issued st (snd (FileSyncService.sync_files cfg st))
  = (CGetInfo
       :: flat_map (calls_for_item (local_files_cache st)) (scanned cfg st)
       ++ map CDelete
            (filter (fun k => negb (dict_contains k (scanned cfg st)))
                    (dict_keys (local_files_cache st))))%list.
Proof.
  intros Hc. destruct (sync_files_view cfg st) as [_ Hv]. cbn zeta in Hv.
  rewrite Hc in Hv. destruct Hv as (rq & ls & ls' & _ & _ & ->).
  rewrite issued_set_cache. unfold planned_calls.
  now rewrite calls_for_cached_filter.
Qed.

Lemma sync_files_order_witness :
  pass_compares cfg0 (state0 fs1 net_ok cache1) = true
  /\ issued (state0 fs1 net_ok cache1)
       (snd (FileSyncService.sync_files cfg0 (state0 fs1 net_ok cache1)))
     = [CGetInfo; CLoad "/data/a.txt"; CReload "/data/c.txt"; CDelete "d.txt"].
Proof.
  split; [reflexivity|].
  rewrite (sync_files_order cfg0 (state0 fs1 net_ok cache1) eq_refl).
  reflexivity.
Defined.

(** X17: change detection between two cycles.  When a steady-state pass
    gets as far as the comparison, and after the sleep, in which the
    folder and the network may change, the next pass does so too, the
    calls of the next pass for a file name are determined by the two
    scans: one upload for a name that appeared, one overwrite for a name
    whose hash changed, one delete for a name that disappeared, nothing
    for a name whose hash is the same or that is in neither scan. *)
Theorem consecutive_passes cfg st t file_name :
  pass_compares cfg st = true ->
  let st1 := snd (FileSyncService.sync_files cfg st) in
  let st2 := set_net (tick_net t) (set_fs (tick_fs t) st1) in
  pass_compares cfg st2 = true ->
  let acts := issued st2 (snd (FileSyncService.sync_files cfg st2)) in
  (uploads cfg file_name acts, overwrites cfg file_name acts,
   deletes file_name acts)
  = match dict_get file_name (scanned cfg st2),
          dict_get file_name (scanned cfg st) with
    | Some _, None => (1, 0, 0)
    | Some new_info, Some old_info =>
        if String.eqb (hash old_info) (hash new_info)
        then (0, 0, 0) else (0, 1, 0)
    | None, Some _ => (0, 0, 1)
    | None, None => (0, 0, 0)
    end.
Proof.
  intros Hc. cbn zeta. intros Hc2.
  pose proof (sync_files_cache cfg st) as Hcache. rewrite Hc in Hcache.
  set (st1 := snd (FileSyncService.sync_files cfg st)) in *.
  set (st2 := set_net (tick_net t) (set_fs (tick_fs t) st1)) in *.
  assert (Hcache2 : local_files_cache st2 = scanned cfg st) by exact Hcache.
  destruct (sync_files_view cfg st2) as [_ Hv]. cbn zeta in Hv.
  rewrite Hc2 in Hv. destruct Hv as (rq & ls & ls' & _ & _ & ->).
  rewrite issued_set_cache, Hcache2.
  apply count_planned; [apply (scanned_ok cfg st) | apply scanned_ok].
Qed.

Lemma consecutive_passes_witness :
  pass_compares cfg0 (state0 fs1 net_ok cache1) = true
  /\ issued
       (set_net net_ok
          (set_fs (fs_of [("a.txt", "h9"); ("c.txt", "h3")])
             (snd (FileSyncService.sync_files cfg0
                     (state0 fs1 net_ok cache1)))))
       (snd (FileSyncService.sync_files cfg0
               (set_net net_ok
                  (set_fs (fs_of [("a.txt", "h9"); ("c.txt", "h3")])
                     (snd (FileSyncService.sync_files cfg0
                             (state0 fs1 net_ok cache1)))))))
     = [CGetInfo; CReload "/data/a.txt"; CDelete "b.txt"]
  /\ (uploads cfg0 "b.txt" [CGetInfo; CReload "/data/a.txt"; CDelete "b.txt"],
      overwrites cfg0 "b.txt" [CGetInfo; CReload "/data/a.txt"; CDelete "b.txt"],
      deletes "b.txt" [CGetInfo; CReload "/data/a.txt"; CDelete "b.txt"])
     = (0, 0, 1).
Proof.
  split; [reflexivity|]. split; [reflexivity|].
  pose proof (consecutive_passes cfg0 (state0 fs1 net_ok cache1)
                (mkTick (fs_of [("a.txt", "h9"); ("c.txt", "h3")]) net_ok None)
                "b.txt" eq_refl eq_refl) as H.
  exact H.
Defined.

(** ** The run loop *)

(** The state after a sleep. *)
Lemma main_loop_split cfg ticks1 : forall ticks2 st,
  Forall quiet ticks1 ->
  fst (FileSyncService.main_loop cfg ticks1 st) = StillLooping
  /\ FileSyncService.main_loop cfg (ticks1 ++ ticks2) st
     = FileSyncService.main_loop cfg ticks2
         (snd (FileSyncService.main_loop cfg ticks1 st)).
Proof.
  induction ticks1 as [|t ticks1 IH]; intros ticks2 st Hq.
  - split; reflexivity.
  - inversion Hq as [|? ? Ht Hq']; subst.
    cbn [app FileSyncService.main_loop].
    rewrite (bind_Ret _ _ _ (@time_sleep_quiet t st Ht)).
    destruct (sync_files_returns cfg
                (set_net (tick_net t) (set_fs (tick_fs t) st))) as [s1 ->].
    apply IH. exact Hq'.
Qed.

Lemma run_quiet cfg ticks st :
  Forall quiet ticks ->
  FileSyncService.run cfg ticks st
  = (StillLooping,
     snd (FileSyncService.main_loop cfg ticks
            (snd (FileSyncService.perform_initial_sync cfg st)))).
Proof.
  intros Hq. unfold FileSyncService.run.
  destruct (perform_initial_sync_returns cfg st) as [s1 ->]. cbn [snd].
  destruct (main_loop_split cfg ticks [] s1 Hq) as [H _].
  destruct (FileSyncService.main_loop cfg ticks s1) as [o s2].
  cbn [fst] in H. now subst o.
Qed.

(** How [run] ends when a sleep raises. *)
Lemma run_at_sleep cfg ticks1 t ticks2 st e :
  Forall quiet ticks1 ->
  tick_raises t = Some e ->
  let asleep := set_net (tick_net t)
                  (set_fs (tick_fs t)
                     (snd (FileSyncService.run cfg ticks1 st))) in
  FileSyncService.run cfg (ticks1 ++ t :: ticks2) st
  = if isinstance e KeyboardInterrupt
    then (Finished (Ret tt), add_log (INFO, LogStopped) asleep)
    else if isinstance e PyException
    then (Finished (Raise e), add_log (ERROR, LogCritical e) asleep)
    else (Finished (Raise e), asleep).
Proof.
  intros Hq Ht. cbn zeta. rewrite (run_quiet cfg ticks1 st Hq). cbn [snd].
  unfold FileSyncService.run.
  destruct (perform_initial_sync_returns cfg st) as [s1 ->]. cbn [snd].
  rewrite (proj2 (main_loop_split cfg ticks1 (t :: ticks2) s1 Hq)).
  cbn [FileSyncService.main_loop].
  rewrite (bind_Raise _ _ _ (@time_sleep_raises t _ e Ht)).
  destruct (isinstance e KeyboardInterrupt); [reflexivity|].
  destruct (isinstance e PyException); reflexivity.
Qed.

(** X18: an interrupt from the keyboard that arrives in a sleep ends [run]
    without an exception: [run] returns, and all it does after the sleep
    is to log that the program was stopped.  No pass is made after the
    interrupt: no call is invoked, no request is sent, and the cache is
    the one of the last cycle. *)
Theorem run_stopped_by_user cfg ticks1 t ticks2 st e :
  Forall quiet ticks1 ->
  tick_raises t = Some e ->
  isinstance e KeyboardInterrupt = true ->
  FileSyncService.run cfg (ticks1 ++ t :: ticks2) st
  = (Finished (Ret tt),
     add_log (INFO, LogStopped)
       (set_net (tick_net t)
          (set_fs (tick_fs t) (snd (FileSyncService.run cfg ticks1 st))))).
Proof.
  intros Hq Ht Hk. pose proof (run_at_sleep cfg ticks1 t ticks2 st e Hq Ht) as H.
  cbn zeta in H. now rewrite Hk in H.
Qed.

Lemma run_stopped_by_user_witness :
  Forall quiet [mkTick fs1 net_ok None]
  /\ fst (FileSyncService.run cfg0
            ([mkTick fs1 net_ok None]
               ++ mkTick fs1 net_ok (Some (mkExn KeyboardInterrupt ""))
               :: [mkTick fs1 net_ok None])
            (state0 fs1 net_ok [])) = Finished (Ret tt).
Proof.
  assert (Hq : Forall quiet [mkTick fs1 net_ok None]) by (repeat constructor).
  split; [exact Hq|].
  now rewrite (run_stopped_by_user cfg0 [mkTick fs1 net_ok None]
                 (mkTick fs1 net_ok (Some (mkExn KeyboardInterrupt "")))
                 [mkTick fs1 net_ok None] (state0 fs1 net_ok [])
                 (mkExn KeyboardInterrupt "") Hq eq_refl eq_refl).
Defined.

(** X19: an exception raised in a sleep that is neither an [Exception] nor
    a keyboard interrupt (a [SystemExit], say) leaves [run] as it is:
    [run] logs nothing about it and does nothing after the sleep. *)
Theorem run_passes_other_exits cfg ticks1 t ticks2 st e :
  Forall quiet ticks1 ->
  tick_raises t = Some e ->
  isinstance e KeyboardInterrupt = false ->
  isinstance e PyException = false ->
  FileSyncService.run cfg (ticks1 ++ t :: ticks2) st
  = (Finished (Raise e),
     set_net (tick_net t)
       (set_fs (tick_fs t) (snd (FileSyncService.run cfg ticks1 st)))).
Proof.
  intros Hq Ht Hk He.
  pose proof (run_at_sleep cfg ticks1 t ticks2 st e Hq Ht) as H.
  cbn zeta in H. now rewrite Hk, He in H.
Qed.

Lemma run_passes_other_exits_witness :
  Forall quiet [mkTick fs1 net_ok None]
  /\ FileSyncService.run cfg0
       ([mkTick fs1 net_ok None]
          ++ mkTick fs1 net_ok (Some (mkExn SystemExit "0")) :: [])
       (state0 fs1 net_ok [])
     = (Finished (Raise (mkExn SystemExit "0")),
        set_net net_ok
          (set_fs fs1
             (snd (FileSyncService.run cfg0 [mkTick fs1 net_ok None]
                     (state0 fs1 net_ok []))))).
Proof.
  assert (Hq : Forall quiet [mkTick fs1 net_ok None]) by (repeat constructor).
  split; [exact Hq|].
  exact (run_passes_other_exits cfg0 [mkTick fs1 net_ok None]
           (mkTick fs1 net_ok (Some (mkExn SystemExit "0")))
           [] (state0 fs1 net_ok [])
           (mkExn SystemExit "0") Hq eq_refl eq_refl eq_refl).
Defined.

Lemma sync_files_cache_ok cfg st :
  snapshot_ok cfg (local_files_cache st) ->
  snapshot_ok cfg (local_files_cache (snd (FileSyncService.sync_files cfg st))).
Proof.
  intros Hok. pose proof (sync_files_cache cfg st) as H.
  destruct (pass_compares cfg st); rewrite H;
    [apply (scanned_ok cfg st) | exact Hok].
Qed.

Lemma perform_initial_sync_cache_ok cfg st :
  snapshot_ok cfg (local_files_cache st) ->
  snapshot_ok cfg
    (local_files_cache (snd (FileSyncService.perform_initial_sync cfg st))).
Proof.
  intros Hok. pose proof (perform_initial_sync_cache cfg st) as H.
  destruct (initial_compares cfg st); rewrite H;
    [apply (scanned_ok cfg st) | exact Hok].
Qed.

Lemma main_loop_cache_ok cfg ticks : forall st,
  snapshot_ok cfg (local_files_cache st) ->
  snapshot_ok cfg
    (local_files_cache (snd (FileSyncService.main_loop cfg ticks st))).
Proof.
  induction ticks as [|t ticks IH]; intros st Hok; [exact Hok|].
  cbn [FileSyncService.main_loop].
  destruct (tick_raises t) as [e|] eqn:Ht.
  - rewrite (bind_Raise _ _ _ (@time_sleep_raises t st e Ht)). exact Hok.
  - rewrite (bind_Ret _ _ _ (@time_sleep_quiet t st Ht)).
    pose proof (sync_files_cache_ok cfg
                  (set_net (tick_net t) (set_fs (tick_fs t) st)) Hok) as H.
    destruct (sync_files_returns cfg
                (set_net (tick_net t) (set_fs (tick_fs t) st))) as [s1 Hs].
    rewrite Hs in *. cbn [snd] in H. now apply IH.
Qed.

(** X20: an invariant of the service.  When the cache holds what a scan
    of the watched folder can produce (no name twice, every entry with its
    own name, its path in the watched folder and a digest that is not
    empty), it does so at every point [run] can reach, however many cycles
    are made and however the run ends; the empty cache of a service just
    constructed is such a cache. *)
Theorem run_keeps_cache_well_formed cfg ticks st :
  snapshot_ok cfg (local_files_cache st) ->
  snapshot_ok cfg (local_files_cache (snd (FileSyncService.run cfg ticks st)))
  /\ snapshot_ok cfg [].
Proof.
  intros Hok. split; [|apply snapshot_ok_nil].
  unfold FileSyncService.run.
  pose proof (perform_initial_sync_cache_ok cfg st Hok) as H1.
  destruct (perform_initial_sync_returns cfg st) as [s1 Hs].
  rewrite Hs in *. cbn [snd] in H1.
  pose proof (main_loop_cache_ok cfg ticks s1 H1) as H2.
  destruct (FileSyncService.main_loop cfg ticks s1) as [[|[[]|e]] s2];
    cbn [snd] in *; try exact H2.
  destruct (isinstance e KeyboardInterrupt); [exact H2|].
  destruct (isinstance e PyException); exact H2.
Qed.

Lemma run_keeps_cache_well_formed_witness :
  snapshot_ok cfg0 (local_files_cache (state0 fs1 net_ok []))
  /\ snapshot_ok cfg0
       (local_files_cache
          (snd (FileSyncService.run cfg0
                  [mkTick fs1 net_down None;
                   mkTick fs1 net_ok (Some (mkExn KeyboardInterrupt ""))]
                  (state0 fs1 net_ok [])))).
Proof.
  assert (H : snapshot_ok cfg0 (local_files_cache (state0 fs1 net_ok [])))
    by apply snapshot_ok_nil.
  split; [exact H|].
  exact (proj1 (run_keeps_cache_well_formed cfg0
                  [mkTick fs1 net_down None;
                   mkTick fs1 net_ok (Some (mkExn KeyboardInterrupt ""))]
                  (state0 fs1 net_ok []) H)).
Defined.

(** ** The entry point *)

Lemma client_validate_connection :
  client YandexDiskStorage._validate_connection.
Proof.
  unfold YandexDiskStorage._validate_connection. apply client_wrap.
  - apply client_bind; [apply client_make_request | intros _; apply client_ret].
  - intros e He. eexists. split; [|now rewrite except1_hit by exact He].
    reflexivity.
Qed.

Lemma client_ensure_folder_exists cfg :
  client (YandexDiskStorage._ensure_folder_exists cfg).
Proof.
  unfold YandexDiskStorage._ensure_folder_exists.
  eapply sound_try_except with (E' := is_Exception);
    [apply sends_trans | |].
  - apply client_bind; [apply client_make_request | intros _; apply client_ret].
  - intros e He. unfold except1.
    destruct (isinstance e RuntimeError); [|exact He].
    destruct (negb (str_contains "409" (str e)));
      [now apply client_raise | apply client_ret].
Qed.

Lemma client_storage_init cfg : client (YandexDiskStorage.__init__ cfg).
Proof.
  unfold YandexDiskStorage.__init__. apply client_bind;
    [apply client_validate_connection
    | intros _; apply client_ensure_folder_exists].
Qed.

(** A constructor of the service that raises has only sent requests. *)
Lemma service_init_raises cfg st e :
  fst (FileSyncService.__init__ cfg st) = Raise e ->
  is_Exception e
  /\ exists rq, snd (FileSyncService.__init__ cfg st) = extend rq [] [] st.
Proof.
  unfold FileSyncService.__init__.
  destruct (YandexDiskStorage.__init__ cfg st) as [[[]|e0] s1] eqn:Hi.
  - rewrite (bind_Ret _ _ _ Hi). discriminate.
  - rewrite (bind_Raise _ _ _ Hi). cbn [fst snd]. intros [= <-].
    destruct (client_storage_init cfg _ _ _ Hi) as [Hs He].
    split; [now apply He | exact Hs].
Qed.

Lemma service_init_validation cfg st e :
  fst (YandexDiskStorage._validate_connection st) = Raise e ->
  fst (FileSyncService.__init__ cfg st) = Raise e
  /\ isinstance e ValueError = true.
Proof.
  intros He. pose proof (validate_connection_eq st) as Hv.
  rewrite Hv in He. cbn [fst] in He.
  destruct (request_outcome (next_reply st)) as [r|e0]; [discriminate|].
  injection He as <-. split; [|reflexivity].
  unfold FileSyncService.__init__.
  erewrite bind_Raise; [reflexivity|].
  unfold YandexDiskStorage.__init__. apply bind_Raise. exact Hv.
Qed.

(** X21: when the constructor of the service raises, [main] prints one
    line to the standard error stream and exits with status 1: no pass is
    made, no method of the client is invoked and nothing is written to the
    log.  The line is the text of the exception after one of two labels;
    a failed check of the connection, whatever its cause (a timeout, a
    refused connection, any status from 400 to 599), is reported under the
    label of a configuration error. *)
Theorem main_startup_failure cfg ticks st e :
  fst (FileSyncService.__init__ cfg st) = Raise e ->
  let result := main (Ret cfg) ticks st in
  fst (fst result) = Finished (Raise (sys_exit "1"))
  /\ (snd result = [("Ошибка конфигурации: " ++ str e)%string]
      \/ snd result = [("Неожиданная ошибка: " ++ str e)%string])
  /\ (fst (YandexDiskStorage._validate_connection st) = Raise e ->
      snd result = [("Ошибка конфигурации: " ++ str e)%string])
  /\ calls (snd (fst result)) = calls st
  /\ log (snd (fst result)) = log st
  /\ local_files_cache (snd (fst result)) = local_files_cache st.
Proof.
  intros Hi. cbn zeta.
  destruct (service_init_raises cfg st e Hi) as (He & rq & Hst).
  unfold main, main_body.
  destruct (FileSyncService.__init__ cfg st) as [r s1].
  cbn [fst snd] in Hi, Hst. subst r s1. cbv beta iota.
  unfold is_Exception in He. rewrite He.
  destruct (isinstance e ValueError || isinstance e FileNotFoundError
            || isinstance e NotADirectoryError || isinstance e PermissionError)
    eqn:Hc; cbn [fst snd extend calls log local_files_cache];
    rewrite ?app_nil_r; repeat split; auto.
  intros Hv.
  destruct (service_init_validation cfg st e Hv) as [_ Hval].
  rewrite Hval in Hc. discriminate Hc.
Qed.

Lemma main_startup_failure_witness :
  fst (FileSyncService.__init__ cfg0 (state0 fs1 (fun _ => reply_404) cache1))
  = Raise (mkExn ValueError
             ("Не удалось подключиться к Яндекс.Диску: "
              ++ "Ресурс не найден на Яндекс.Диске"))
  /\ fst (fst (main (Ret cfg0) [] (state0 fs1 (fun _ => reply_404) cache1)))
     = Finished (Raise (sys_exit "1")).
Proof.
  split; [reflexivity|].
  exact (proj1 (main_startup_failure cfg0 []
                  (state0 fs1 (fun _ => reply_404) cache1)
                  (mkExn ValueError
                     ("Не удалось подключиться к Яндекс.Диску: "
                      ++ "Ресурс не найден на Яндекс.Диске"))
                  eq_refl)).
Defined.

(** X22: how [main] ends when the service was constructed and a sleep of
    the run loop raises.  After an interrupt from the keyboard [main]
    returns without an exception and prints nothing.  After an
    [Exception], [run] has logged it as critical and [main] prints one
    line with its text and exits with status 1: no [Exception] leaves
    [main]. *)
Theorem main_end_of_run cfg ticks1 t ticks2 st e :
  fst (FileSyncService.__init__ cfg st) = Ret tt ->
  Forall quiet ticks1 ->
  tick_raises t = Some e ->
  let result := main (Ret cfg) (ticks1 ++ t :: ticks2) st in
  (isinstance e KeyboardInterrupt = true ->
   fst (fst result) = Finished (Ret tt) /\ snd result = [])
  /\ (isinstance e PyException = true ->
      fst (fst result) = Finished (Raise (sys_exit "1"))
      /\ last (log (snd (fst result))) (INFO, LogStart)
         = (ERROR, LogCritical e)
      /\ (snd result = [("Ошибка конфигурации: " ++ str e)%string]
          \/ snd result = [("Неожиданная ошибка: " ++ str e)%string])).
Proof.
  intros Hi Hq Ht. cbn zeta. unfold main, main_body.
  destruct (FileSyncService.__init__ cfg st) as [r s1].
  cbn [fst] in Hi. subst r. cbv beta iota.
  pose proof (run_at_sleep cfg ticks1 t ticks2 s1 e Hq Ht) as Hrun.
  cbn zeta in Hrun. rewrite Hrun. split; intros He.
  - rewrite He. split; reflexivity.
  - rewrite (Exception_not_interrupt e He), He. cbv beta iota. rewrite He.
    destruct (isinstance e ValueError || isinstance e FileNotFoundError
              || isinstance e NotADirectoryError
              || isinstance e PermissionError);
      cbn [fst snd log add_log]; (split; [reflexivity|]);
      (split; [apply last_last | auto]).
Qed.

Lemma main_end_of_run_witness :
  fst (FileSyncService.__init__ cfg0 (state0 fs1 net_ok [])) = Ret tt
  /\ Forall quiet [mkTick fs1 net_ok None]
  /\ fst (fst (main (Ret cfg0)
                 ([mkTick fs1 net_ok None]
                    ++ mkTick fs1 net_ok (Some (mkExn KeyboardInterrupt ""))
                    :: [])
                 (state0 fs1 net_ok []))) = Finished (Ret tt)
  /\ fst (fst (main (Ret cfg0)
                 ([mkTick fs1 net_ok None]
                    ++ mkTick fs1 net_ok
                         (Some (mkExn OverflowError "timestamp too large"))
                    :: [])
                 (state0 fs1 net_ok []))) = Finished (Raise (sys_exit "1")).
Proof.
  assert (Hq : Forall quiet [mkTick fs1 net_ok None]) by (repeat constructor).
  split; [reflexivity|]. split; [exact Hq|]. split.
  - exact (proj1 (proj1 (main_end_of_run cfg0 [mkTick fs1 net_ok None]
                           (mkTick fs1 net_ok (Some (mkExn KeyboardInterrupt "")))
                           [] (state0 fs1 net_ok [])
                           (mkExn KeyboardInterrupt "") eq_refl Hq eq_refl)
                    eq_refl)).
  - exact (proj1 (proj2 (main_end_of_run cfg0 [mkTick fs1 net_ok None]
                           (mkTick fs1 net_ok
                              (Some (mkExn OverflowError "timestamp too large")))
                           [] (state0 fs1 net_ok [])
                           (mkExn OverflowError "timestamp too large")
                           eq_refl Hq eq_refl)
                    eq_refl)).
Defined.

(** ** The configuration *)

Lemma validate_config_char h self s :
  match config._validate_config h self s with
  | (Ret _, s') =>
      host_stat h (sync_folder_path self) = OsOk true
      /\ (0 < sync_period self)%Z
      /\ (((exists d, host_stat h (log_dir_of h self) = OsOk d) /\ s' = s)
          \/ (missing h (log_dir_of h self)
              /\ exists made,
                   host_mkdir h (log_dir_of h self) = (made, None)
                   /\ s' = (s ++ made)%list))
  | (Raise e, s') =>
      (s' = s /\ (config_error e = true \/ e = exn_of_errno EIO))
      \/ (exists made e0,
            host_mkdir h (log_dir_of h self) = (made, Some e0)
            /\ s' = (s ++ made)%list
            /\ if isinstance e0 PermissionError
               then config_error e = true else e = e0)
  end.
Proof.
  unfold config._validate_config, config.Path_exists, config.Path_is_dir,
    config.Path_mkdir, log_dir_of, missing, try_except, bind, ret, raise,
    modify.
  destruct (host_stat h (sync_folder_path self)) as [d|[]] eqn:E1;
    cbn [negb]; auto.
  destruct d; cbn [negb]; auto.
  destruct (sync_period self <=? 0)%Z eqn:Ep; auto.
  apply Z.leb_gt in Ep.
  destruct (host_stat h (Path_parent h (log_file_path self))) as [d|[]] eqn:E2;
    cbn [negb]; eauto 10.
  all: destruct (host_mkdir h (Path_parent h (log_file_path self)))
         as [made [e0|]] eqn:E3; cbv beta iota; [|eauto 10].
  all: unfold except1; destruct (isinstance e0 PermissionError) eqn:Hp;
    cbv beta iota; right; exists made, e0; rewrite Hp; auto.
Qed.

Lemma config_init_char h s :
  match config.__init__ h s with
  | (Ret c, s') =>
      os_getenv h "SYNC_FOLDER_PATH" = Some (sync_folder_path c)
      /\ os_getenv h "CLOUD_FOLDER_NAME" = Some (cloud_folder_name c)
      /\ os_getenv h "YANDEX_TOKEN" = Some (yandex_token c)
      /\ (exists text, os_getenv h "SYNC_PERIOD" = Some text
                       /\ py_int h text = inl (sync_period c))
      /\ os_getenv h "LOG_FILE_PATH" = Some (log_file_path c)
      /\ host_stat h (sync_folder_path c) = OsOk true
      /\ (0 < sync_period c)%Z
      /\ (((exists d, host_stat h (log_dir_of h c) = OsOk d) /\ s' = s)
          \/ (missing h (log_dir_of h c)
              /\ exists made,
                   host_mkdir h (log_dir_of h c) = (made, None)
                   /\ s' = (s ++ made)%list))
  | (Raise e, s') =>
      (s' = s /\ (config_error e = true \/ e = exn_of_errno EIO))
      \/ (exists log_file made e0,
            os_getenv h "LOG_FILE_PATH" = Some log_file
            /\ host_mkdir h (Path_parent h log_file) = (made, Some e0)
            /\ s' = (s ++ made)%list
            /\ if isinstance e0 PermissionError
               then config_error e = true else e = e0)
  end.
Proof.
  unfold config.__init__, config._get_env_var, config.int.
  unfold bind at 1.
  destruct (os_getenv h "SYNC_FOLDER_PATH") as [v1|]; cbn [ret raise];
    [|auto].
  unfold bind at 1.
  destruct (os_getenv h "CLOUD_FOLDER_NAME") as [v2|]; cbn [ret raise];
    [|auto].
  unfold bind at 1.
  destruct (os_getenv h "YANDEX_TOKEN") as [v3|]; cbn [ret raise]; [|auto].
  unfold bind at 1.
  destruct (os_getenv h "SYNC_PERIOD") as [v4|]; cbn [ret raise]; [|auto].
  unfold bind at 1.
  destruct (py_int h v4) as [z|msg] eqn:Ei; cbn [ret raise]; [|auto].
  unfold bind at 1.
  destruct (os_getenv h "LOG_FILE_PATH") as [v5|]; cbn [ret raise]; [|auto].
  cbn zeta. unfold bind.
  pose proof (validate_config_char h (mkConfig v1 v2 v3 z v5) s) as Hv.
  destruct (config._validate_config h (mkConfig v1 v2 v3 z v5) s)
    as [[[]|e] s'].
  - unfold ret. cbn [sync_folder_path cloud_folder_name yandex_token
                     sync_period log_file_path] in *.
    destruct Hv as (H1 & H2 & H3). repeat split; eauto.
  - destruct Hv as [Hv|(made & e0 & Hm & Hs & He)]; [now left|].
    right. exists v5, made, e0. auto.
Qed.



(** X23: a configuration that [Config()] returns is valid: its five fields
    are the values of the five variables of the environment, the period is
    the integer read from its variable and is positive, and the watched
    folder exists and is a directory.  The path of the parent of the log
    file existed (as a directory or not), and nothing was created; or it
    was missing, [mkdir] returned, and what was created is what that one
    call of [mkdir] created. *)
Theorem config_postcondition h created c created' :
  config.__init__ h created = (Ret c, created') ->
  os_getenv h "SYNC_FOLDER_PATH" = Some (sync_folder_path c)
  /\ os_getenv h "CLOUD_FOLDER_NAME" = Some (cloud_folder_name c)
  /\ os_getenv h "YANDEX_TOKEN" = Some (yandex_token c)
  /\ (exists text, os_getenv h "SYNC_PERIOD" = Some text
                   /\ py_int h text = inl (sync_period c))
  /\ os_getenv h "LOG_FILE_PATH" = Some (log_file_path c)
  /\ host_stat h (sync_folder_path c) = OsOk true
  /\ (0 < sync_period c)%Z
  /\ (((exists d, host_stat h (log_dir_of h c) = OsOk d)
       /\ created' = created)
      \/ (missing h (log_dir_of h c)
          /\ exists made,
               host_mkdir h (log_dir_of h c) = (made, None)
               /\ created' = (created ++ made)%list)).
Proof.
  intros H. pose proof (config_init_char h created) as Hc.
  rewrite H in Hc. exact Hc.
Qed.

Lemma config_postcondition_witness :
  config.__init__ (host0 "60" (["/var"; "/var/log"], None)) []
  = (Ret cfg0, ["/var"; "/var/log"])
  /\ host_stat (host0 "60" (["/var"; "/var/log"], None))
               (sync_folder_path cfg0) = OsOk true
  /\ (0 < sync_period cfg0)%Z.
Proof.
  split; [reflexivity|].
  destruct (config_postcondition (host0 "60" (["/var"; "/var/log"], None))
              [] cfg0 ["/var"; "/var/log"] eq_refl)
    as (_ & _ & _ & _ & _ & H1 & H2 & _).
  split; [exact H1 | exact H2].
Defined.


